(** * STLMeshIO: a shallow embedding of itkSTLMeshIO.cxx / itkSTLMeshIO.h

    The development follows the source file top to bottom: the standard
    library pieces the code relies on ([std::string::find], [std::getline],
    the stream extractors and inserters), the 32-bit floating point values
    held in points, the [STLMeshIO] object with its two file streams, and
    then each member function in the order of the .cxx file. *)

From Stdlib Require Import String Ascii ZArith NArith Bool Lia List.
From Stdlib Require Import Floats.SpecFloat DecimalString.
Import ListNotations.

Local Open Scope list_scope.

(* ===================================================================== *)
(** ** std::string                                                        *)
(* ===================================================================== *)

(** A [std::string] is a sequence of [char]; literals are written with
    [lit "..."]. *)
Definition std_string := list ascii.

Definition lit (s : string) : std_string := list_ascii_of_string s.

Definition newline : ascii := "010"%char.

(** [starts_with pat s]: [pat] occurs in [s] at position 0. *)
Fixpoint starts_with (pat s : std_string) : bool :=
  match pat, s with
  | [], _ => true
  | _ :: _, [] => false
  | c :: pat', d :: s' => Ascii.eqb c d && starts_with pat' s'
  end.

(** [s.find(pat)]: the first position at which [pat] occurs in [s];
    [None] stands for [std::string::npos]. *)
Fixpoint find (s pat : std_string) : option nat :=
  if starts_with pat s then Some 0
  else match s with
       | [] => None
       | _ :: s' => option_map S (find s' pat)
       end.

(** [s.find(pat) != std::string::npos] *)
Definition found (s pat : std_string) : bool :=
  match find s pat with Some _ => true | None => false end.

(** [s.rfind(c)] for a single character. *)
Fixpoint rfind_char (s : std_string) (c : ascii) : option nat :=
  match s with
  | [] => None
  | d :: s' =>
      match rfind_char s' c with
      | Some i => Some (S i)
      | None => if Ascii.eqb d c then Some 0 else None
      end
  end.

(** What "the line contains the substring" means, independently of how
    [find] searches. *)
Definition Contains (s pat : std_string) : Prop :=
  exists pre post, s = pre ++ pat ++ post.

(** Unsigned integers as [operator<<] prints them. *)
Definition show_unsigned (n : Z) : std_string :=
  lit (NilEmpty.string_of_uint (N.to_uint (Z.to_N n))).

(* ===================================================================== *)
(** ** Fixed-width integers                                               *)
(* ===================================================================== *)

(** [unsigned int] (32 bits), [IdentifierType] and [SizeValueType]
    (64 bits) wrap around; [int32_t] is two's complement. *)
Definition wrap_uint32 (z : Z) : Z := (z mod 2 ^ 32)%Z.
Definition wrap_uint64 (z : Z) : Z := (z mod 2 ^ 64)%Z.
Definition wrap_int32 (z : Z) : Z := ((z + 2 ^ 31) mod 2 ^ 32 - 2 ^ 31)%Z.

(** The object representation of an integer on a little-endian host:
    [n] bytes, least significant first. *)
Fixpoint le_bytes (n : nat) (z : Z) : std_string :=
  match n with
  | O => []
  | S n' => ascii_of_N (Z.to_N (z mod 256)) :: le_bytes n' (z / 256)
  end.

(** The value of a little-endian byte sequence, read as unsigned. *)
Fixpoint le_value (bs : std_string) : Z :=
  match bs with
  | [] => 0%Z
  | b :: bs' => (Z.of_N (N_of_ascii b) + 256 * le_value bs')%Z
  end.

(* ===================================================================== *)
(** ** PointValueType = float                                             *)
(* ===================================================================== *)

(** IEEE 754 binary32, on the specification floats of the standard
    library: 24 bits of precision, exponents below 128, round to nearest
    even. *)
Module Float32.

Definition prec : Z := 24%Z.
Definition emax : Z := 128%Z.

Definition t := spec_float.

Definition zero : t := S754_zero false.
Definition sub (a b : t) : t := SFsub prec emax a b.
Definition mul (a b : t) : t := SFmul prec emax a b.
Definition ltb (a b : t) : bool := SFltb a b.
Definition eqb (a b : t) : bool := SFeqb a b.
(** [a != b] *)
Definition neb (a b : t) : bool := negb (SFeqb a b).

(** [static_cast<float>] of an integer. *)
Definition of_Z (z : Z) : t := binary_normalize prec emax z 0 false.

(** [static_cast<float>] of a value held in a wider binary format. *)
Definition narrow (x : spec_float) : t :=
  match x with
  | S754_finite s m e =>
      binary_normalize prec emax (cond_Zopp s (Zpos m)) e s
  | _ => x
  end.

(** The 32-bit pattern of a value.  The specification floats carry
    neither the sign nor the payload of a NaN: a NaN is given the
    pattern of the default quiet NaN, where the program writes the bits
    the processor produced. *)
Definition bits (x : t) : Z :=
  let sign (s : bool) := if s then (2 ^ 31)%Z else 0%Z in
  match x with
  | S754_zero s => sign s
  | S754_infinity s => (sign s + 255 * 2 ^ 23)%Z
  | S754_nan => (255 * 2 ^ 23 + 2 ^ 22)%Z
  | S754_finite s m e =>
      if (Zpos m <? 2 ^ 23)%Z
      then (sign s + Zpos m)%Z
      else (sign s + (e + 150) * 2 ^ 23 + (Zpos m - 2 ^ 23))%Z
  end.

(** [sizeof(float)] *)
Definition size : nat := 4.

(** The bytes [write(reinterpret_cast<const char *>(&value), sizeof(value))]
    sends to the stream. *)
Definition bytes (x : t) : std_string := le_bytes size (bits x).

End Float32.

Definition PointValueType := Float32.t.

(** [Point<float,3>], [Vector<float,3>] and [CovariantVector<float,3>]
    are all arrays of three components. *)
Record FixedArray3 := mkArray3 {
  elem0 : PointValueType;
  elem1 : PointValueType;
  elem2 : PointValueType
}.

Definition PointType := FixedArray3.
Definition VectorType := FixedArray3.
Definition NormalType := FixedArray3.

(** [p - q] on points: the vector of component differences. *)
Definition point_minus (p q : PointType) : VectorType :=
  mkArray3 (Float32.sub (elem0 p) (elem0 q))
           (Float32.sub (elem1 p) (elem1 q))
           (Float32.sub (elem2 p) (elem2 q)).

(** ITK's [CrossProduct(c, a, b)] for three-dimensional vectors. *)
Definition CrossProduct (a b : VectorType) : NormalType :=
  mkArray3
    (Float32.sub (Float32.mul (elem1 a) (elem2 b)) (Float32.mul (elem2 a) (elem1 b)))
    (Float32.sub (Float32.mul (elem2 a) (elem0 b)) (Float32.mul (elem0 a) (elem2 b)))
    (Float32.sub (Float32.mul (elem0 a) (elem1 b)) (Float32.mul (elem1 a) (elem0 b))).

(** [STLMeshIO::PointCompare]: the strict order of [m_PointsSet]. *)
Definition PointCompare (p1 p2 : PointType) : bool :=
  if Float32.neb (elem0 p1) (elem0 p2) then Float32.ltb (elem0 p1) (elem0 p2)
  else if Float32.neb (elem1 p1) (elem1 p2) then Float32.ltb (elem1 p1) (elem1 p2)
  else Float32.ltb (elem2 p1) (elem2 p2).

(** [std::set<PointType, PointCompare>::insert] on the ordered sequence
    of the set's elements: an element equivalent to [p] under the order
    keeps its place and [p] is dropped. *)
Fixpoint set_insert (p : PointType) (s : list PointType) : list PointType :=
  match s with
  | [] => [p]
  | q :: s' =>
      if PointCompare p q then p :: q :: s'
      else if PointCompare q p then q :: set_insert p s'
      else q :: s'
  end.

(* ===================================================================== *)
(** ** std::ifstream                                                      *)
(* ===================================================================== *)

(** An input file stream: whether a file is attached, the bytes of the
    file, the read position, and the state flags the code can observe.
    ([badbit] is never raised by an operation used here.) *)
Record ifstream := mkIfstream {
  i_is_open : bool;
  i_data : std_string;
  i_pos : nat;
  i_eofbit : bool;
  i_failbit : bool
}.

Definition ifstream_closed : ifstream := mkIfstream false [] 0 false false.

Definition i_good (s : ifstream) : bool := negb (i_eofbit s) && negb (i_failbit s).

(** The bytes not yet read. *)
Definition i_rest (s : ifstream) : std_string :=
  if i_is_open s then skipn (i_pos s) (i_data s) else [].

Definition i_setstate (eof fail : bool) (s : ifstream) : ifstream :=
  mkIfstream (i_is_open s) (i_data s) (i_pos s)
             (i_eofbit s || eof) (i_failbit s || fail).

Definition i_advance (n : nat) (s : ifstream) : ifstream :=
  mkIfstream (i_is_open s) (i_data s) (i_pos s + n) (i_eofbit s) (i_failbit s).

(** [s.open(name, mode)]: fails when a file is already attached or the
    file cannot be opened; on success the flags are cleared and reading
    starts at offset 0.  [contents] is what the file system holds under
    the name. *)
Definition i_open (contents : option std_string) (s : ifstream) : ifstream :=
  if i_is_open s then i_setstate false true s
  else match contents with
       | Some d => mkIfstream true d 0 false false
       | None => i_setstate false true s
       end.

(** [s.close()] *)
Definition i_close (s : ifstream) : ifstream :=
  if i_is_open s
  then mkIfstream false [] 0 (i_eofbit s) (i_failbit s)
  else i_setstate false true s.

(** The characters before the first ['\n']. *)
Fixpoint until_newline (r : std_string) : std_string :=
  match r with
  | [] => []
  | c :: r' => if Ascii.eqb c newline then [] else c :: until_newline r'
  end.

(** [std::getline(s, str, '\n')]: on a stream that is not good the
    string is left as it is and [failbit] is set.  Otherwise the string
    is replaced by the characters up to the delimiter, which is consumed
    and not stored; reaching the end of the file sets [eofbit], and
    extracting nothing at all sets [failbit] as well. *)
Definition getline (s : ifstream) (str : std_string) : ifstream * std_string :=
  if i_good s then
    let r := i_rest s in
    let line := until_newline r in
    if length line <? length r
    then (i_advance (S (length line)) s, line)
    else (i_setstate true (match line with [] => true | _ => false end)
                     (i_advance (length line) s), line)
  else (i_setstate false true s, str).

(** [std::isspace] in the "C" locale. *)
Definition isspace (c : ascii) : bool :=
  let n := nat_of_ascii c in
  (n =? 32) || ((9 <=? n) && (n <=? 13)).

Fixpoint skip_ws (r : std_string) : std_string :=
  match r with
  | [] => []
  | c :: r' => if isspace c then skip_ws r' else r
  end.

Fixpoint until_ws (r : std_string) : std_string :=
  match r with
  | [] => []
  | c :: r' => if isspace c then [] else c :: until_ws r'
  end.

(** The sentry of a formatted extractor: skips leading white space on a
    good stream.  It fails when the stream was not good or white space
    ran to the end of the file, and sets the flags accordingly. *)
Definition i_sentry (s : ifstream) : ifstream * bool :=
  if i_good s then
    let r := i_rest s in
    let r' := skip_ws r in
    let s' := i_advance (length r - length r') s in
    match r' with
    | [] => (i_setstate true true s', false)
    | _ :: _ => (s', true)
    end
  else (i_setstate false true s, false).

(** [s >> str] for a [std::string]: a maximal run of non-space
    characters. *)
Definition extract_string (s : ifstream) (str : std_string) : ifstream * std_string :=
  let '(s1, ok) := i_sentry s in
  if ok then
    let r := i_rest s1 in
    let tok := until_ws r in
    let s2 := i_advance (length tok) s1 in
    (if length tok <? length r then s2 else i_setstate true false s2, tok)
  else (s1, str).

(** [s.read(buf, n)]: the bytes obtained, fewer than [n] when the file
    ends first (then [eofbit] and [failbit] are set); nothing on a
    stream that is not good. *)
Definition i_read (n : nat) (s : ifstream) : ifstream * std_string :=
  if i_good s then
    let got := firstn n (i_rest s) in
    let s' := i_advance (length got) s in
    (if length got <? n then i_setstate true true s' else s', got)
  else (i_setstate false true s, []).

(* ===================================================================== *)
(** ** std::ofstream                                                      *)
(* ===================================================================== *)

(** An output file stream: whether a file is attached, whether an
    operation has failed, and the bytes sent to the file so far. *)
Record ofstream := mkOfstream {
  o_is_open : bool;
  o_failed : bool;
  o_bytes : std_string
}.

Definition ofstream_closed : ofstream := mkOfstream false false [].

(** [s.open(name, std::ios::out)]: truncates the file. *)
Definition o_open (can_create : bool) (s : ofstream) : ofstream :=
  if o_is_open s then mkOfstream true true (o_bytes s)
  else if can_create then mkOfstream true false []
  else mkOfstream false true (o_bytes s).

Definition o_close (s : ofstream) : ofstream :=
  if o_is_open s then mkOfstream false (o_failed s) (o_bytes s)
  else mkOfstream false true (o_bytes s).

(** Every inserter and [write] call: the bytes reach the file when the
    stream is open and no earlier operation failed; otherwise nothing is
    written and the stream is marked failed. *)
Definition o_put (bs : std_string) (s : ofstream) : ofstream :=
  if o_is_open s && negb (o_failed s)
  then mkOfstream true false (o_bytes s ++ bs)
  else mkOfstream (o_is_open s) true (o_bytes s).

(** [s << std::setfill(' ') << std::setw(w) << text]: the text, padded
    on the left to [w] characters (never truncated). *)
Definition setw_fill_space (w : nat) (text : std_string) : std_string :=
  repeat " "%char (w - length text) ++ text.

(** [std::endl] *)
Definition endl : std_string := [newline].

(* ===================================================================== *)
(** ** The environment of an STLMeshIO object                             *)
(* ===================================================================== *)

(** [MeshIOBase::FileType] *)
Inductive FileType := ASCII | BINARY | TYPENOTAPPLICABLE.

(** [MeshIOBase::IOComponentType] *)
Inductive IOComponentType :=
| UNKNOWNCOMPONENTTYPE
| UCHAR | CHAR | USHORT | SHORT | UINT | INT | ULONG | LONG
| ULONGLONG | LONGLONG | FLOAT | DOUBLE | LDOUBLE.

Definition FileType_eqb (a b : FileType) : bool :=
  match a, b with
  | ASCII, ASCII | BINARY, BINARY | TYPENOTAPPLICABLE, TYPENOTAPPLICABLE => true
  | _, _ => false
  end.

(** [MeshIOBase::CellGeometryType], the two enumerators the writer
    tests (ITK's [CellGeometry] enumeration). *)
Definition TRIANGLE_CELL : Z := 2%Z.
Definition POLYGON_CELL : Z := 4%Z.

(** Everything the code obtains from outside the class: the platform
    the file is compiled for, the file system as KWSys and the file
    streams see it, and the numeric formatting and parsing of the C++
    library, which the code uses with its default settings.

    [num_get_float r] is the conversion [operator>>(float&)] performs
    on the unread characters [r] once white space is skipped: the value
    when the conversion succeeds, and how many characters it consumed. *)
Record Env := mkEnv {
  WIN32 : bool;
  FileExists : std_string -> bool;
  GetFilenameLastExtension : std_string -> std_string;
  file_contents : std_string -> option std_string;
  can_create : std_string -> bool;
  show_float : PointValueType -> std_string;
  num_get_float : std_string -> option PointValueType * nat
}.

(** What [itkExceptionMacro] throws, one constructor per call site
    family, with the values streamed into the message. *)
Inductive ExceptionObject :=
| UnableToOpenFile (fileName : std_string)
| ParsingErrorMissed (expected : std_string) (lineNumber : Z) (foundLine : std_string)
| ParsingErrorMissedVertex (lineNumber : Z)
| OnlySupports3DPoints
| UnknownPointComponentType.

(** The message text each call site builds. *)
Definition GetDescription (e : ExceptionObject) : std_string :=
  match e with
  | UnableToOpenFile f =>
      lit "Unable to open file" ++ [newline] ++ lit "inputFilename= " ++ f
  | ParsingErrorMissed expected n line =>
      lit "Parsing error: missed " ++ expected ++ lit " in line "
        ++ show_unsigned n ++ lit " found: " ++ line
  | ParsingErrorMissedVertex n =>
      lit "Parsing error: missed 'vertex' in line " ++ show_unsigned n
  | OnlySupports3DPoints => lit "STL only supports 3D points"
  | UnknownPointComponentType => lit "Unknonwn point component type"
  end.

(* ===================================================================== *)
(** ** The STLMeshIO object                                               *)
(* ===================================================================== *)

(** The data members the member functions touch: those inherited from
    [MeshIOBase] first, then the ones the header declares.
    [m_PointsSet] is the set [InsertPointIntoSet] inserts into, ordered
    by [PointCompare]; [m_PointsMap] and [m_LatestPointId] are the
    members the header declares for point identifiers. *)
Record STLMeshIO := mkSTLMeshIO {
  m_FileName : std_string;
  m_FileType : FileType;
  m_PointDimension : Z;
  m_PointComponentType : IOComponentType;
  m_NumberOfPoints : Z;
  m_NumberOfCells : Z;
  m_OutputStream : ofstream;
  m_InputStream : ifstream;
  m_InputLine : std_string;
  m_Points : list PointType;
  m_InputLineNumber : Z;
  m_PointsSet : list PointType;
  m_PointsMap : list (PointType * Z);
  m_LatestPointId : Z
}.

Definition set_FileType (v : FileType) (io : STLMeshIO) : STLMeshIO :=
  mkSTLMeshIO (m_FileName io) v (m_PointDimension io) (m_PointComponentType io)
    (m_NumberOfPoints io) (m_NumberOfCells io) (m_OutputStream io) (m_InputStream io)
    (m_InputLine io) (m_Points io) (m_InputLineNumber io) (m_PointsSet io)
    (m_PointsMap io) (m_LatestPointId io).

Definition set_NumberOfCells (v : Z) (io : STLMeshIO) : STLMeshIO :=
  mkSTLMeshIO (m_FileName io) (m_FileType io) (m_PointDimension io) (m_PointComponentType io)
    (m_NumberOfPoints io) v (m_OutputStream io) (m_InputStream io)
    (m_InputLine io) (m_Points io) (m_InputLineNumber io) (m_PointsSet io)
    (m_PointsMap io) (m_LatestPointId io).

Definition set_OutputStream (v : ofstream) (io : STLMeshIO) : STLMeshIO :=
  mkSTLMeshIO (m_FileName io) (m_FileType io) (m_PointDimension io) (m_PointComponentType io)
    (m_NumberOfPoints io) (m_NumberOfCells io) v (m_InputStream io)
    (m_InputLine io) (m_Points io) (m_InputLineNumber io) (m_PointsSet io)
    (m_PointsMap io) (m_LatestPointId io).

Definition set_InputStream (v : ifstream) (io : STLMeshIO) : STLMeshIO :=
  mkSTLMeshIO (m_FileName io) (m_FileType io) (m_PointDimension io) (m_PointComponentType io)
    (m_NumberOfPoints io) (m_NumberOfCells io) (m_OutputStream io) v
    (m_InputLine io) (m_Points io) (m_InputLineNumber io) (m_PointsSet io)
    (m_PointsMap io) (m_LatestPointId io).

Definition set_InputLine (v : std_string) (io : STLMeshIO) : STLMeshIO :=
  mkSTLMeshIO (m_FileName io) (m_FileType io) (m_PointDimension io) (m_PointComponentType io)
    (m_NumberOfPoints io) (m_NumberOfCells io) (m_OutputStream io) (m_InputStream io)
    v (m_Points io) (m_InputLineNumber io) (m_PointsSet io)
    (m_PointsMap io) (m_LatestPointId io).

Definition set_Points (v : list PointType) (io : STLMeshIO) : STLMeshIO :=
  mkSTLMeshIO (m_FileName io) (m_FileType io) (m_PointDimension io) (m_PointComponentType io)
    (m_NumberOfPoints io) (m_NumberOfCells io) (m_OutputStream io) (m_InputStream io)
    (m_InputLine io) v (m_InputLineNumber io) (m_PointsSet io)
    (m_PointsMap io) (m_LatestPointId io).

Definition set_InputLineNumber (v : Z) (io : STLMeshIO) : STLMeshIO :=
  mkSTLMeshIO (m_FileName io) (m_FileType io) (m_PointDimension io) (m_PointComponentType io)
    (m_NumberOfPoints io) (m_NumberOfCells io) (m_OutputStream io) (m_InputStream io)
    (m_InputLine io) (m_Points io) v (m_PointsSet io)
    (m_PointsMap io) (m_LatestPointId io).

Definition set_PointsSet (v : list PointType) (io : STLMeshIO) : STLMeshIO :=
  mkSTLMeshIO (m_FileName io) (m_FileType io) (m_PointDimension io) (m_PointComponentType io)
    (m_NumberOfPoints io) (m_NumberOfCells io) (m_OutputStream io) (m_InputStream io)
    (m_InputLine io) (m_Points io) (m_InputLineNumber io) v
    (m_PointsMap io) (m_LatestPointId io).

(** [MeshIOBase::SetPointDimension], through which the caller announces
    the dimension of the points before a write. *)
Definition set_PointDimension (v : Z) (io : STLMeshIO) : STLMeshIO :=
  mkSTLMeshIO (m_FileName io) (m_FileType io) v (m_PointComponentType io)
    (m_NumberOfPoints io) (m_NumberOfCells io) (m_OutputStream io) (m_InputStream io)
    (m_InputLine io) (m_Points io) (m_InputLineNumber io) (m_PointsSet io)
    (m_PointsMap io) (m_LatestPointId io).

(* ===================================================================== *)
(** ** Member functions as state transformers                             *)
(* ===================================================================== *)

(** How a member function ends: it returns, it throws, or it runs into
    behaviour the language leaves undefined (an indeterminate value is
    read, an index is out of bounds, a signed counter overflows).
    [Unfinished] is a loop stopped by the iteration bound of the model;
    [ReadMeshInternalFromAscii] is shown never to produce it. *)
Inductive outcome (A : Type) :=
| Returned (a : A)
| Thrown (e : ExceptionObject)
| UndefinedBehaviour
| Unfinished.

Arguments Returned {A} a.
Arguments Thrown {A} e.
Arguments UndefinedBehaviour {A}.
Arguments Unfinished {A}.

(** A member function: the object before, the outcome and the object
    after.  An exception leaves the object as it was when thrown. *)
Definition M (A : Type) : Type := STLMeshIO -> outcome A * STLMeshIO.

Definition ret {A} (a : A) : M A := fun io => (Returned a, io).

Definition bind {A B} (m : M A) (k : A -> M B) : M B :=
  fun io =>
    match m io with
    | (Returned a, io') => k a io'
    | (Thrown e, io') => (Thrown e, io')
    | (UndefinedBehaviour, io') => (UndefinedBehaviour, io')
    | (Unfinished, io') => (Unfinished, io')
    end.

Definition throw {A} (e : ExceptionObject) : M A := fun io => (Thrown e, io).
Definition undefined {A} : M A := fun io => (UndefinedBehaviour, io).
Definition unfinished {A} : M A := fun io => (Unfinished, io).
Definition gets {A} (f : STLMeshIO -> A) : M A := fun io => (Returned (f io), io).
Definition modify (f : STLMeshIO -> STLMeshIO) : M unit := fun io => (Returned tt, f io).

Declare Scope stl_scope.
Delimit Scope stl_scope with stl.
Notation "x <- m ;; k" := (bind m (fun x => k))
  (at level 61, m at next level, right associativity) : stl_scope.
Notation "m ;; k" := (bind m (fun _ => k))
  (at level 61, right associativity) : stl_scope.
Local Open Scope stl_scope.

(** Run [body] [n] times. *)
Fixpoint times (n : nat) (body : M unit) : M unit :=
  match n with
  | O => ret tt
  | S n' => body ;; times n' body
  end.

(** [this->m_OutputStream << bytes] and [m_OutputStream.write(...)] *)
Definition out (bs : std_string) : M unit :=
  modify (fun io => set_OutputStream (o_put bs (m_OutputStream io)) io).

(** [this->m_InputStream.read(buf, n)] *)
Definition in_read (n : nat) : M std_string :=
  fun io =>
    let '(s, got) := i_read n (m_InputStream io) in
    (Returned got, set_InputStream s io).

Section MemberFunctions.

Context (env : Env).

(* --------------------------------------------------------------------- *)
(** *** CanReadFile, CanWriteFile                                         *)
(* --------------------------------------------------------------------- *)

Definition string_eqb (a b : std_string) : bool :=
  if list_eq_dec ascii_dec a b then true else false.

Definition CanReadFile (fileName : std_string) : bool :=
  if negb (FileExists env fileName) then false
  else
    let extension := GetFilenameLastExtension env fileName in
    if negb (string_eqb extension (lit ".stl")) && negb (string_eqb extension (lit ".STL"))
    then false
    else true.

Definition CanWriteFile (fileName : std_string) : bool :=
  let extension := GetFilenameLastExtension env fileName in
  if negb (string_eqb extension (lit ".stl")) && negb (string_eqb extension (lit ".STL"))
  then false
  else true.

(* --------------------------------------------------------------------- *)
(** *** Opening and closing the streams                                   *)
(* --------------------------------------------------------------------- *)

(** [m_InputStream.open(m_FileName.c_str(), mode)]; text and binary
    mode read the same bytes. *)
Definition InputStream_open : M unit :=
  modify (fun io =>
    set_InputStream (i_open (file_contents env (m_FileName io)) (m_InputStream io)) io).

Definition InputStream_close : M unit :=
  modify (fun io => set_InputStream (i_close (m_InputStream io)) io).

Definition OutputStream_open : M unit :=
  modify (fun io =>
    set_OutputStream (o_open (can_create env (m_FileName io)) (m_OutputStream io)) io).

(** The opening sequence shared by [ReadMeshInformation], [ReadPoints]
    and [ReadCells]: open according to the file type, throw when no
    file is attached afterwards. *)
Definition OpenInputForFileType : M unit :=
  t <- gets m_FileType ;;
  match t with
  | ASCII => InputStream_open
  | BINARY => InputStream_open
  | TYPENOTAPPLICABLE => ret tt
  end ;;
  opened <- gets (fun io => i_is_open (m_InputStream io)) ;;
  if negb opened
  then (name <- gets m_FileName ;; throw (UnableToOpenFile name))
  else ret tt.

(* --------------------------------------------------------------------- *)
(** *** Reading: ASCII                                                    *)
(* --------------------------------------------------------------------- *)

(** [std::getline(this->m_InputStream, this->m_InputLine, '\n')] *)
Definition getline_InputLine : M unit :=
  modify (fun io =>
    let '(s, line) := getline (m_InputStream io) (m_InputLine io) in
    set_InputLine line (set_InputStream s io)).

Definition incr_InputLineNumber : M unit :=
  modify (fun io => set_InputLineNumber (wrap_uint32 (m_InputLineNumber io + 1)) io).

Definition is_empty (s : std_string) : bool :=
  match s with [] => true | _ :: _ => false end.

Definition ReadStringFromAscii (expected : std_string) : M unit :=
  line <- gets m_InputLine ;;
  (if is_empty line then getline_InputLine else ret tt) ;;
  line <- gets m_InputLine ;;
  (if negb (found line expected)
   then (n <- gets m_InputLineNumber ;; throw (ParsingErrorMissed expected n line))
   else ret tt) ;;
  modify (set_InputLine []) ;;
  incr_InputLineNumber.

Definition CheckStringFromAscii (expected : std_string) : M bool :=
  getline_InputLine ;;
  line <- gets m_InputLine ;;
  if found line expected
  then (incr_InputLineNumber ;; ret true)
  else ret false.

(** A local [PointType] variable: a component is [None] until it is
    first assigned. *)
Record LocalPoint := mkLocalPoint {
  comp0 : option PointValueType;
  comp1 : option PointValueType;
  comp2 : option PointValueType
}.

Definition uninitialized : LocalPoint := mkLocalPoint None None None.

(** [is >> value] for a [float]: on a stream whose sentry fails the
    variable is left alone; a failed conversion stores zero and sets
    [failbit]; running into the end of the file sets [eofbit].  (A
    number too large for a [float] also sets [failbit], and the library
    then stores the largest [float] rather than zero; no statement
    here depends on which value is stored when [failbit] is set.) *)
Definition extract_float (s : ifstream) (v : option PointValueType)
  : ifstream * option PointValueType :=
  let '(s1, ok) := i_sentry s in
  if ok then
    let r := i_rest s1 in
    let '(res, n) := num_get_float env r in
    let n := Nat.min n (length r) in
    let s2 := i_advance n s1 in
    let s3 := if n <? length r then s2 else i_setstate true false s2 in
    match res with
    | Some x => (s3, Some x)
    | None => (i_setstate false true s3, Some Float32.zero)
    end
  else (s1, v).

(** ITK's [operator>>(std::istream &, Point &)]: the components in
    turn. *)
Definition extract_point (s : ifstream) (p : LocalPoint) : ifstream * LocalPoint :=
  let '(s, c0) := extract_float s (comp0 p) in
  let '(s, c1) := extract_float s (comp1 p) in
  let '(s, c2) := extract_float s (comp2 p) in
  (s, mkLocalPoint c0 c1 c2).

(** [InsertPointIntoSet]: the three components are read (the bytes
    gathered in [pointHash] are not used afterwards) and the point is
    inserted into [m_PointsSet].  Nothing is returned, and neither
    [m_PointsMap] nor [m_LatestPointId] is touched. *)
Definition InsertPointIntoSet (point : LocalPoint) : M unit :=
  match comp0 point, comp1 point, comp2 point with
  | Some valueX, Some valueY, Some valueZ =>
      modify (fun io =>
        set_PointsSet (set_insert (mkArray3 valueX valueY valueZ) (m_PointsSet io)) io)
  | _, _, _ => undefined
  end.

Definition ReadPointAsAscii (point : LocalPoint) : M LocalPoint :=
  keywword <- (fun io =>
    let '(s, k) := extract_string (m_InputStream io) [] in
    (Returned k, set_InputStream s io)) ;;
  (if negb (found keywword (lit "vertex"))
   then (n <- gets m_InputLineNumber ;; throw (ParsingErrorMissedVertex n))
   else ret tt) ;;
  point <- (fun io =>
    let '(s, p) := extract_point (m_InputStream io) point in
    (Returned p, set_InputStream s io)) ;;
  InsertPointIntoSet point ;;
  (* read remaining of the line, most often just the end of line. *)
  modify (fun io =>
    let '(s, restOfLine) := getline (m_InputStream io) [] in
    set_InputStream s io) ;;
  incr_InputLineNumber ;;
  ret point.

(** The loop of [ReadMeshInternalFromAscii], with a bound on the number
    of iterations. *)
Fixpoint ReadFacets (bound : nat) (p0 p1 p2 : LocalPoint) : M unit :=
  match bound with
  | O => unfinished
  | S bound' =>
      atEnd <- CheckStringFromAscii (lit "endsolid") ;;
      if atEnd then ret tt
      else
        ReadStringFromAscii (lit "facet normal") ;;
        ReadStringFromAscii (lit "outer loop") ;;
        p0 <- ReadPointAsAscii p0 ;;
        p1 <- ReadPointAsAscii p1 ;;
        p2 <- ReadPointAsAscii p2 ;;
        ReadStringFromAscii (lit "endloop") ;;
        ReadStringFromAscii (lit "endfacet") ;;
        ReadFacets bound' p0 p1 p2
  end.

(** Every iteration that does not end the function consumes at least
    one character, so one more than the number of unread characters
    bounds the iterations. *)
Definition ReadMeshInternalFromAscii : M unit :=
  modify (set_InputLineNumber 2) ;;
  unread <- gets (fun io => length (i_rest (m_InputStream io))) ;;
  ReadFacets (S unread) uninitialized uninitialized uninitialized.

(* --------------------------------------------------------------------- *)
(** *** Reading: binary                                                   *)
(* --------------------------------------------------------------------- *)

(** The values read into [normal], [p0], [p1], [p2] and [bytecount] are
    never used: only the effect on the stream is kept. *)
Definition ReadNormalAsBinary : M unit :=
  times 3 (in_read Float32.size ;; ret tt).

Definition ReadPointAsBinary : M unit :=
  times 3 (in_read Float32.size ;; ret tt).

Definition ReadInt16AsBinary : M unit :=
  in_read 2 ;; ret tt.

(** [SetNumberOfCells] takes an [IdentifierType]: the [int32_t] is
    converted to 64 bits unsigned. *)
Definition SetNumberOfCells (n : Z) : M unit :=
  modify (set_NumberOfCells (wrap_uint64 n)).

(** [while (numberOfTriangles--)]: a negative counter is decremented
    until it overflows. *)
Definition ReadMeshInternalFromBinary : M unit :=
  in_read 80 ;;
  count <- in_read 4 ;;
  if length count <? 4 then undefined
  else
    let numberOfTriangles := wrap_int32 (le_value count) in
    SetNumberOfCells numberOfTriangles ;;
    if (numberOfTriangles <? 0)%Z then undefined
    else
      times (Z.to_nat numberOfTriangles)
        (ReadNormalAsBinary ;;
         ReadPointAsBinary ;;
         ReadPointAsBinary ;;
         ReadPointAsBinary ;;
         ReadInt16AsBinary).

(* --------------------------------------------------------------------- *)
(** *** ReadMeshInformation, ReadPoints, ReadCells                        *)
(* --------------------------------------------------------------------- *)

(** The [#ifdef _WIN32] block: close and open again, which puts the
    read position back at the start of the file. *)
Definition ReopenOnWin32 : M unit :=
  if WIN32 env then
    InputStream_close ;;
    InputStream_open ;;
    opened <- gets (fun io => i_is_open (m_InputStream io)) ;;
    if negb opened
    then (name <- gets m_FileName ;; throw (UnableToOpenFile name))
    else ret tt
  else ret tt.

Definition ReadMeshInformation : M unit :=
  OpenInputForFileType ;;
  (* Read STL header file (the first line) *)
  inputLine <- (fun io =>
    let '(s, line) := getline (m_InputStream io) [] in
    (Returned line, set_InputStream s io)) ;;
  (* Determine file type *)
  (if found inputLine (lit "solid")
   then
     t <- gets m_FileType ;;
     (if negb (FileType_eqb t ASCII)
      then (modify (set_FileType ASCII) ;; ReopenOnWin32)
      else ret tt) ;;
     ReadMeshInternalFromAscii
   else
     t <- gets m_FileType ;;
     (if negb (FileType_eqb t BINARY)
      then (modify (set_FileType BINARY) ;; ReopenOnWin32)
      else ret tt) ;;
     ReadMeshInternalFromBinary) ;;
  InputStream_close.

(** The caller's buffer is a region of memory; the functions receive
    it and return what it holds afterwards. *)
Definition ReadPoints {T : Type} (buffer : list T) : M (list T) :=
  OpenInputForFileType ;;
  InputStream_close ;;
  ret buffer.

Definition ReadCells {T : Type} (buffer : list T) : M (list T) :=
  OpenInputForFileType ;;
  InputStream_close ;;
  ret buffer.

(* --------------------------------------------------------------------- *)
(** *** Writing                                                           *)
(* --------------------------------------------------------------------- *)

Definition WriteMeshInformation : M unit :=
  t <- gets m_FileType ;;
  match t with
  | ASCII => OutputStream_open
  | BINARY => OutputStream_open
  | TYPENOTAPPLICABLE => ret tt
  end ;;
  opened <- gets (fun io => o_is_open (m_OutputStream io)) ;;
  (if negb opened
   then (name <- gets m_FileName ;; throw (UnableToOpenFile name))
   else ret tt) ;;
  match t with
  | ASCII => out (lit "solid ascii" ++ endl)
  | BINARY => out (setw_fill_space 80 (lit "binary STL generated from ITK"))
  | TYPENOTAPPLICABLE => ret tt
  end.

Definition Write : M unit :=
  modify (fun io => set_OutputStream (o_close (m_OutputStream io)) io).

(** An element of the caller's point buffer, of the type the component
    tag announces: an integer, or a floating point value of the
    buffer's own format. *)
Inductive buffer_value :=
| IntegerValue (z : Z)
| RealValue (x : spec_float).

(** [static_cast<PointValueType>] *)
Definition static_cast_float (v : buffer_value) : PointValueType :=
  match v with
  | IntegerValue z => Float32.of_Z z
  | RealValue x => Float32.narrow x
  end.

(** The two nested loops of [WritePointsTyped]: [n] points of three
    coordinates each, taken from the front of the buffer; [None] when
    the buffer ends first. *)
Fixpoint copy_points (n : nat) (pointCoordinates : list buffer_value)
  : option (list PointType) :=
  match n with
  | O => Some []
  | S n' =>
      match pointCoordinates with
      | a :: b :: c :: rest =>
          match copy_points n' rest with
          | Some pts =>
              Some (mkArray3 (static_cast_float a) (static_cast_float b)
                             (static_cast_float c) :: pts)
          | None => None
          end
      | _ => None
      end
  end.

Definition WritePointsTyped (buffer : list buffer_value) : M unit :=
  pointDimension <- gets m_PointDimension ;;
  if negb (pointDimension =? 3)%Z then throw OnlySupports3DPoints
  else
    numberOfPoints <- gets m_NumberOfPoints ;;
    match copy_points (Z.to_nat numberOfPoints) buffer with
    | Some pts => modify (set_Points pts)
    | None => undefined
    end.

Definition WritePoints (buffer : list buffer_value) : M unit :=
  pointValueType <- gets m_PointComponentType ;;
  match pointValueType with
  | UCHAR => WritePointsTyped buffer
  | CHAR => WritePointsTyped buffer
  | USHORT => WritePointsTyped buffer
  | SHORT => WritePointsTyped buffer
  | UINT => WritePointsTyped buffer
  | INT => WritePointsTyped buffer
  | ULONG => WritePointsTyped buffer
  | LONG => WritePointsTyped buffer
  | ULONGLONG => WritePointsTyped buffer
  | LONGLONG => WritePointsTyped buffer
  | FLOAT => WritePointsTyped buffer
  | DOUBLE => WritePointsTyped buffer
  | LDOUBLE => WritePointsTyped buffer
  | UNKNOWNCOMPONENTTYPE => throw UnknownPointComponentType
  end.

Definition WriteInt32AsBinary (value : Z) : M unit := out (le_bytes 4 value).

Definition WriteInt16AsBinary (value : Z) : M unit := out (le_bytes 2 value).

Definition WriteNormalAsBinary (normal : NormalType) : M unit :=
  out (Float32.bytes (elem0 normal)) ;;
  out (Float32.bytes (elem1 normal)) ;;
  out (Float32.bytes (elem2 normal)).

Definition WritePointAsBinary (point : PointType) : M unit :=
  out (Float32.bytes (elem0 point)) ;;
  out (Float32.bytes (elem1 point)) ;;
  out (Float32.bytes (elem2 point)).

(** [cellsBuffer[index]]; [None] past the end of the buffer. *)
Definition cellsBuffer_at (cellsBuffer : list Z) (index : Z) : option Z :=
  nth_error cellsBuffer (Z.to_nat index).

Definition isTriangle (cellType numberOfVerticesInCell : Z) : bool :=
  (cellType =? TRIANGLE_CELL)%Z
  || ((cellType =? POLYGON_CELL)%Z && (numberOfVerticesInCell =? 3)%Z).

(** The first loop of [WriteCells], run for the binary file type: the
    value of [numberOfTriangles] after [n] cells, starting at [index2].
    The increment of the [int32_t] counter is taken to wrap. *)
Fixpoint CountTriangles (n : nat) (cellsBuffer : list Z) (index2 : Z)
  (numberOfTriangles : Z) : option Z :=
  match n with
  | O => Some numberOfTriangles
  | S n' =>
      match cellsBuffer_at cellsBuffer index2,
            cellsBuffer_at cellsBuffer (wrap_uint64 (index2 + 1)) with
      | Some cellType, Some numberOfVerticesInCell =>
          let index2 := wrap_uint64 (index2 + 2) in
          let numberOfTriangles :=
            if isTriangle cellType numberOfVerticesInCell
            then wrap_int32 (numberOfTriangles + 1)
            else numberOfTriangles in
          CountTriangles n' cellsBuffer
            (wrap_uint64 (index2 + numberOfVerticesInCell)) numberOfTriangles
      | _, _ => None
      end
  end.

(** [x << " " << y << " " << z] with the library's default format. *)
Definition show3 (a : FixedArray3) : std_string :=
  show_float env (elem0 a) ++ lit " " ++ show_float env (elem1 a)
    ++ lit " " ++ show_float env (elem2 a).

(** What is sent to the stream for one triangle. *)
Definition WriteTriangle (t : FileType) (p0 p1 p2 : PointType) : M unit :=
  let v10 := point_minus p0 p1 in
  let v12 := point_minus p2 p1 in
  let normal := CrossProduct v12 v10 in
  match t with
  | ASCII =>
      out (lit "  facet normal ") ;;
      out (show3 normal ++ endl) ;;
      out (lit "    outer loop" ++ endl) ;;
      out (lit "      vertex " ++ show3 p0 ++ endl) ;;
      out (lit "      vertex " ++ show3 p1 ++ endl) ;;
      out (lit "      vertex " ++ show3 p2 ++ endl) ;;
      out (lit "    endloop" ++ endl) ;;
      out (lit "  endfacet" ++ endl)
  | BINARY =>
      WriteNormalAsBinary normal ;;
      WritePointAsBinary p0 ;;
      WritePointAsBinary p1 ;;
      WritePointAsBinary p2 ;;
      WriteInt16AsBinary 0
  | TYPENOTAPPLICABLE => ret tt
  end.

Definition lift_option {A} (o : option A) : M A :=
  match o with
  | Some a => ret a
  | None => undefined
  end.

(** The second loop of [WriteCells]: [n] cells, starting at [index]. *)
Fixpoint WriteCellsLoop (n : nat) (t : FileType) (cellsBuffer : list Z) (index : Z)
  : M unit :=
  match n with
  | O => ret tt
  | S n' =>
      cellType <- lift_option (cellsBuffer_at cellsBuffer index) ;;
      numberOfVerticesInCell <-
        lift_option (cellsBuffer_at cellsBuffer (wrap_uint64 (index + 1))) ;;
      let index := wrap_uint64 (index + 2) in
      if isTriangle cellType numberOfVerticesInCell then
        i0 <- lift_option (cellsBuffer_at cellsBuffer index) ;;
        i1 <- lift_option (cellsBuffer_at cellsBuffer (wrap_uint64 (index + 1))) ;;
        i2 <- lift_option (cellsBuffer_at cellsBuffer (wrap_uint64 (index + 2))) ;;
        let index := wrap_uint64 (index + 3) in
        points <- gets m_Points ;;
        p0 <- lift_option (nth_error points (Z.to_nat i0)) ;;
        p1 <- lift_option (nth_error points (Z.to_nat i1)) ;;
        p2 <- lift_option (nth_error points (Z.to_nat i2)) ;;
        WriteTriangle t p0 p1 p2 ;;
        WriteCellsLoop n' t cellsBuffer index
      else
        WriteCellsLoop n' t cellsBuffer (wrap_uint64 (index + numberOfVerticesInCell))
  end.

Definition WriteCells (cellsBuffer : list Z) : M unit :=
  numberOfPolygons <- gets m_NumberOfCells ;;
  t <- gets m_FileType ;;
  match t with
  | BINARY =>
      numberOfTriangles <-
        lift_option (CountTriangles (Z.to_nat numberOfPolygons) cellsBuffer 0 0) ;;
      WriteInt32AsBinary numberOfTriangles
  | _ => ret tt
  end ;;
  WriteCellsLoop (Z.to_nat numberOfPolygons) t cellsBuffer 0 ;;
  match t with
  | ASCII => out (lit "endsolid" ++ endl)
  | _ => ret tt
  end.

End MemberFunctions.

(* ===================================================================== *)
(** ** Vocabulary of the statements                                       *)
(* ===================================================================== *)

(** [line] is the first line of [data]: it holds no newline, and [data]
    is that line followed by a newline and the rest of the file, or the
    line alone when the file has no newline at all. *)
Definition FirstLine (data line : std_string) : Prop :=
  ~ In newline line /\
  (data = line \/ exists rest, data = line ++ newline :: rest).

(** The number of newline characters in a stretch of a file. *)
Definition count_newlines (s : std_string) : nat :=
  length (filter (fun c => Ascii.eqb c newline) s).

(** The 1-based number of the line that holds offset [pos] of [data]. *)
Definition line_number_at (data : std_string) (pos : nat) : Z :=
  Z.of_nat (S (count_newlines (firstn pos data))).

Arguments line_number_at : simpl never.

(** The reader is in step: the pending line is empty, the stream is
    usable, and the line counter is the number of the line at the read
    position. *)
Definition in_step (io : STLMeshIO) : Prop :=
  m_InputLine io = [] /\
  i_is_open (m_InputStream io) = true /\
  i_good (m_InputStream io) = true /\
  m_InputLineNumber io =
    line_number_at (i_data (m_InputStream io)) (i_pos (m_InputStream io)).

(** [s'] reads the same file as [s], no earlier in it. *)
Definition further_on (s s' : ifstream) : Prop :=
  i_data s' = i_data s /\ i_is_open s' = i_is_open s /\ i_pos s <= i_pos s'.

(** On a usable stream with at least [n] bytes left, the member
    function returns and its whole effect is to move the read position
    [n] bytes on. *)
Definition reads (n : nat) (m : M unit) : Prop :=
  forall data pos io,
    m_InputStream io = mkIfstream true data pos false false ->
    pos + n <= length data ->
    m io = (Returned tt,
            set_InputStream (mkIfstream true data (pos + n) false false) io).

(** Two objects that differ at most in [m_InputStream]. *)
Definition same_but_InputStream (a b : STLMeshIO) : Prop :=
  b = set_InputStream (m_InputStream b) a.

(** A mesh cell as the cell buffer lays it out: the geometry tag, then
    the number of points, then the point identifiers. *)
Record Cell := mkCell {
  cell_type : Z;
  cell_points : list Z
}.

Definition encode_cell (c : Cell) : list Z :=
  cell_type c :: Z.of_nat (length (cell_points c)) :: cell_points c.

Definition encode_cells (cs : list Cell) : list Z := flat_map encode_cell cs.

(** A qualifying cell: tagged as a triangle, or a polygon of exactly
    three points. *)
Definition qualifies (c : Cell) : bool :=
  isTriangle (cell_type c) (Z.of_nat (length (cell_points c))).

(** A cell the mesh writer can hand over: a cell tagged as a triangle
    has three points, and the points of a qualifying cell are
    identifiers of points the object holds. *)
Definition cell_ok (numberOfPoints : nat) (c : Cell) : bool :=
  (negb (cell_type c =? TRIANGLE_CELL)%Z || (length (cell_points c) =? 3))
  && (negb (qualifies c)
      || forallb (fun i => (0 <=? i)%Z && (i <? Z.of_nat numberOfPoints)%Z)
                 (cell_points c)).

(** The three corner points of a qualifying cell. *)
Definition corners (points : list PointType) (c : Cell)
  : option (PointType * PointType * PointType) :=
  match cell_points c with
  | i0 :: i1 :: i2 :: _ =>
      match nth_error points (Z.to_nat i0),
            nth_error points (Z.to_nat i1),
            nth_error points (Z.to_nat i2) with
      | Some p0, Some p1, Some p2 => Some (p0, p1, p2)
      | _, _, _ => None
      end
  | _ => None
  end.

(** The corner points of the qualifying cells, in buffer order. *)
Definition triangle_of (points : list PointType) (c : Cell)
  : list (PointType * PointType * PointType) :=
  match corners points c with
  | Some t => [t]
  | None => []
  end.

Definition triangles (points : list PointType) (cs : list Cell)
  : list (PointType * PointType * PointType) :=
  flat_map (triangle_of points) (filter qualifies cs).

Definition array_bytes (a : FixedArray3) : std_string :=
  Float32.bytes (elem0 a) ++ Float32.bytes (elem1 a) ++ Float32.bytes (elem2 a).

(** The 50-byte record of the binary format for a triangle and a given
    normal. *)
Definition binary_record (normal : NormalType) (t : PointType * PointType * PointType)
  : std_string :=
  let '(p0, p1, p2) := t in
  array_bytes normal ++ array_bytes p0 ++ array_bytes p1 ++ array_bytes p2
    ++ le_bytes 2 0.

(** The facet block of the ASCII format for a triangle and a given
    normal. *)
Definition ascii_record (env : Env) (normal : NormalType)
  (t : PointType * PointType * PointType) : std_string :=
  let '(p0, p1, p2) := t in
  lit "  facet normal " ++ show3 env normal ++ endl
    ++ lit "    outer loop" ++ endl
    ++ lit "      vertex " ++ show3 env p0 ++ endl
    ++ lit "      vertex " ++ show3 env p1 ++ endl
    ++ lit "      vertex " ++ show3 env p2 ++ endl
    ++ lit "    endloop" ++ endl
    ++ lit "  endfacet" ++ endl.

(** The normal the writer derives: the cross product of the edges
    [p2 - p1] and [p0 - p1], in that order. *)
Definition edge_cross (t : PointType * PointType * PointType) : NormalType :=
  let '(p0, p1, p2) := t in
  CrossProduct (point_minus p2 p1) (point_minus p0 p1).

(** What one triangle contributes to the file, for each file type. *)
Definition record (env : Env) (t : FileType)
  (normal_of : PointType * PointType * PointType -> NormalType)
  (tri : PointType * PointType * PointType) : std_string :=
  match t with
  | ASCII => ascii_record env (normal_of tri) tri
  | BINARY => binary_record (normal_of tri) tri
  | TYPENOTAPPLICABLE => []
  end.

(** The bytes a well-formed cell buffer contributes to the file: for
    the binary type the number of qualifying cells as a 32-bit integer
    and one record per qualifying cell; for the ASCII type one facet
    block per qualifying cell and the closing line. *)
Definition written_cells (env : Env) (t : FileType)
  (normal_of : PointType * PointType * PointType -> NormalType)
  (points : list PointType) (cs : list Cell) : std_string :=
  match t with
  | BINARY => le_bytes 4 (wrap_int32 (Z.of_nat (length (filter qualifies cs))))
  | _ => []
  end
  ++ flat_map (record env t normal_of) (triangles points cs)
  ++ match t with
     | ASCII => lit "endsolid" ++ endl
     | _ => []
     end.

(** The header line of a binary file. *)
Definition binary_header : std_string :=
  setw_fill_space 80 (lit "binary STL generated from ITK").

(** The output stream accepts bytes. *)
Definition writable (io : STLMeshIO) : Prop :=
  o_is_open (m_OutputStream io) = true /\ o_failed (m_OutputStream io) = false.

(** [io'] is [io] with [bs] appended to the bytes of the output
    stream. *)
Definition appended (bs : std_string) (io io' : STLMeshIO) : Prop :=
  io' = set_OutputStream
          (mkOfstream true false (o_bytes (m_OutputStream io) ++ bs)) io.

(** The member function returns [a] and its whole effect is to append
    [bs] to the output. *)
Definition appends {A} (m : M A) (io : STLMeshIO) (a : A) (bs : std_string) : Prop :=
  exists io', m io = (Returned a, io') /\ appended bs io io'.

(** The value of [numberOfTriangles] after the cells [cs], starting
    from [acc]. *)
Definition count_from (acc : Z) (cs : list Cell) : Z :=
  fold_left (fun a c => if qualifies c then wrap_int32 (a + 1) else a) cs acc.

(** The order in which [itk::MeshFileWriter] drives the writing
    interface of a mesh IO object: header, points, cells, close. *)
Definition MeshFileWriter_Write (env : Env) (points : list buffer_value)
  (cells : list Z) : M unit :=
  WriteMeshInformation env ;;
  WritePoints points ;;
  WriteCells env cells ;;
  Write.


(** A relation between the object before and after a member function
    that holds however the function ends. *)
Definition respects {A} (R : STLMeshIO -> STLMeshIO -> Prop) (m : M A) : Prop :=
  forall io, R io (snd (m io)).

(** The member function leaves the value of [f] as it was. *)
Definition preserves {A B} (f : STLMeshIO -> B) (m : M A) : Prop :=
  respects (fun a b => f b = f a) m.

(** The number of unread characters of the input stream. *)
Definition unread (io : STLMeshIO) : nat := length (i_rest (m_InputStream io)).

(** The member function is not cut short by an iteration bound. *)
Definition finishes {A} (m : M A) : Prop :=
  forall io, fst (m io) <> Unfinished.

(** The member function is not cut short by an iteration bound and never
    moves the read position backwards. *)
Definition tame {A} (m : M A) : Prop :=
  forall io, fst (m io) <> Unfinished /\ unread (snd (m io)) <= unread io.

(* ===================================================================== *)
(** ** Vocabulary for the point set                                       *)
(* ===================================================================== *)

(** The three-way comparison behind [PointCompare]: the first component
    pair that does not compare equal decides; [None] when that pair
    holds a NaN. *)
Definition cmp3 (p q : PointType) : option comparison :=
  match SFcompare (elem0 p) (elem0 q) with
  | Some Eq =>
      match SFcompare (elem1 p) (elem1 q) with
      | Some Eq => SFcompare (elem2 p) (elem2 q)
      | r => r
      end
  | r => r
  end.

(** [p[0] == q[0] && p[1] == q[1] && p[2] == q[2]] *)
Definition same_coordinates (p q : PointType) : bool :=
  Float32.eqb (elem0 p) (elem0 q)
  && Float32.eqb (elem1 p) (elem1 q)
  && Float32.eqb (elem2 p) (elem2 q).

(** Neither point is ordered before the other: the set treats them as
    the same key. *)
Definition equivalent (p q : PointType) : bool :=
  negb (PointCompare p q) && negb (PointCompare q p).

Definition is_nan (x : PointValueType) : bool :=
  match x with S754_nan => true | _ => false end.

Definition no_nan (p : PointType) : bool :=
  negb (is_nan (elem0 p)) && negb (is_nan (elem1 p)) && negb (is_nan (elem2 p)).

(** Every element is ordered before all the elements after it. *)
Fixpoint strictly_ordered (s : list PointType) : bool :=
  match s with
  | [] => true
  | p :: s' => forallb (PointCompare p) s' && strictly_ordered s'
  end.

(** A local point whose three components are set. *)
Definition local_of (p : PointType) : LocalPoint :=
  mkLocalPoint (Some (elem0 p)) (Some (elem1 p)) (Some (elem2 p)).

(* ===================================================================== *)
(** ** Vocabulary for what a member function leaves alone                 *)
(* ===================================================================== *)

(** The members no reading function assigns. *)
Definition not_for_reading (io : STLMeshIO) :=
  (m_FileName io, m_PointDimension io, m_PointComponentType io,
   m_NumberOfPoints io, m_OutputStream io, m_Points io,
   m_PointsMap io, m_LatestPointId io).

(** The members the ASCII reader does not assign either: the counts of
    the mesh. *)
Definition mesh_counts (io : STLMeshIO) := (m_NumberOfPoints io, m_NumberOfCells io).

(** Everything but the output stream. *)
Definition all_but_OutputStream (io : STLMeshIO) :=
  (m_FileName io, m_FileType io, m_PointDimension io, m_PointComponentType io,
   m_NumberOfPoints io, m_NumberOfCells io, m_InputStream io, m_InputLine io,
   m_Points io, m_InputLineNumber io, m_PointsSet io, m_PointsMap io,
   m_LatestPointId io).

(** The order of the point set is kept. *)
Definition keeps_order (a b : STLMeshIO) : Prop :=
  strictly_ordered (m_PointsSet a) = true -> strictly_ordered (m_PointsSet b) = true.

(** The output only grows: what was written stays, in place. *)
Definition output_extends (a b : STLMeshIO) : Prop :=
  exists bs, o_bytes (m_OutputStream b) = o_bytes (m_OutputStream a) ++ bs.

(** The member function does not throw. *)
Definition never_throws {A} (m : M A) : Prop :=
  forall io e, fst (m io) <> Thrown e.

(** A printed number: not empty, and free of white space. *)
Definition plain (s : std_string) : bool :=
  negb (is_empty s) && forallb (fun c => negb (isspace c)) s.

(** What the writer prints for [x], the reader takes for [y]: the text
    is plain, and the conversion of the reader, given that text
    followed by white space, consumes the text and nothing more. *)
Definition reads_back (env : Env) (x y : PointValueType) : Prop :=
  plain (show_float env x) = true /\
  forall c rest, isspace c = true ->
    num_get_float env (show_float env x ++ c :: rest)
    = (Some y, length (show_float env x)).

(** The point a printed point is read as, component by component. *)
Definition reread_point (reread : PointValueType -> PointValueType) (p : PointType)
  : PointType :=
  mkArray3 (reread (elem0 p)) (reread (elem1 p)) (reread (elem2 p)).

Definition point_reads_back (env : Env) (reread : PointValueType -> PointValueType)
  (p : PointType) : Prop :=
  reads_back env (elem0 p) (reread (elem0 p))
  /\ reads_back env (elem1 p) (reread (elem1 p))
  /\ reads_back env (elem2 p) (reread (elem2 p)).

(** The first line of the facet block of a triangle, without its
    newline. *)
Definition facet_line (env : Env) (tri : PointType * PointType * PointType)
  : std_string :=
  lit "  facet normal " ++ show3 env (edge_cross tri).

(** The printed normal brings neither a newline nor the closing
    keyword into the line. *)
Definition facet_line_ok (env : Env) (tri : PointType * PointType * PointType) : bool :=
  negb (found (facet_line env tri) (lit "endsolid"))
  && forallb (fun c => negb (Ascii.eqb c newline)) (facet_line env tri).

Definition triangle_reads_back (env : Env) (reread : PointValueType -> PointValueType)
  (tri : PointType * PointType * PointType) : Prop :=
  facet_line_ok env tri = true
  /\ point_reads_back env reread (fst (fst tri))
  /\ point_reads_back env reread (snd (fst tri))
  /\ point_reads_back env reread (snd tri).

(** The corner points of the triangles, in the order written. *)
Definition vertices (tris : list (PointType * PointType * PointType))
  : list PointType :=
  flat_map (fun tri => [fst (fst tri); snd (fst tri); snd tri]) tris.

(** The point set after the points [ps], as they are read, have been
    inserted in turn. *)
Definition inserted (reread : PointValueType -> PointValueType)
  (ps : list PointType) (set : list PointType) : list PointType :=
  fold_left (fun s p => set_insert (reread_point reread p) s) ps set.

(** The stream is usable and [r] is what is left to read. *)
Definition at_text (s : ifstream) (r : std_string) : Prop :=
  i_is_open s = true /\ i_good s = true /\ i_rest s = r.

(** The reader is in step with [rest] left to read, at line [n], and
    holds the point set [set]. *)
Definition reading_at (io : STLMeshIO) (rest : std_string) (n : Z)
  (set : list PointType) : Prop :=
  in_step io
  /\ skipn (i_pos (m_InputStream io)) (i_data (m_InputStream io)) = rest
  /\ m_InputLineNumber io = n
  /\ m_PointsSet io = set.

(** The exception reports a line of an ASCII file that lacks what the
    reader expects. *)
Definition is_parse_error (e : ExceptionObject) : bool :=
  match e with
  | ParsingErrorMissed _ _ _ | ParsingErrorMissedVertex _ => true
  | _ => false
  end.

(** The exceptions of the member function all satisfy [P]. *)
Definition throws_only {A} (P : ExceptionObject -> bool) (m : M A) : Prop :=
  forall io e, fst (m io) = Thrown e -> P e = true.

(* --------------------------------------------------------------------- *)
(** *** The lines of an ASCII file                                        *)
(* --------------------------------------------------------------------- *)











(** A file is attached to the input stream. *)
Definition stream_open (io : STLMeshIO) : bool := i_is_open (m_InputStream io).

(** The exception is the one raised when a file cannot be opened. *)
Definition is_open_failure (e : ExceptionObject) : bool :=
  match e with UnableToOpenFile _ => true | _ => false end.

(** The first bytes of a file of each type, as [WriteMeshInformation]
    sends them. *)
Definition header_of (t : FileType) : std_string :=
  match t with
  | ASCII => lit "solid ascii" ++ endl
  | BINARY => setw_fill_space 80 (lit "binary STL generated from ITK")
  | TYPENOTAPPLICABLE => []
  end.

(** The output stream takes no bytes: it is not open, or an operation
    on it has failed. *)
Definition blocked (io : STLMeshIO) : bool :=
  negb (o_is_open (m_OutputStream io)) || o_failed (m_OutputStream io).

(** A blocked output stays blocked and gains nothing. *)
Definition stays_blocked (a b : STLMeshIO) : Prop :=
  blocked a = true ->
  blocked b = true /\ o_bytes (m_OutputStream b) = o_bytes (m_OutputStream a).

(* ===================================================================== *)
(** ** A concrete environment for the examples                            *)
(* ===================================================================== *)

(** The statements below hold for every environment.  The examples run
    the code in this one: forward-slash paths, a file system given by a
    list of files, and, standing in for the numeric conversions of the
    C++ library, plain decimal integers. *)
Module Sample.

(** KWSys [GetFilenameName]: what follows the last ['/']. *)
Definition GetFilenameName (filename : std_string) : std_string :=
  match rfind_char filename "/"%char with
  | Some i => skipn (S i) filename
  | None => filename
  end.

(** KWSys [GetFilenameLastExtension]: from the last ['.'] of the file
    name on. *)
Definition GetFilenameLastExtension (filename : std_string) : std_string :=
  let name := GetFilenameName filename in
  match rfind_char name "."%char with
  | Some i => skipn i name
  | None => []
  end.

Definition is_digit (c : ascii) : bool :=
  let n := nat_of_ascii c in (48 <=? n) && (n <=? 57).

Fixpoint digits (r : std_string) : std_string :=
  match r with
  | [] => []
  | c :: r' => if is_digit c then c :: digits r' else []
  end.

Definition digits_value (ds : std_string) : Z :=
  fold_left (fun acc c => (10 * acc + (Z.of_nat (nat_of_ascii c) - 48))%Z) ds 0%Z.

(** An optional sign followed by decimal digits. *)
Definition num_get_float (r : std_string) : option PointValueType * nat :=
  let '(neg, sign_len, r1) :=
    match r with
    | c :: r' =>
        if Ascii.eqb c "-"%char then (true, 1, r')
        else if Ascii.eqb c "+"%char then (false, 1, r')
        else (false, 0, r)
    | [] => (false, 0, r)
    end in
  let ds := digits r1 in
  match ds with
  | [] => (None, sign_len)
  | _ :: _ =>
      let v := digits_value ds in
      (Some (Float32.of_Z (if neg then - v else v)), sign_len + length ds)
  end.

(** Integral values in decimal; anything else as a question mark. *)
Definition show_float (x : PointValueType) : std_string :=
  match x with
  | S754_zero _ => lit "0"
  | S754_finite s m e =>
      let mag :=
        if (0 <=? e)%Z then Some (Zpos m * 2 ^ e)%Z
        else if (Zpos m mod 2 ^ (- e) =? 0)%Z then Some (Zpos m / 2 ^ (- e))%Z
        else None in
      match mag with
      | Some v => (if s then lit "-" else []) ++ show_unsigned v
      | None => lit "?"
      end
  | _ => lit "?"
  end.

Fixpoint lookup (files : list (std_string * std_string)) (name : std_string)
  : option std_string :=
  match files with
  | [] => None
  | (n, d) :: files' => if string_eqb n name then Some d else lookup files' name
  end.

Definition env (win32 : bool) (files : list (std_string * std_string)) : Env :=
  mkEnv win32
        (fun name => match lookup files name with Some _ => true | None => false end)
        GetFilenameLastExtension
        (lookup files)
        (fun _ => true)
        show_float
        num_get_float.

(** Lines, each ended by a newline. *)
Definition text (lines : list std_string) : std_string :=
  flat_map (fun l => l ++ [newline]) lines.

Definition point (x y z : Z) : PointType :=
  mkArray3 (Float32.of_Z x) (Float32.of_Z y) (Float32.of_Z z).

(** An object set up to read or write the file [name]. *)
Definition io_for (name : std_string) (t : FileType) : STLMeshIO :=
  mkSTLMeshIO name t 3 FLOAT 0 0 ofstream_closed ifstream_closed
    [] [] 0 [] [] 0.

(** Three points and a mesh over them: a triangle, a quadrilateral, a
    polygon of three points, a line and a polygon of four points. *)
Definition three_points : list PointType :=
  [point 0 0 0; point 1 0 0; point 0 1 0].

Definition mixed_cells : list Cell :=
  [mkCell TRIANGLE_CELL [0; 1; 2]%Z;
   mkCell 3 [0; 1; 2; 0]%Z;
   mkCell POLYGON_CELL [2; 1; 0]%Z;
   mkCell 1 [0; 1]%Z;
   mkCell POLYGON_CELL [0; 1; 2; 1]%Z].

Definition one_triangle : list Cell := [mkCell TRIANGLE_CELL [0; 1; 2]%Z].

(** An object in the middle of writing: the points are copied, the
    output stream is open and [written] has been sent to it. *)
Definition writer (t : FileType) (written : std_string) (cells : list Cell)
  : STLMeshIO :=
  mkSTLMeshIO (lit "out.stl") t 3 FLOAT 3 (Z.of_nat (length cells))
    (mkOfstream true false written) ifstream_closed
    [] three_points 0 [] [] 0.

(** The caller's point buffer for [three_points], as floats. *)
Definition three_points_buffer : list buffer_value :=
  map (fun z => RealValue (Float32.of_Z z)) [0; 0; 0; 1; 0; 0; 0; 1; 0]%Z.

(** An object about to write [cells] over the three points. *)
Definition before_writing (t : FileType) (dimension : Z) (cells : list Cell)
  : STLMeshIO :=
  mkSTLMeshIO (lit "out.stl") t dimension FLOAT 3 (Z.of_nat (length cells))
    ofstream_closed ifstream_closed [] [] 0 [] [] 0.

(** A binary file with one triangle whose 80-byte header happens to
    hold a newline: the text "STL", a newline, and 76 spaces. *)
Definition unit_triangle : PointType * PointType * PointType :=
  (point 0 0 0, point 1 0 0, point 0 1 0).

Definition binary_file_newline_in_header : std_string :=
  (lit "STL" ++ [newline] ++ repeat " "%char 76)
    ++ le_bytes 4 1
    ++ binary_record (point 0 0 1) unit_triangle.

(** The file the binary writer itself produces for that triangle. *)
Definition binary_file_as_written : std_string :=
  binary_header ++ le_bytes 4 1 ++ binary_record (point 0 0 1) unit_triangle.

(** An ASCII file with two facets that share two corners. *)
Definition ascii_file_two_facets : std_string :=
  text [lit "solid square";
        lit "  facet normal 0 0 1"; lit "    outer loop";
        lit "      vertex 0 0 0"; lit "      vertex 1 0 0"; lit "      vertex 0 1 0";
        lit "    endloop"; lit "  endfacet";
        lit "  facet normal 0 0 1"; lit "    outer loop";
        lit "      vertex 1 0 0"; lit "      vertex 1 1 0"; lit "      vertex 0 1 0";
        lit "    endloop"; lit "  endfacet";
        lit "endsolid"].

(** An ASCII file whose only facet lacks the [endloop] line: six lines
    in order, then [endfacet] on line 7. *)
Definition missing_endloop_head : list std_string :=
  [lit "solid cube";
   lit "  facet normal 0 0 1"; lit "    outer loop";
   lit "      vertex 0 0 0"; lit "      vertex 1 0 0"; lit "      vertex 0 1 0"].

Definition ascii_file_missing_endloop : std_string :=
  text (missing_endloop_head ++ [lit "  endfacet"; lit "endsolid"]).

(** A reader in the middle of an ASCII file: the stream is open on
    [data] at offset [pos], no line is pending, and the line counter
    is [n]. *)
Definition reader_at (data : std_string) (pos : nat) (n : Z) : STLMeshIO :=
  mkSTLMeshIO (lit "mesh.stl") ASCII 3 FLOAT 0 0 ofstream_closed
    (mkIfstream true data pos false false) [] [] n [] [] 0.



(** A place where no file exists and none can be created. *)
Definition read_only : Env :=
  mkEnv false (fun _ => false) GetFilenameLastExtension (fun _ => None)
        (fun _ => false) show_float num_get_float.


(** Reading [data] from a new object set to file type [t]. *)
Definition read (win32 : bool) (t : FileType) (data : std_string)
  : outcome unit * STLMeshIO :=
  ReadMeshInformation (env win32 [(lit "mesh.stl", data)])
                      (io_for (lit "mesh.stl") t).

End Sample.
(* ===================================================================== *)
(** ** std::string::find                                                  *)
(* ===================================================================== *)

Lemma starts_with_app (pat post : std_string) :
  starts_with pat (pat ++ post) = true.
Proof.
  induction pat as [|c pat IH]; simpl; [reflexivity|].
  now rewrite Ascii.eqb_refl, IH.
Qed.

Lemma starts_with_inv (pat s : std_string) :
  starts_with pat s = true -> exists post, s = pat ++ post.
Proof.
  revert s; induction pat as [|c pat IH]; intros s H.
  - now exists s.
  - destruct s as [|d s]; simpl in H; [discriminate|].
    apply andb_true_iff in H as [Hc Hs].
    apply Ascii.eqb_eq in Hc; subst d.
    destruct (IH _ Hs) as [post ->]. now exists post.
Qed.

Lemma find_Some_Contains (s pat : std_string) (i : nat) :
  find s pat = Some i -> Contains s pat.
Proof.
  revert i; induction s as [|c s IH]; intros i; simpl.
  - destruct (starts_with pat []) eqn:E; [|discriminate].
    intros _. destruct (starts_with_inv _ _ E) as [post Hp].
    exists [], post. exact Hp.
  - destruct (starts_with pat (c :: s)) eqn:E.
    + intros _. destruct (starts_with_inv _ _ E) as [post Hp].
      exists [], post. exact Hp.
    + destruct (find s pat) as [j|] eqn:F; [|discriminate].
      intros _. destruct (IH j eq_refl) as (pre & post & ->).
      now exists (c :: pre), post.
Qed.

Lemma find_at_start (s pat : std_string) :
  starts_with pat s = true -> find s pat = Some 0.
Proof. intros H. destruct s; simpl; now rewrite H. Qed.

Lemma Contains_find (s pat : std_string) :
  Contains s pat -> exists i, find s pat = Some i.
Proof.
  intros (pre & post & ->).
  induction pre as [|c pre IH].
  - exists 0. simpl. apply find_at_start, starts_with_app.
  - simpl. destruct (starts_with pat (c :: pre ++ pat ++ post)).
    + now exists 0.
    + destruct IH as [i ->]. now exists (S i).
Qed.

(** [found] decides containment. *)
Lemma found_iff_Contains (s pat : std_string) :
  found s pat = true <-> Contains s pat.
Proof.
  unfold found; split.
  - destruct (find s pat) eqn:E; [|discriminate]. intros _.
    eapply find_Some_Contains; eauto.
  - intros H. destruct (Contains_find _ _ H) as [i ->]. reflexivity.
Qed.

Lemma found_false_iff (s pat : std_string) :
  found s pat = false <-> ~ Contains s pat.
Proof.
  rewrite <- found_iff_Contains. destruct (found s pat); intuition congruence.
Qed.

(* ===================================================================== *)
(** ** Reasoning about member functions                                   *)
(* ===================================================================== *)

Lemma bind_Returned {A B} (m : M A) (k : A -> M B) io a io' :
  m io = (Returned a, io') -> bind m k io = k a io'.
Proof. unfold bind; now intros ->. Qed.

Lemma bind_Thrown {A B} (m : M A) (k : A -> M B) io e io' :
  m io = (Thrown e, io') -> bind m k io = (Thrown e, io').
Proof. unfold bind; now intros ->. Qed.

Lemma bind_assoc {A B C} (m : M A) (k : A -> M B) (k' : B -> M C) io :
  bind (bind m k) k' io = bind m (fun a => bind (k a) k') io.
Proof. unfold bind. destruct (m io) as [[a| | |] io']; reflexivity. Qed.

Lemma bind_gets {A B} (f : STLMeshIO -> A) (k : A -> M B) io :
  bind (gets f) k io = k (f io) io.
Proof. reflexivity. Qed.

Lemma bind_modify {B} (g : STLMeshIO -> STLMeshIO) (k : unit -> M B) io :
  bind (modify g) k io = k tt (g io).
Proof. reflexivity. Qed.

Lemma bind_ret {A B} (a : A) (k : A -> M B) io :
  bind (ret a) k io = k a io.
Proof. reflexivity. Qed.

Section Respects.

Context (R : STLMeshIO -> STLMeshIO -> Prop).
Hypothesis R_refl : forall io, R io io.
Hypothesis R_trans : forall a b c, R a b -> R b c -> R a c.

Lemma respects_bind {A B} (m : M A) (k : A -> M B) :
  respects R m -> (forall a, respects R (k a)) -> respects R (bind m k).
Proof.
  intros Hm Hk io. unfold bind.
  specialize (Hm io). destruct (m io) as [[a| | |] io']; simpl in *; auto.
  eapply R_trans; [exact Hm | apply Hk].
Qed.

Lemma respects_ret {A} (a : A) : respects R (ret a).
Proof. intros io; apply R_refl. Qed.

Lemma respects_throw {A} e : respects R (@throw A e).
Proof. intros io; apply R_refl. Qed.

Lemma respects_undefined {A} : respects R (@undefined A).
Proof. intros io; apply R_refl. Qed.

Lemma respects_unfinished {A} : respects R (@unfinished A).
Proof. intros io; apply R_refl. Qed.

Lemma respects_gets {A} (f : STLMeshIO -> A) : respects R (gets f).
Proof. intros io; apply R_refl. Qed.

Lemma respects_lift_option {A} (o : option A) : respects R (lift_option o).
Proof. destruct o; intros io; apply R_refl. Qed.

Lemma respects_times (n : nat) (body : M unit) :
  respects R body -> respects R (times n body).
Proof.
  intros Hb; induction n; simpl.
  - apply respects_ret.
  - apply respects_bind; auto.
Qed.

End Respects.

(** Splits a goal about a composed member function into goals about its
    parts; [leaf] closes the primitive steps. *)
Ltac respects_steps Hrefl Htrans leaf :=
  repeat first
    [ leaf
    | apply (respects_bind _ Htrans); [|intros ?]
    | apply (respects_ret _ Hrefl)
    | apply (respects_throw _ Hrefl)
    | apply (respects_undefined _ Hrefl)
    | apply (respects_unfinished _ Hrefl)
    | apply (respects_gets _ Hrefl)
    | apply (respects_lift_option _ Hrefl)
    | apply (respects_times _ Hrefl Htrans)
    | match goal with
      | |- respects _ (if ?b then _ else _) => destruct b
      | |- respects _ (match ?x with _ => _ end) => destruct x
      end ].

Lemma preserves_refl {B} (f : STLMeshIO -> B) : forall io, f io = f io.
Proof. reflexivity. Qed.

Lemma preserves_trans {B} (f : STLMeshIO -> B) :
  forall a b c, f b = f a -> f c = f b -> f c = f a.
Proof. intros; congruence. Qed.

Lemma preserves_modify {B} (f : STLMeshIO -> B) (g : STLMeshIO -> STLMeshIO) :
  (forall io, f (g io) = f io) -> preserves f (modify g).
Proof. intros H io; apply H. Qed.

Lemma preserves_in_read {B} (f : STLMeshIO -> B) (n : nat) :
  (forall s io, f (set_InputStream s io) = f io) -> preserves f (in_read n).
Proof.
  intros H io. unfold in_read. destruct (i_read n (m_InputStream io)). apply H.
Qed.

Ltac preserves_leaf :=
  first
    [ apply preserves_modify; intros [] ; try reflexivity;
      repeat match goal with |- context [let '(_, _) := ?p in _] => destruct p end;
      reflexivity
    | apply preserves_in_read; intros ? []; reflexivity
    | intros []; simpl;
      repeat match goal with |- context [let '(_, _) := ?p in _] => destruct p end;
      reflexivity ].

Ltac preserves_tac :=
  unfold preserves;
  respects_steps (preserves_refl m_FileType) (preserves_trans m_FileType)
                 ltac:(idtac; preserves_leaf).

Section FileTypeFrame.

Context (env : Env).

Lemma FileType_ReadStringFromAscii expected :
  preserves m_FileType (ReadStringFromAscii expected).
Proof.
  unfold ReadStringFromAscii, getline_InputLine, incr_InputLineNumber.
  preserves_tac.
Qed.

Lemma FileType_CheckStringFromAscii expected :
  preserves m_FileType (CheckStringFromAscii expected).
Proof.
  unfold CheckStringFromAscii, getline_InputLine, incr_InputLineNumber.
  preserves_tac.
Qed.

Lemma FileType_ReadPointAsAscii p :
  preserves m_FileType (ReadPointAsAscii env p).
Proof.
  unfold ReadPointAsAscii, InsertPointIntoSet, incr_InputLineNumber.
  preserves_tac.
Qed.

Lemma FileType_ReadFacets bound p0 p1 p2 :
  preserves m_FileType (ReadFacets env bound p0 p1 p2).
Proof.
  revert p0 p1 p2; induction bound as [|bound IH]; intros; simpl.
  - unfold preserves. apply respects_unfinished. reflexivity.
  - unfold preserves.
    respects_steps (preserves_refl m_FileType) (preserves_trans m_FileType)
      ltac:(first [ apply FileType_CheckStringFromAscii
                  | apply FileType_ReadStringFromAscii
                  | apply FileType_ReadPointAsAscii
                  | apply IH ]).
Qed.

Lemma FileType_ReadMeshInternalFromAscii :
  preserves m_FileType (ReadMeshInternalFromAscii env).
Proof.
  unfold ReadMeshInternalFromAscii, preserves.
  respects_steps (preserves_refl m_FileType) (preserves_trans m_FileType)
    ltac:(first [ apply FileType_ReadFacets | preserves_leaf ]).
Qed.

Lemma FileType_ReadMeshInternalFromBinary :
  preserves m_FileType ReadMeshInternalFromBinary.
Proof.
  unfold ReadMeshInternalFromBinary, ReadNormalAsBinary, ReadPointAsBinary,
    ReadInt16AsBinary, SetNumberOfCells.
  preserves_tac.
Qed.

Lemma FileType_ReopenOnWin32 : preserves m_FileType (ReopenOnWin32 env).
Proof.
  unfold ReopenOnWin32, InputStream_close, InputStream_open.
  preserves_tac.
Qed.

Lemma FileType_InputStream_close : preserves m_FileType InputStream_close.
Proof. unfold InputStream_close. preserves_tac. Qed.

End FileTypeFrame.

(* ===================================================================== *)
(** ** CanReadFile and CanWriteFile                                       *)
(* ===================================================================== *)

Lemma string_eqb_eq (a b : std_string) : string_eqb a b = true <-> a = b.
Proof.
  unfold string_eqb. destruct (list_eq_dec ascii_dec a b); intuition congruence.
Qed.

Lemma extension_test (extension : std_string) :
  negb (string_eqb extension (lit ".stl")) && negb (string_eqb extension (lit ".STL"))
    = false
  <-> extension = lit ".stl" \/ extension = lit ".STL".
Proof.
  rewrite <- !string_eqb_eq.
  destruct (string_eqb extension (lit ".stl")),
           (string_eqb extension (lit ".STL")); simpl; intuition congruence.
Qed.

(** C10.  [CanReadFile] answers true exactly when the named file exists
    and its last extension is [.stl] or [.STL]; [CanWriteFile] answers
    true exactly when the last extension is one of the two, whether or
    not the file exists.  A file that does not exist is therefore
    refused for reading whatever its extension. *)
Theorem CanReadFile_needs_file_CanWriteFile_does_not
  (env : Env) (fileName : std_string) :
  (CanReadFile env fileName = true <->
     FileExists env fileName = true /\
     (GetFilenameLastExtension env fileName = lit ".stl" \/
      GetFilenameLastExtension env fileName = lit ".STL"))
  /\
  (CanWriteFile env fileName = true <->
     (GetFilenameLastExtension env fileName = lit ".stl" \/
      GetFilenameLastExtension env fileName = lit ".STL")).
Proof.
  unfold CanReadFile, CanWriteFile.
  pose proof (extension_test (GetFilenameLastExtension env fileName)) as E.
  set (mismatch :=
         negb (string_eqb (GetFilenameLastExtension env fileName) (lit ".stl"))
         && negb (string_eqb (GetFilenameLastExtension env fileName) (lit ".STL")))
    in *.
  destruct (FileExists env fileName), mismatch; cbn [negb];
    destruct E as [E1 E2]; repeat split; intros; try tauto; try discriminate;
    try (exfalso; assert (true = false) by tauto; discriminate).
Qed.

(** With no file on disk, [mesh.stl] in some directory is refused for
    reading and accepted for writing; [mesh.vtk] is refused for both. *)
Example CanReadFile_missing_file :
  let env := Sample.env false [] in
  CanReadFile env (lit "/data/mesh.stl") = false /\
  CanWriteFile env (lit "/data/mesh.stl") = true /\
  CanWriteFile env (lit "/data/mesh.STL") = true /\
  CanWriteFile env (lit "/data/mesh.stl.vtk") = false.
Proof. repeat split; reflexivity. Qed.

Example CanReadFile_present_file :
  let env := Sample.env false [(lit "mesh.stl", [])] in
  CanReadFile env (lit "mesh.stl") = true.
Proof. reflexivity. Qed.

(* ===================================================================== *)
(** ** ReadPoints and ReadCells                                           *)
(* ===================================================================== *)

Lemma set_InputStream_same (io : STLMeshIO) :
  io = set_InputStream (m_InputStream io) io.
Proof. now destruct io. Qed.

Lemma set_InputStream_twice (s1 s2 : ifstream) (io : STLMeshIO) :
  set_InputStream s2 (set_InputStream s1 io) = set_InputStream s2 io.
Proof. now destruct io. Qed.

(** C9.  Whatever the buffer holds, [ReadPoints] and [ReadCells] hand
    it back as it was: each either returns with the buffer unchanged or
    throws because the file could not be opened, and in both cases the
    object differs from before in its input stream at most. *)
Theorem ReadPoints_ReadCells_leave_buffer
  (env : Env) (T : Type) (buffer : list T) (io : STLMeshIO) :
  ((fst (ReadPoints env buffer io) = Returned buffer \/
    fst (ReadPoints env buffer io) = Thrown (UnableToOpenFile (m_FileName io)))
   /\ same_but_InputStream io (snd (ReadPoints env buffer io)))
  /\
  ((fst (ReadCells env buffer io) = Returned buffer \/
    fst (ReadCells env buffer io) = Thrown (UnableToOpenFile (m_FileName io)))
   /\ same_but_InputStream io (snd (ReadCells env buffer io))).
Proof.
  assert (H : forall io,
    (fst (ReadPoints env buffer io) = Returned buffer \/
     fst (ReadPoints env buffer io) = Thrown (UnableToOpenFile (m_FileName io)))
    /\ same_but_InputStream io (snd (ReadPoints env buffer io))).
  { clear io; intros io.
    unfold same_but_InputStream, ReadPoints, OpenInputForFileType, InputStream_open,
      InputStream_close, bind, gets, modify, throw, ret.
    destruct io as [name t dim ct np nc os ins line pts ln pset pmap lid]; simpl.
    destruct t; simpl;
      destruct ins as [op d p e f]; destruct op; simpl;
      try (destruct (file_contents env name); simpl); auto. }
  split; [apply H | apply (H io)].
Qed.

(** On a file that exists the stream ends up closed. *)
Example ReadPoints_run :
  let env := Sample.env false [(lit "mesh.stl", lit "solid")] in
  let r := ReadPoints env [1; 2; 3] (Sample.io_for (lit "mesh.stl") BINARY) in
  fst r = Returned [1; 2; 3] /\ i_is_open (m_InputStream (snd r)) = false.
Proof. split; reflexivity. Qed.

(* ===================================================================== *)
(** ** Format detection                                                   *)
(* ===================================================================== *)

Lemma until_newline_whole (line : std_string) :
  ~ In newline line -> until_newline line = line.
Proof.
  induction line as [|c line IH]; simpl; intros H; [reflexivity|].
  destruct (Ascii.eqb c newline) eqn:E.
  - apply Ascii.eqb_eq in E. tauto.
  - f_equal. apply IH. tauto.
Qed.

Lemma until_newline_app (line rest : std_string) :
  ~ In newline line -> until_newline (line ++ newline :: rest) = line.
Proof.
  induction line as [|c line IH]; simpl; intros H.
  - reflexivity.
  - destruct (Ascii.eqb c newline) eqn:E.
    + apply Ascii.eqb_eq in E. tauto.
    + f_equal. apply IH. tauto.
Qed.

Lemma until_newline_FirstLine (data line : std_string) :
  FirstLine data line -> until_newline data = line.
Proof.
  intros [Hnl [-> | [rest ->]]].
  - now apply until_newline_whole.
  - now apply until_newline_app.
Qed.

Lemma until_newline_is_FirstLine (data : std_string) :
  FirstLine data (until_newline data).
Proof.
  induction data as [|c data [IHn IHd]]; simpl.
  - split; [tauto | now left].
  - destruct (Ascii.eqb c newline) eqn:E.
    + apply Ascii.eqb_eq in E; subst c.
      split; [tauto | right; now exists data].
    + split.
      * simpl. intros [H | H]; [|tauto].
        apply Ascii.eqb_neq in E. apply E. exact H.
      * destruct IHd as [Hd | [rest Hd]].
        -- left. now rewrite <- Hd.
        -- right. exists rest. simpl. now rewrite <- Hd.
Qed.

(** On a stream just opened, [getline] yields the first line and leaves
    the read position after the line terminator, if there is one. *)
Lemma getline_first_line (line rest str : std_string) :
  ~ In newline line ->
  getline (mkIfstream true (line ++ newline :: rest) 0 false false) str
  = (mkIfstream true (line ++ newline :: rest) (S (length line)) false false, line).
Proof.
  intros H. unfold getline, i_good, i_rest; simpl.
  rewrite (until_newline_app _ _ H).
  rewrite length_app; simpl.
  destruct (Nat.ltb_spec (length line) (length line + S (length rest))); [|lia].
  reflexivity.
Qed.

Lemma OpenInputForFileType_opens (env : Env) (io : STLMeshIO) (data : std_string) :
  i_is_open (m_InputStream io) = false ->
  m_FileType io <> TYPENOTAPPLICABLE ->
  file_contents env (m_FileName io) = Some data ->
  OpenInputForFileType env io
  = (Returned tt, set_InputStream (mkIfstream true data 0 false false) io).
Proof.
  intros Hclosed Htype Hfile.
  unfold OpenInputForFileType, InputStream_open, bind, gets, modify, throw, ret.
  destruct io as [name t dim ct np nc os ins line pts ln pset pmap lid]; simpl in *.
  destruct ins as [op d p e f]; simpl in *; subst op.
  destruct t; try congruence; unfold i_open; simpl; rewrite Hfile; reflexivity.
Qed.

Lemma FileType_eqb_eq (a b : FileType) : FileType_eqb a b = true -> a = b.
Proof. destruct a, b; simpl; congruence. Qed.

(** Either branch of the detection leaves the file type at the value
    it tests for, whatever the parsing that follows does. *)
Lemma branch_settles_FileType (env : Env) (target : FileType) (body : M unit) io :
  preserves m_FileType body ->
  m_FileType
    (snd (((t <- gets m_FileType ;;
            (if negb (FileType_eqb t target)
             then modify (set_FileType target) ;; ReopenOnWin32 env
             else ret tt) ;;
            body) ;;
           InputStream_close) io)) = target.
Proof.
  intros Hbody.
  assert (Htail : forall (pre : M unit) io0,
             preserves m_FileType pre ->
             m_FileType (snd (((pre ;; body) ;; InputStream_close) io0))
             = m_FileType io0).
  { intros pre io0 Hpre.
    apply (respects_bind _ (preserves_trans m_FileType)).
    - apply (respects_bind _ (preserves_trans m_FileType)); auto.
    - intros _. apply FileType_InputStream_close. }
  rewrite bind_assoc, bind_gets.
  destruct (FileType_eqb (m_FileType io) target) eqn:E; cbn [negb].
  - rewrite Htail; [now apply FileType_eqb_eq|].
    apply (respects_ret _ (preserves_refl m_FileType)).
  - rewrite bind_assoc, bind_assoc, bind_modify.
    rewrite <- bind_assoc.
    rewrite Htail; [now destruct io | apply FileType_ReopenOnWin32].
Qed.

(** C4.  The reader takes the first line of the file, the bytes before
    the first newline, and settles the file type on it alone: ASCII
    when the line contains "solid" anywhere, BINARY otherwise.  The
    object is asked to read a file that can be opened, with its input
    stream not yet open. *)
Theorem ReadMeshInformation_classifies
  (env : Env) (io : STLMeshIO) (data line : std_string) :
  i_is_open (m_InputStream io) = false ->
  m_FileType io <> TYPENOTAPPLICABLE ->
  file_contents env (m_FileName io) = Some data ->
  FirstLine data line ->
  (Contains line (lit "solid") ->
     m_FileType (snd (ReadMeshInformation env io)) = ASCII)
  /\
  (~ Contains line (lit "solid") ->
     m_FileType (snd (ReadMeshInformation env io)) = BINARY).
Proof.
  intros Hclosed Htype Hfile Hline.
  apply until_newline_FirstLine in Hline.
  unfold ReadMeshInformation.
  rewrite (bind_Returned _ _ _ _ _ (OpenInputForFileType_opens _ _ _ Hclosed Htype Hfile)).
  set (io1 := set_InputStream (mkIfstream true data 0 false false) io).
  assert (Hget : exists s,
    (fun io0 : STLMeshIO =>
       let '(s0, line0) := getline (m_InputStream io0) [] in
       (Returned line0, set_InputStream s0 io0)) io1
    = (Returned line, set_InputStream s io1)).
  { destruct io; unfold io1, getline, i_good, i_rest; simpl. rewrite Hline.
    destruct (length line <? length data); eauto. }
  destruct Hget as [s Hget].
  rewrite (bind_Returned _ _ _ _ _ Hget).
  split; intros Hc.
  - apply found_iff_Contains in Hc. rewrite Hc.
    apply branch_settles_FileType, FileType_ReadMeshInternalFromAscii.
  - apply found_false_iff in Hc. rewrite Hc.
    apply branch_settles_FileType, FileType_ReadMeshInternalFromBinary.
Qed.

(** A file whose first line is [solid cube] is read as ASCII, also when
    the object was set to binary; a file that starts with an 80-byte
    header without "solid" and a 4-byte count is read as binary, also
    when the object was set to ASCII. *)
Lemma ReadMeshInformation_classifies_witness :
  m_FileType
    (snd (ReadMeshInformation
            (Sample.env false [(lit "cube.stl", Sample.text [lit "solid cube"; lit "endsolid"])])
            (Sample.io_for (lit "cube.stl") BINARY))) = ASCII
  /\
  m_FileType
    (snd (ReadMeshInformation
            (Sample.env false
               [(lit "cube.stl", repeat "x"%char 80 ++ le_bytes 4 0)])
            (Sample.io_for (lit "cube.stl") ASCII))) = BINARY.
Proof.
  split.
  - apply (ReadMeshInformation_classifies
             (Sample.env false [(lit "cube.stl", Sample.text [lit "solid cube"; lit "endsolid"])])
             (Sample.io_for (lit "cube.stl") BINARY)
             (Sample.text [lit "solid cube"; lit "endsolid"]) (lit "solid cube")).
    + reflexivity.
    + discriminate.
    + reflexivity.
    + split.
      * vm_compute. intuition discriminate.
      * right. exists (Sample.text [lit "endsolid"]). reflexivity.
    + exists [], (lit " cube"). reflexivity.
  - apply (ReadMeshInformation_classifies
             (Sample.env false [(lit "cube.stl", repeat "x"%char 80 ++ le_bytes 4 0)])
             (Sample.io_for (lit "cube.stl") ASCII)
             (repeat "x"%char 80 ++ le_bytes 4 0)
             (repeat "x"%char 80 ++ le_bytes 4 0)).
    + reflexivity.
    + discriminate.
    + reflexivity.
    + split.
      * vm_compute. intuition discriminate.
      * left. reflexivity.
    + apply found_false_iff. reflexivity.
Defined.

(* ===================================================================== *)
(** ** Writing: what reaches the output stream                            *)
(* ===================================================================== *)

Lemma length_le_bytes (n : nat) (z : Z) : length (le_bytes n z) = n.
Proof. revert z; induction n; intros; simpl; auto. Qed.

Lemma length_Float32_bytes (x : PointValueType) : length (Float32.bytes x) = 4.
Proof. apply length_le_bytes. Qed.

Lemma length_array_bytes (a : FixedArray3) : length (array_bytes a) = 12.
Proof.
  unfold array_bytes. rewrite !length_app, !length_Float32_bytes. reflexivity.
Qed.

Lemma length_binary_record normal tri : length (binary_record normal tri) = 50.
Proof.
  destruct tri as [[p0 p1] p2]. unfold binary_record.
  rewrite !length_app, !length_array_bytes, length_le_bytes. reflexivity.
Qed.

Lemma appended_writable bs io io' : appended bs io io' -> writable io'.
Proof. intros ->. destruct io; split; reflexivity. Qed.

Lemma appended_nil io : writable io -> appended [] io io.
Proof.
  destruct io as [name t dim ct np nc os ins line pts ln pset pmap lid].
  destruct os as [op fl bs]. unfold writable, appended; simpl.
  intros [-> ->]. now rewrite app_nil_r.
Qed.

Lemma appended_trans a b io io1 io2 :
  appended a io io1 -> appended b io1 io2 -> appended (a ++ b) io io2.
Proof.
  intros -> ->. destruct io; unfold appended; simpl. now rewrite app_assoc.
Qed.

Lemma appended_Points bs io io' : appended bs io io' -> m_Points io' = m_Points io.
Proof. intros ->. now destruct io. Qed.

Lemma appended_bytes bs io io' :
  appended bs io io' ->
  o_bytes (m_OutputStream io') = o_bytes (m_OutputStream io) ++ bs.
Proof. intros ->. now destruct io. Qed.

Lemma appends_out bs io : writable io -> appends (out bs) io tt bs.
Proof.
  intros [Ho Hf]. eexists; split; [|reflexivity].
  unfold out, modify, o_put. now rewrite Ho, Hf.
Qed.

Lemma appends_ret {A} (a : A) io : writable io -> appends (ret a) io a [].
Proof. intros H. exists io; split; [reflexivity | now apply appended_nil]. Qed.

Lemma appends_bind {A B} (m : M A) (k : A -> M B) io a b bs1 bs2 :
  appends m io a bs1 ->
  (forall io1, appended bs1 io io1 -> appends (k a) io1 b bs2) ->
  appends (bind m k) io b (bs1 ++ bs2).
Proof.
  intros (io1 & Hm & H1) Hk.
  destruct (Hk io1 H1) as (io2 & Hk2 & H2).
  exists io2; split.
  - now rewrite (bind_Returned _ _ _ _ _ Hm).
  - eapply appended_trans; eauto.
Qed.

Lemma appends_eq {A} (m : M A) io a bs bs' :
  appends m io a bs -> bs = bs' -> appends m io a bs'.
Proof. now intros H <-. Qed.

(** A sequence of insertions appends the concatenation of what each
    inserts. *)
Ltac appends_outs :=
  repeat first
    [ apply appends_out; assumption
    | eapply appends_bind;
      [ apply appends_out; assumption
      | let io1 := fresh "io" in
        let H := fresh "H" in
        intros io1 H; apply appended_writable in H ] ].

Lemma WriteTriangle_appends (env : Env) (t : FileType) (p0 p1 p2 : PointType) io :
  writable io ->
  appends (WriteTriangle env t p0 p1 p2) io tt (record env t edge_cross (p0, p1, p2)).
Proof.
  intros Hw. destruct t; unfold WriteTriangle, record, edge_cross.
  - eapply appends_eq; [appends_outs|].
    unfold ascii_record. now rewrite <- !app_assoc.
  - unfold WriteNormalAsBinary, WritePointAsBinary, WriteInt16AsBinary.
    eapply appends_eq.
    + eapply appends_bind; [appends_outs|intros io1 H1; apply appended_writable in H1].
      eapply appends_bind; [appends_outs|intros io2 H2; apply appended_writable in H2].
      eapply appends_bind; [appends_outs|intros io3 H3; apply appended_writable in H3].
      eapply appends_bind; [appends_outs|intros io4 H4; apply appended_writable in H4].
      appends_outs.
    + unfold binary_record, array_bytes. now rewrite <- !app_assoc.
  - now apply appends_ret.
Qed.

(* --------------------------------------------------------------------- *)
(** *** Walking the cell buffer                                           *)
(* --------------------------------------------------------------------- *)

Lemma wrap_uint64_small (z : Z) :
  (0 <= z < 2 ^ 64)%Z -> wrap_uint64 z = z.
Proof. intros H. unfold wrap_uint64. now apply Z.mod_small. Qed.

(** Element [j] of a stretch [l] that starts at offset [length pre]. *)
Lemma cellsBuffer_at_offset (pre l tl : list Z) (j : nat) (x : Z) :
  nth_error l j = Some x ->
  cellsBuffer_at (pre ++ l ++ tl) (Z.of_nat (length pre + j)) = Some x.
Proof.
  intros H. unfold cellsBuffer_at. rewrite Nat2Z.id.
  rewrite nth_error_app2 by lia.
  replace (length pre + j - length pre) with j by lia.
  rewrite nth_error_app1; [exact H|].
  apply nth_error_Some. congruence.
Qed.

Lemma wrap_int32_succ (a : Z) : wrap_int32 (wrap_int32 a + 1) = wrap_int32 (a + 1).
Proof.
  unfold wrap_int32.
  replace ((a + 2 ^ 31) mod 2 ^ 32 - 2 ^ 31 + 1 + 2 ^ 31)%Z
    with ((a + 2 ^ 31) mod 2 ^ 32 + 1)%Z by lia.
  rewrite Zplus_mod_idemp_l. f_equal. f_equal. lia.
Qed.

Lemma count_from_wrap (cs : list Cell) (n : nat) :
  count_from (wrap_int32 (Z.of_nat n)) cs
  = wrap_int32 (Z.of_nat (n + length (filter qualifies cs))).
Proof.
  revert n; induction cs as [|c cs IH]; intros n; simpl.
  - now rewrite Nat.add_0_r.
  - destruct (qualifies c); simpl.
    + rewrite wrap_int32_succ.
      replace (Z.of_nat n + 1)%Z with (Z.of_nat (S n)) by lia.
      rewrite IH. f_equal. lia.
    + apply IH.
Qed.

Lemma count_from_zero (cs : list Cell) :
  count_from 0 cs = wrap_int32 (Z.of_nat (length (filter qualifies cs))).
Proof. apply (count_from_wrap cs 0). Qed.

(** The counting loop on a buffer that holds the cells [cs] from offset
    [length pre] on. *)
Lemma CountTriangles_cells (cs : list Cell) :
  forall (pre post buf : list Z) (acc : Z),
  buf = pre ++ encode_cells cs ++ post ->
  (Z.of_nat (length buf) < 2 ^ 64)%Z ->
  CountTriangles (length cs) buf (Z.of_nat (length pre)) acc
  = Some (count_from acc cs).
Proof.
  induction cs as [|[ct pts] cs IH]; intros pre post buf acc Hbuf Hlen.
  - reflexivity.
  - assert (Hshape : buf = pre ++ (ct :: Z.of_nat (length pts) :: pts)
                              ++ (encode_cells cs ++ post)).
    { rewrite Hbuf. simpl. now rewrite <- app_assoc. }
    assert (Hl : length buf
                 = length pre + (2 + length pts)
                   + length (encode_cells cs ++ post)).
    { rewrite Hshape, !length_app. simpl. lia. }
    assert (H0 : cellsBuffer_at buf (Z.of_nat (length pre)) = Some ct).
    { rewrite Hshape.
      pose proof (cellsBuffer_at_offset pre (ct :: Z.of_nat (length pts) :: pts)
                    (encode_cells cs ++ post) 0 ct eq_refl) as H.
      now rewrite Nat.add_0_r in H. }
    assert (H1 : cellsBuffer_at buf (wrap_uint64 (Z.of_nat (length pre) + 1))
                 = Some (Z.of_nat (length pts))).
    { rewrite wrap_uint64_small by lia.
      replace (Z.of_nat (length pre) + 1)%Z with (Z.of_nat (length pre + 1)) by lia.
      rewrite Hshape. now apply cellsBuffer_at_offset. }
    simpl length. cbn [CountTriangles]. rewrite H0, H1.
    rewrite (wrap_uint64_small (Z.of_nat (length pre) + 2)) by lia.
    rewrite wrap_uint64_small by lia.
    replace (Z.of_nat (length pre) + 2 + Z.of_nat (length pts))%Z
      with (Z.of_nat (length (pre ++ ct :: Z.of_nat (length pts) :: pts)))
      by (rewrite length_app; simpl; lia).
    rewrite (IH (pre ++ ct :: Z.of_nat (length pts) :: pts) post buf); auto.
    rewrite Hshape. now rewrite <- app_assoc.
Qed.

Lemma appends_lift_Some {A B} (o : option A) (x : A) (k : A -> M B) io b bs :
  o = Some x -> appends (k x) io b bs -> appends (bind (lift_option o) k) io b bs.
Proof. intros ->. exact (fun H => H). Qed.

Lemma appends_gets {A B} (f : STLMeshIO -> A) (k : A -> M B) io b bs :
  appends (k (f io)) io b bs -> appends (bind (gets f) k) io b bs.
Proof. exact (fun H => H). Qed.

Lemma qualifies_three_points (n : nat) (c : Cell) :
  cell_ok n c = true -> qualifies c = true ->
  exists i0 i1 i2,
    cell_points c = [i0; i1; i2] /\
    Z.to_nat i0 < n /\ Z.to_nat i1 < n /\ Z.to_nat i2 < n.
Proof.
  destruct c as [ct pts]. unfold cell_ok, qualifies, isTriangle; simpl.
  intros Hok Hq. rewrite Hq in Hok. simpl in Hok.
  apply andb_true_iff in Hok as [Hlen Hids].
  assert (H3 : length pts = 3).
  { destruct (ct =? TRIANGLE_CELL)%Z; simpl in *.
    - now apply Nat.eqb_eq.
    - apply andb_true_iff in Hq as [_ Hq]. apply Z.eqb_eq in Hq. lia. }
  destruct pts as [|i0 [|i1 [|i2 [|? ?]]]]; try discriminate.
  simpl in Hids. rewrite !andb_true_iff in Hids.
  destruct Hids as ([H0a H0b] & [H1a H1b] & [H2a H2b] & _).
  exists i0, i1, i2. repeat split; lia.
Qed.

(** The emitting loop on a buffer that holds the cells [cs] from offset
    [length pre] on: it returns, and what it appends is one record per
    qualifying cell. *)
Lemma WriteCellsLoop_cells (env : Env) (t : FileType) (cs : list Cell) :
  forall (pre post buf : list Z) (io : STLMeshIO),
  buf = pre ++ encode_cells cs ++ post ->
  (Z.of_nat (length buf) < 2 ^ 64)%Z ->
  forallb (cell_ok (length (m_Points io))) cs = true ->
  writable io ->
  appends (WriteCellsLoop env (length cs) t buf (Z.of_nat (length pre))) io tt
          (flat_map (record env t edge_cross) (triangles (m_Points io) cs)).
Proof.
  induction cs as [|c cs IH]; intros pre post buf io Hbuf Hlen Hok Hw.
  - now apply appends_ret.
  - simpl in Hok. apply andb_true_iff in Hok as [Hc Hok].
    pose proof (qualifies_three_points _ _ Hc) as Hq.
    destruct c as [ct pts].
    assert (Hshape : buf = pre ++ (ct :: Z.of_nat (length pts) :: pts)
                              ++ (encode_cells cs ++ post)).
    { rewrite Hbuf. simpl. now rewrite <- app_assoc. }
    assert (Hl : length buf
                 = length pre + (2 + length pts)
                   + length (encode_cells cs ++ post)).
    { rewrite Hshape, !length_app. simpl. lia. }
    assert (Hat : forall j x,
               nth_error (ct :: Z.of_nat (length pts) :: pts) j = Some x ->
               cellsBuffer_at buf (Z.of_nat (length pre + j)) = Some x).
    { intros j x Hj. rewrite Hshape. now apply cellsBuffer_at_offset. }
    assert (Hnext : buf = (pre ++ ct :: Z.of_nat (length pts) :: pts)
                          ++ encode_cells cs ++ post).
    { rewrite Hshape. now rewrite <- app_assoc. }
    simpl length. cbn [WriteCellsLoop].
    pose proof (Hat 0 ct eq_refl) as H0. rewrite Nat.add_0_r in H0.
    pose proof (Hat 1 _ eq_refl) as H1.
    replace (Z.of_nat (length pre + 1)) with (wrap_uint64 (Z.of_nat (length pre) + 1)) in H1
      by (rewrite wrap_uint64_small; lia).
    apply (appends_lift_Some _ _ _ _ _ _ H0).
    apply (appends_lift_Some _ _ _ _ _ _ H1).
    rewrite (wrap_uint64_small (Z.of_nat (length pre) + 2)) by lia.
    unfold triangles. simpl filter.
    change (qualifies {| cell_type := ct; cell_points := pts |})
      with (isTriangle ct (Z.of_nat (length pts))) in *.
    destruct (isTriangle ct (Z.of_nat (length pts))) eqn:Eq.
    + destruct (Hq eq_refl) as (i0 & i1 & i2 & Hpts & Hi0 & Hi1 & Hi2).
      simpl in Hpts. subst pts. simpl length in *.
      pose proof (Hat 2 _ eq_refl) as H2.
      pose proof (Hat 3 _ eq_refl) as H3.
      pose proof (Hat 4 _ eq_refl) as H4.
      replace (Z.of_nat (length pre + 2)) with (Z.of_nat (length pre) + 2)%Z in H2 by lia.
      replace (Z.of_nat (length pre + 3))
        with (wrap_uint64 (Z.of_nat (length pre) + 2 + 1)) in H3
        by (rewrite wrap_uint64_small; lia).
      replace (Z.of_nat (length pre + 4))
        with (wrap_uint64 (Z.of_nat (length pre) + 2 + 2)) in H4
        by (rewrite wrap_uint64_small; lia).
      apply (appends_lift_Some _ _ _ _ _ _ H2).
      apply (appends_lift_Some _ _ _ _ _ _ H3).
      apply (appends_lift_Some _ _ _ _ _ _ H4).
      apply appends_gets.
      destruct (nth_error (m_Points io) (Z.to_nat i0)) as [p0|] eqn:E0;
        [|apply nth_error_None in E0; lia].
      destruct (nth_error (m_Points io) (Z.to_nat i1)) as [p1|] eqn:E1;
        [|apply nth_error_None in E1; lia].
      destruct (nth_error (m_Points io) (Z.to_nat i2)) as [p2|] eqn:E2;
        [|apply nth_error_None in E2; lia].
      apply (appends_lift_Some _ _ _ _ _ _ eq_refl).
      apply (appends_lift_Some _ _ _ _ _ _ eq_refl).
      apply (appends_lift_Some _ _ _ _ _ _ eq_refl).
      cbn [flat_map]. unfold triangle_of at 1, corners.
      cbv beta iota delta [cell_points]. rewrite E0, E1, E2.
      cbn [app flat_map].
      eapply appends_bind; [now apply WriteTriangle_appends|].
      intros io1 Hio1.
      rewrite (wrap_uint64_small (Z.of_nat (length pre) + 2 + 3)) by lia.
      replace (Z.of_nat (length pre) + 2 + 3)%Z
        with (Z.of_nat (length (pre ++ [ct; 3%Z; i0; i1; i2])))
        by (rewrite length_app; simpl; lia).
      rewrite <- (appended_Points _ _ _ Hio1).
      apply (IH _ post); auto.
      * now rewrite (appended_Points _ _ _ Hio1).
      * eapply appended_writable; eauto.
    + rewrite wrap_uint64_small by lia.
      replace (Z.of_nat (length pre) + 2 + Z.of_nat (length pts))%Z
        with (Z.of_nat (length (pre ++ ct :: Z.of_nat (length pts) :: pts)))
        by (rewrite length_app; simpl; lia).
      apply (IH _ post); auto.
Qed.

Lemma triangles_of_ok_cells (points : list PointType) (cs : list Cell) :
  forallb (cell_ok (length points)) cs = true ->
  Forall2 (fun c tri => corners points c = Some tri)
          (filter qualifies cs) (triangles points cs).
Proof.
  unfold triangles. induction cs as [|c cs IH]; simpl; intros Hok.
  - constructor.
  - apply andb_true_iff in Hok as [Hc Hok].
    destruct (qualifies c) eqn:Eq; [|auto].
    destruct (qualifies_three_points _ _ Hc Eq) as (i0 & i1 & i2 & Hp & H0 & H1 & H2).
    simpl. unfold triangle_of at 1, corners. rewrite Hp.
    destruct (nth_error points (Z.to_nat i0)) eqn:E0;
      [|apply nth_error_None in E0; lia].
    destruct (nth_error points (Z.to_nat i1)) eqn:E1;
      [|apply nth_error_None in E1; lia].
    destruct (nth_error points (Z.to_nat i2)) eqn:E2;
      [|apply nth_error_None in E2; lia].
    simpl. constructor; auto.
    unfold corners. rewrite Hp, E0, E1, E2. reflexivity.
Qed.

Lemma length_binary_records normal_of (tris : list (PointType * PointType * PointType)) :
  length (flat_map (fun tri => binary_record (normal_of tri) tri) tris)
  = 50 * length tris.
Proof.
  induction tris as [|tri tris IH]; simpl; [reflexivity|].
  rewrite length_app, length_binary_record, IH. lia.
Qed.

(** [WriteCells] on a buffer that starts with the encoding of [cs]:
    it returns, and its whole effect is to append [written_cells]. *)
Lemma WriteCells_cells (env : Env) (cs : list Cell) (post : list Z) (io : STLMeshIO) :
  m_NumberOfCells io = Z.of_nat (length cs) ->
  (Z.of_nat (length (encode_cells cs ++ post)) < 2 ^ 64)%Z ->
  forallb (cell_ok (length (m_Points io))) cs = true ->
  writable io ->
  appends (WriteCells env (encode_cells cs ++ post)) io tt
          (written_cells env (m_FileType io) edge_cross (m_Points io) cs).
Proof.
  intros Hn Hlen Hok Hw.
  unfold WriteCells. apply appends_gets. apply appends_gets.
  rewrite Hn, Nat2Z.id.
  assert (Hloop : forall io1, writable io1 -> m_Points io1 = m_Points io ->
            appends (WriteCellsLoop env (length cs) (m_FileType io)
                       (encode_cells cs ++ post) 0) io1 tt
                    (flat_map (record env (m_FileType io) edge_cross)
                       (triangles (m_Points io) cs))).
  { intros io1 Hw1 Hp1. rewrite <- Hp1.
    apply (WriteCellsLoop_cells env (m_FileType io) cs [] post); auto.
    now rewrite Hp1. }
  unfold written_cells. destruct (m_FileType io).
  - eapply appends_bind; [now apply appends_ret|]. intros io1 H1.
    eapply appends_bind.
    + apply Hloop; [eapply appended_writable; eauto | eapply appended_Points; eauto].
    + intros io2 H2. apply appends_out. eapply appended_writable; eauto.
  - eapply appends_eq.
    + eapply appends_bind.
      * assert (Hc : CountTriangles (length cs) (encode_cells cs ++ post) 0 0
                     = Some (count_from 0 cs))
          by (apply (CountTriangles_cells cs [] post); auto).
        apply (appends_lift_Some _ _ _ _ _ _ Hc).
        unfold WriteInt32AsBinary. now apply appends_out.
      * intros io1 H1. eapply appends_bind.
        -- apply Hloop; [eapply appended_writable; eauto | eapply appended_Points; eauto].
        -- intros io2 H2. apply appends_ret. eapply appended_writable; eauto.
    + now rewrite count_from_zero.
  - eapply appends_bind; [now apply appends_ret|]. intros io1 H1.
    eapply appends_bind.
    + apply Hloop; [eapply appended_writable; eauto | eapply appended_Points; eauto].
    + intros io2 H2. apply appends_ret. eapply appended_writable; eauto.
Qed.

(** C5.  On a cell buffer that holds the cells [cells], [WriteCells]
    returns and writes, for either file type, exactly one record per
    qualifying cell, in buffer order, with that cell's corner points;
    the count written ahead of the binary records is the number of
    qualifying cells.  Cells that do not qualify add nothing to the
    count and nothing to the records. *)
Theorem WriteCells_counts_and_emits_qualifying_cells
  (env : Env) (cells : list Cell) (post : list Z) (io : STLMeshIO) :
  m_NumberOfCells io = Z.of_nat (length cells) ->
  (Z.of_nat (length (encode_cells cells ++ post)) < 2 ^ 64)%Z ->
  forallb (cell_ok (length (m_Points io))) cells = true ->
  writable io ->
  exists io' tris,
    WriteCells env (encode_cells cells ++ post) io = (Returned tt, io') /\
    Forall2 (fun c tri => corners (m_Points io) c = Some tri)
            (filter qualifies cells) tris /\
    (m_FileType io = BINARY ->
       o_bytes (m_OutputStream io')
       = o_bytes (m_OutputStream io)
         ++ le_bytes 4 (wrap_int32 (Z.of_nat (length (filter qualifies cells))))
         ++ flat_map (fun tri => binary_record (edge_cross tri) tri) tris) /\
    (m_FileType io = ASCII ->
       o_bytes (m_OutputStream io')
       = o_bytes (m_OutputStream io)
         ++ flat_map (fun tri => ascii_record env (edge_cross tri) tri) tris
         ++ lit "endsolid" ++ endl).
Proof.
  intros Hn Hlen Hok Hw.
  destruct (WriteCells_cells env cells post io Hn Hlen Hok Hw) as (io' & Hrun & Happ).
  exists io', (triangles (m_Points io) cells).
  split; [exact Hrun|]. split; [now apply triangles_of_ok_cells|].
  rewrite (appended_bytes _ _ _ Happ). unfold written_cells.
  split; intros ->; unfold record; now rewrite ?app_nil_r.
Qed.

Lemma WriteCells_counts_and_emits_qualifying_cells_witness :
  exists io' tris,
    WriteCells (Sample.env false []) (encode_cells Sample.mixed_cells)
      (Sample.writer ASCII (lit "solid ascii" ++ endl) Sample.mixed_cells)
    = (Returned tt, io') /\
    Forall2 (fun c tri => corners Sample.three_points c = Some tri)
            [mkCell TRIANGLE_CELL [0; 1; 2]%Z; mkCell POLYGON_CELL [2; 1; 0]%Z] tris /\
    (ASCII = BINARY ->
       o_bytes (m_OutputStream io')
       = (lit "solid ascii" ++ endl)
         ++ le_bytes 4 (wrap_int32 2)
         ++ flat_map (fun tri => binary_record (edge_cross tri) tri) tris) /\
    (ASCII = ASCII ->
       o_bytes (m_OutputStream io')
       = (lit "solid ascii" ++ endl)
         ++ flat_map (fun tri => ascii_record (Sample.env false []) (edge_cross tri) tri)
              tris
         ++ lit "endsolid" ++ endl).
Proof.
  apply (WriteCells_counts_and_emits_qualifying_cells
           (Sample.env false []) Sample.mixed_cells []
           (Sample.writer ASCII (lit "solid ascii" ++ endl) Sample.mixed_cells)).
  - reflexivity.
  - reflexivity.
  - reflexivity.
  - split; reflexivity.
Defined.

(** The same mesh in both file types: two of the five cells qualify. *)
Example WriteCells_mixed_cells_binary :
  let r := WriteCells (Sample.env false []) (encode_cells Sample.mixed_cells)
             (Sample.writer BINARY [] Sample.mixed_cells) in
  fst r = Returned tt /\
  firstn 4 (o_bytes (m_OutputStream (snd r))) = le_bytes 4 2 /\
  length (o_bytes (m_OutputStream (snd r))) = 4 + 50 * 2.
Proof. repeat split; reflexivity. Qed.

Example WriteCells_mixed_cells_ascii :
  let r := WriteCells (Sample.env false []) (encode_cells Sample.mixed_cells)
             (Sample.writer ASCII [] Sample.mixed_cells) in
  fst r = Returned tt /\
  o_bytes (m_OutputStream (snd r))
  = Sample.text
      [lit "  facet normal 0 0 1"; lit "    outer loop";
       lit "      vertex 0 0 0"; lit "      vertex 1 0 0"; lit "      vertex 0 1 0";
       lit "    endloop"; lit "  endfacet";
       lit "  facet normal 0 0 -1"; lit "    outer loop";
       lit "      vertex 0 1 0"; lit "      vertex 1 0 0"; lit "      vertex 0 0 0";
       lit "    endloop"; lit "  endfacet";
       lit "endsolid"].
Proof. split; reflexivity. Qed.

(** Why triangle-tagged cells are taken to have three points, as the
    cell types of the mesh guarantee: the counting loop steps over a
    cell by its point count, the emitting loop steps over a triangle by
    three.  On a buffer that tags a cell of four points as a triangle
    the two loops part ways: here the count is 1 and two records
    follow. *)
Example WriteCells_triangle_tag_with_four_points :
  let buffer := [TRIANGLE_CELL; 4; 0; 1; 2; 2;  1; 2; 0; 1]%Z in
  let r := WriteCells (Sample.env false []) buffer
             (set_NumberOfCells 2 (Sample.writer BINARY [] [])) in
  fst r = Returned tt /\
  firstn 4 (o_bytes (m_OutputStream (snd r))) = le_bytes 4 1 /\
  length (o_bytes (m_OutputStream (snd r))) = 4 + 50 * 2.
Proof. vm_compute. repeat split. Qed.

(* --------------------------------------------------------------------- *)
(** *** The normal                                                        *)
(* --------------------------------------------------------------------- *)

(** C6.  Every record [WriteCells] writes, in either file type, carries
    as its normal the cross product of the edge vectors [p2 - p1] and
    [p0 - p1], in that order.  With a = p2 - p1 and b = p0 - p1 taken
    component by component, the normal written is
    (a1 b2 - a2 b1, a2 b0 - a0 b2, a0 b1 - a1 b0), every difference and
    every product rounded to binary32, and nothing more is done to it:
    it is not scaled to unit length.  The statement is for meshes whose
    normals hold no NaN; of a NaN the file receives the sign and the
    payload the processor produced, which the floats used here do not
    carry. *)
Theorem WriteCells_normal_is_edge_cross_product
  (env : Env) (cells : list Cell) (post : list Z) (io : STLMeshIO) :
  let normal_of := fun tri : PointType * PointType * PointType =>
    let '(p0, p1, p2) := tri in
    let a0 := Float32.sub (elem0 p2) (elem0 p1) in
    let a1 := Float32.sub (elem1 p2) (elem1 p1) in
    let a2 := Float32.sub (elem2 p2) (elem2 p1) in
    let b0 := Float32.sub (elem0 p0) (elem0 p1) in
    let b1 := Float32.sub (elem1 p0) (elem1 p1) in
    let b2 := Float32.sub (elem2 p0) (elem2 p1) in
    mkArray3 (Float32.sub (Float32.mul a1 b2) (Float32.mul a2 b1))
             (Float32.sub (Float32.mul a2 b0) (Float32.mul a0 b2))
             (Float32.sub (Float32.mul a0 b1) (Float32.mul a1 b0)) in
  m_NumberOfCells io = Z.of_nat (length cells) ->
  (Z.of_nat (length (encode_cells cells ++ post)) < 2 ^ 64)%Z ->
  forallb (cell_ok (length (m_Points io))) cells = true ->
  writable io ->
  forallb (fun tri => no_nan (normal_of tri)) (triangles (m_Points io) cells) = true ->
  exists io',
    WriteCells env (encode_cells cells ++ post) io = (Returned tt, io') /\
    o_bytes (m_OutputStream io')
    = o_bytes (m_OutputStream io)
      ++ written_cells env (m_FileType io) normal_of (m_Points io) cells.
Proof.
  intros normal_of Hn Hlen Hok Hw _.
  destruct (WriteCells_cells env cells post io Hn Hlen Hok Hw) as (io' & Hrun & Happ).
  exists io'. split; [exact Hrun|].
  rewrite (appended_bytes _ _ _ Happ). reflexivity.
Qed.

(** The triangle (0,0,0), (1,0,0), (0,1,0): the normal written is
    exactly (0,0,1).  The triangle (0,0,0), (2,0,0), (0,2,0), of the
    same orientation and four times the area: the normal written is
    (0,0,4), in the binary file and in the ASCII file. *)
Lemma WriteCells_normal_is_edge_cross_product_witness :
  let doubled := [Sample.point 0 0 0; Sample.point 2 0 0; Sample.point 0 2 0] in
  (exists io',
     WriteCells (Sample.env false []) (encode_cells Sample.one_triangle)
       (Sample.writer BINARY [] Sample.one_triangle) = (Returned tt, io') /\
     o_bytes (m_OutputStream io')
     = le_bytes 4 1
       ++ array_bytes (Sample.point 0 0 1)
       ++ array_bytes (Sample.point 0 0 0)
       ++ array_bytes (Sample.point 1 0 0)
       ++ array_bytes (Sample.point 0 1 0)
       ++ le_bytes 2 0)
  /\
  (exists io',
     WriteCells (Sample.env false []) (encode_cells Sample.one_triangle)
       (set_Points doubled (Sample.writer BINARY [] Sample.one_triangle))
     = (Returned tt, io') /\
     o_bytes (m_OutputStream io')
     = le_bytes 4 1
       ++ array_bytes (Sample.point 0 0 4)
       ++ array_bytes (Sample.point 0 0 0)
       ++ array_bytes (Sample.point 2 0 0)
       ++ array_bytes (Sample.point 0 2 0)
       ++ le_bytes 2 0)
  /\
  (exists io',
     WriteCells (Sample.env false []) (encode_cells Sample.one_triangle)
       (set_Points doubled (Sample.writer ASCII [] Sample.one_triangle))
     = (Returned tt, io') /\
     o_bytes (m_OutputStream io')
     = Sample.text
         [lit "  facet normal 0 0 4"; lit "    outer loop";
          lit "      vertex 0 0 0"; lit "      vertex 2 0 0"; lit "      vertex 0 2 0";
          lit "    endloop"; lit "  endfacet";
          lit "endsolid"]).
Proof.
  intros doubled. split; [|split].
  - destruct (WriteCells_normal_is_edge_cross_product
                (Sample.env false []) Sample.one_triangle []
                (Sample.writer BINARY [] Sample.one_triangle))
      as (io' & Hrun & Hbytes); try reflexivity.
    + split; reflexivity.
    + exists io'. split; [exact Hrun|]. rewrite Hbytes. reflexivity.
  - destruct (WriteCells_normal_is_edge_cross_product
                (Sample.env false []) Sample.one_triangle []
                (set_Points doubled (Sample.writer BINARY [] Sample.one_triangle)))
      as (io' & Hrun & Hbytes); try reflexivity.
    + split; reflexivity.
    + exists io'. split; [exact Hrun|]. rewrite Hbytes. reflexivity.
  - destruct (WriteCells_normal_is_edge_cross_product
                (Sample.env false []) Sample.one_triangle []
                (set_Points doubled (Sample.writer ASCII [] Sample.one_triangle)))
      as (io' & Hrun & Hbytes); try reflexivity.
    + split; reflexivity.
    + exists io'. split; [exact Hrun|]. rewrite Hbytes. reflexivity.
Defined.

Example edge_cross_unit_triangle :
  edge_cross (Sample.point 0 0 0, Sample.point 1 0 0, Sample.point 0 1 0)
  = Sample.point 0 0 1.
Proof. reflexivity. Qed.

(** The normal is not scaled to unit length, and the order of the two
    edges matters. *)
Example edge_cross_not_normalized :
  edge_cross (Sample.point 0 0 0, Sample.point 2 0 0, Sample.point 0 2 0)
  = Sample.point 0 0 4.
Proof. reflexivity. Qed.

Example CrossProduct_order_matters :
  let p0 := Sample.point 0 0 0 in
  let p1 := Sample.point 1 0 0 in
  let p2 := Sample.point 0 1 0 in
  CrossProduct (point_minus p0 p1) (point_minus p2 p1) = Sample.point 0 0 (-1).
Proof. reflexivity. Qed.

(* --------------------------------------------------------------------- *)
(** *** The header, the points, and the whole write                       *)
(* --------------------------------------------------------------------- *)

Lemma length_binary_header : length binary_header = 80.
Proof. reflexivity. Qed.

Lemma WriteMeshInformation_binary (env : Env) (io : STLMeshIO) :
  m_FileType io = BINARY ->
  o_is_open (m_OutputStream io) = false ->
  can_create env (m_FileName io) = true ->
  WriteMeshInformation env io
  = (Returned tt, set_OutputStream (mkOfstream true false binary_header) io).
Proof.
  destruct io as [name t dim ct np nc os ins line pts ln pset pmap lid].
  destruct os as [op fl bs]. simpl. intros -> -> Hc.
  unfold WriteMeshInformation, OutputStream_open, out, bind, gets, modify, ret; simpl.
  unfold o_open; simpl. rewrite Hc. reflexivity.
Qed.

Lemma WritePoints_copies (buffer : list buffer_value) (points : list PointType)
  (io : STLMeshIO) :
  m_PointDimension io = 3%Z ->
  m_PointComponentType io <> UNKNOWNCOMPONENTTYPE ->
  copy_points (Z.to_nat (m_NumberOfPoints io)) buffer = Some points ->
  WritePoints buffer io = (Returned tt, set_Points points io).
Proof.
  intros Hd Ht Hc.
  assert (H : WritePointsTyped buffer io = (Returned tt, set_Points points io)).
  { unfold WritePointsTyped. rewrite bind_gets, Hd. simpl.
    rewrite bind_gets, Hc. reflexivity. }
  unfold WritePoints. rewrite bind_gets.
  destruct (m_PointComponentType io); congruence.
Qed.

Lemma WritePoints_wrong_dimension (buffer : list buffer_value) (io : STLMeshIO) :
  m_PointDimension io <> 3%Z ->
  m_PointComponentType io <> UNKNOWNCOMPONENTTYPE ->
  WritePoints buffer io = (Thrown OnlySupports3DPoints, io).
Proof.
  intros Hd Ht.
  assert (H : WritePointsTyped buffer io = (Thrown OnlySupports3DPoints, io)).
  { unfold WritePointsTyped. rewrite bind_gets.
    destruct (Z.eqb_spec (m_PointDimension io) 3); [contradiction|reflexivity]. }
  unfold WritePoints. rewrite bind_gets.
  destruct (m_PointComponentType io); congruence.
Qed.

(** The header is written whatever the point dimension is: no member
    of the object but the file type, the file name and the output
    stream enters [WriteMeshInformation]. *)
Lemma WriteMeshInformation_ignores_dimension (env : Env) (io : STLMeshIO) (d : Z) :
  let with_dimension :=
    mkSTLMeshIO (m_FileName io) (m_FileType io) d (m_PointComponentType io)
      (m_NumberOfPoints io) (m_NumberOfCells io) (m_OutputStream io)
      (m_InputStream io) (m_InputLine io) (m_Points io) (m_InputLineNumber io)
      (m_PointsSet io) (m_PointsMap io) (m_LatestPointId io) in
  fst (WriteMeshInformation env with_dimension) = fst (WriteMeshInformation env io) /\
  m_OutputStream (snd (WriteMeshInformation env with_dimension))
  = m_OutputStream (snd (WriteMeshInformation env io)).
Proof.
  destruct io as [name t dim ct np nc os ins line pts ln pset pmap lid]; simpl.
  unfold WriteMeshInformation, OutputStream_open, out, bind, gets, modify, throw, ret;
    simpl.
  destruct t; simpl;
    destruct (o_is_open (o_open (can_create env name) os)); simpl; auto;
    destruct (o_is_open os); simpl; auto.
Qed.

(** C3, as the code has it.  A binary write of a mesh with N qualifying
    cells produces the 80-byte header followed by a body of exactly
    4 + 50 N bytes: the 4-byte count and a 50-byte record per
    qualifying cell. *)
Theorem binary_write_is_80_plus_4_plus_50_per_triangle
  (env : Env) (io : STLMeshIO) (buffer : list buffer_value)
  (points : list PointType) (cells : list Cell) (post : list Z) :
  m_FileType io = BINARY ->
  o_is_open (m_OutputStream io) = false ->
  can_create env (m_FileName io) = true ->
  m_PointDimension io = 3%Z ->
  m_PointComponentType io <> UNKNOWNCOMPONENTTYPE ->
  copy_points (Z.to_nat (m_NumberOfPoints io)) buffer = Some points ->
  m_NumberOfCells io = Z.of_nat (length cells) ->
  (Z.of_nat (length (encode_cells cells ++ post)) < 2 ^ 64)%Z ->
  forallb (cell_ok (length points)) cells = true ->
  exists io' body,
    MeshFileWriter_Write env buffer (encode_cells cells ++ post) io
      = (Returned tt, io') /\
    o_bytes (m_OutputStream io')
      = setw_fill_space 80 (lit "binary STL generated from ITK") ++ body /\
    length (setw_fill_space 80 (lit "binary STL generated from ITK")) = 80 /\
    length body = 4 + 50 * length (filter qualifies cells).
Proof.
  intros Ht Hclosed Hcreate Hdim Hct Hcopy Hn Hlen Hok.
  set (io1 := set_OutputStream (mkOfstream true false binary_header) io).
  set (io2 := set_Points points io1).
  assert (H1 : WriteMeshInformation env io = (Returned tt, io1))
    by now apply WriteMeshInformation_binary.
  assert (H2 : WritePoints buffer io1 = (Returned tt, io2)).
  { apply WritePoints_copies; destruct io; auto. }
  destruct (WriteCells_cells env cells post io2) as (io3 & H3 & Happ).
  { destruct io; exact Hn. }
  { exact Hlen. }
  { destruct io; exact Hok. }
  { destruct io; split; reflexivity. }
  exists (set_OutputStream (o_close (m_OutputStream io3)) io3).
  exists (written_cells env BINARY edge_cross points cells).
  split; [|split; [|split]].
  - unfold MeshFileWriter_Write.
    rewrite (bind_Returned _ _ _ _ _ H1), (bind_Returned _ _ _ _ _ H2),
      (bind_Returned _ _ _ _ _ H3).
    reflexivity.
  - rewrite Happ. destruct io; simpl in *. subst. reflexivity.
  - reflexivity.
  - unfold written_cells. rewrite !length_app, length_le_bytes.
    unfold record.
    rewrite (length_binary_records edge_cross).
    pose proof (triangles_of_ok_cells points cells Hok) as HF.
    apply Forall2_length in HF. rewrite <- HF. simpl. lia.
Qed.

Lemma binary_write_is_80_plus_4_plus_50_per_triangle_witness :
  exists io' body,
    MeshFileWriter_Write (Sample.env false []) Sample.three_points_buffer
      (encode_cells Sample.one_triangle)
      (Sample.before_writing BINARY 3 Sample.one_triangle)
      = (Returned tt, io') /\
    o_bytes (m_OutputStream io')
      = setw_fill_space 80 (lit "binary STL generated from ITK") ++ body /\
    length (setw_fill_space 80 (lit "binary STL generated from ITK")) = 80 /\
    length body = 4 + 50 * 1.
Proof.
  apply (binary_write_is_80_plus_4_plus_50_per_triangle
           (Sample.env false []) (Sample.before_writing BINARY 3 Sample.one_triangle)
           Sample.three_points_buffer Sample.three_points Sample.one_triangle []).
  - reflexivity.
  - reflexivity.
  - reflexivity.
  - reflexivity.
  - discriminate.
  - reflexivity.
  - reflexivity.
  - reflexivity.
  - reflexivity.
Defined.

(** C3, as the specification words it, fails: the body of a file with
    one triangle has 54 bytes, not 12 + 50, and the body of a file with
    no triangle has 4 bytes, not 12. *)
Lemma binary_body_is_not_12_plus_50_per_triangle :
  let one := MeshFileWriter_Write (Sample.env false []) Sample.three_points_buffer
               (encode_cells Sample.one_triangle)
               (Sample.before_writing BINARY 3 Sample.one_triangle) in
  let none := MeshFileWriter_Write (Sample.env false []) Sample.three_points_buffer
                [] (Sample.before_writing BINARY 3 []) in
  (fst one = Returned tt /\
   length (filter qualifies Sample.one_triangle) = 1 /\
   length (skipn 80 (o_bytes (m_OutputStream (snd one)))) = 54 /\
   length (skipn 80 (o_bytes (m_OutputStream (snd one)))) <> 12 + 1 * 50)
  /\
  (fst none = Returned tt /\
   length (skipn 80 (o_bytes (m_OutputStream (snd none)))) = 4 /\
   length (skipn 80 (o_bytes (m_OutputStream (snd none)))) <> 12 + 0 * 50).
Proof.
  vm_compute. repeat split; discriminate.
Qed.

(* --------------------------------------------------------------------- *)
(** *** Points of a dimension other than three                            *)
(* --------------------------------------------------------------------- *)

Lemma WriteMeshInformation_frame (env : Env) (io : STLMeshIO) :
  snd (WriteMeshInformation env io)
  = set_OutputStream (m_OutputStream (snd (WriteMeshInformation env io))) io.
Proof.
  destruct io as [name t dim ct np nc os ins line pts ln pset pmap lid].
  unfold WriteMeshInformation, OutputStream_open, out, bind, gets, modify, throw, ret;
    simpl.
  destruct t; simpl;
    destruct (o_is_open (o_open (can_create env name) os)); simpl; auto;
    destruct (o_is_open os); simpl; auto.
Qed.

(** C8, as the code has it.  When the point dimension is not 3 (and
    the component type is one the switch knows), [WritePoints] throws
    the dimension error and leaves the object, its output stream
    included, as it found it: it writes no byte itself.  The check is
    made there and nowhere else, so in a write driven in the usual
    order the error is raised after [WriteMeshInformation] has run, and
    what that call sent to the file stays written. *)
Theorem WritePoints_rejects_dimension_after_header
  (env : Env) (io : STLMeshIO) (buffer : list buffer_value) (cells : list Z) :
  m_PointDimension io <> 3%Z ->
  m_PointComponentType io <> UNKNOWNCOMPONENTTYPE ->
  WritePoints buffer io = (Thrown OnlySupports3DPoints, io)
  /\
  forall io1,
    WriteMeshInformation env io = (Returned tt, io1) ->
    MeshFileWriter_Write env buffer cells io = (Thrown OnlySupports3DPoints, io1).
Proof.
  intros Hd Ht. split.
  - now apply WritePoints_wrong_dimension.
  - intros io1 H1. unfold MeshFileWriter_Write.
    rewrite (bind_Returned _ _ _ _ _ H1).
    apply bind_Thrown.
    pose proof (WriteMeshInformation_frame env io) as Hf.
    rewrite H1 in Hf; simpl in Hf.
    apply WritePoints_wrong_dimension; rewrite Hf; destruct io; assumption.
Qed.

Lemma WritePoints_rejects_dimension_after_header_witness :
  WritePoints Sample.three_points_buffer
    (Sample.before_writing BINARY 2 Sample.one_triangle)
  = (Thrown OnlySupports3DPoints, Sample.before_writing BINARY 2 Sample.one_triangle)
  /\
  forall io1,
    WriteMeshInformation (Sample.env false [])
      (Sample.before_writing BINARY 2 Sample.one_triangle) = (Returned tt, io1) ->
    MeshFileWriter_Write (Sample.env false []) Sample.three_points_buffer
      (encode_cells Sample.one_triangle)
      (Sample.before_writing BINARY 2 Sample.one_triangle)
    = (Thrown OnlySupports3DPoints, io1).
Proof.
  apply (WritePoints_rejects_dimension_after_header
           (Sample.env false []) (Sample.before_writing BINARY 2 Sample.one_triangle)
           Sample.three_points_buffer (encode_cells Sample.one_triangle)).
  - discriminate.
  - discriminate.
Defined.

(** With a component type the switch does not know, [WritePoints]
    throws before the dimension is looked at. *)
Example WritePoints_unknown_component_type :
  WritePoints Sample.three_points_buffer
    (mkSTLMeshIO (lit "out.stl") BINARY 2 UNKNOWNCOMPONENTTYPE 3 1
       ofstream_closed ifstream_closed [] [] 0 [] [] 0)
  = (Thrown UnknownPointComponentType,
     mkSTLMeshIO (lit "out.stl") BINARY 2 UNKNOWNCOMPONENTTYPE 3 1
       ofstream_closed ifstream_closed [] [] 0 [] [] 0).
Proof. reflexivity. Qed.

(** C8, as the specification words it, fails: with two-dimensional
    points the write ends in the dimension error, and by then the
    80-byte binary header, or the first line of an ASCII file, is
    already written. *)
Lemma header_is_written_before_the_dimension_error :
  let binary := MeshFileWriter_Write (Sample.env false []) Sample.three_points_buffer
                  (encode_cells Sample.one_triangle)
                  (Sample.before_writing BINARY 2 Sample.one_triangle) in
  let ascii := MeshFileWriter_Write (Sample.env false []) Sample.three_points_buffer
                 (encode_cells Sample.one_triangle)
                 (Sample.before_writing ASCII 2 Sample.one_triangle) in
  (fst binary = Thrown OnlySupports3DPoints /\
   length (o_bytes (m_OutputStream (snd binary))) = 80 /\
   o_bytes (m_OutputStream (snd binary)) <> [])
  /\
  (fst ascii = Thrown OnlySupports3DPoints /\
   o_bytes (m_OutputStream (snd ascii)) = lit "solid ascii" ++ endl /\
   o_bytes (m_OutputStream (snd ascii)) <> []).
Proof.
  vm_compute. repeat split; discriminate.
Qed.

(* ===================================================================== *)
(** ** Reading: the point set                                             *)
(* ===================================================================== *)

Lemma SFcompare_refl (x : spec_float) :
  SFcompare x x = Some Eq \/ SFcompare x x = None.
Proof.
  destruct x as [s|s| |s m e]; simpl; auto; destruct s; auto;
    rewrite Z.compare_refl;
    change (Pos.compare_cont Eq m m) with (Pos.compare m m);
    rewrite Pos.compare_refl; auto.
Qed.

(** [PointCompare] never puts a point before itself. *)
Lemma PointCompare_irreflexive (p : PointType) : PointCompare p p = false.
Proof.
  unfold PointCompare, Float32.neb, Float32.ltb, SFltb, SFeqb.
  destruct (SFcompare_refl (elem0 p)) as [-> | ->],
           (SFcompare_refl (elem1 p)) as [-> | ->],
           (SFcompare_refl (elem2 p)) as [-> | ->]; reflexivity.
Qed.

(** Inserting a point that is already in the set changes nothing. *)
Lemma set_insert_idempotent (p : PointType) (s : list PointType) :
  set_insert p (set_insert p s) = set_insert p s.
Proof.
  pose proof (PointCompare_irreflexive p) as Hirr.
  induction s as [|q s IH]; simpl.
  - now rewrite Hirr.
  - destruct (PointCompare p q) eqn:Epq; simpl.
    + now rewrite Hirr.
    + destruct (PointCompare q p) eqn:Eqp; simpl; rewrite Epq, Eqp; congruence.
Qed.

(** [InsertPointIntoSet] touches [m_PointsSet] and nothing else: the
    members the header declares for identifiers keep their values. *)
Lemma InsertPointIntoSet_records_no_identifier (point : LocalPoint) (io : STLMeshIO) :
  m_PointsMap (snd (InsertPointIntoSet point io)) = m_PointsMap io /\
  m_LatestPointId (snd (InsertPointIntoSet point io)) = m_LatestPointId io.
Proof.
  unfold InsertPointIntoSet.
  destruct (comp0 point), (comp1 point), (comp2 point); destruct io; split; reflexivity.
Qed.

(** C2 on the code.  Reading an ASCII file of two facets that share two
    corner points leaves four points in [m_PointsSet], so equal points
    are merged; but no identifier is handed out: [InsertPointIntoSet]
    returns nothing, [m_PointsMap] stays empty and [m_LatestPointId]
    keeps the value it had. *)
Theorem ascii_read_assigns_no_point_identifiers :
  let r := Sample.read false ASCII Sample.ascii_file_two_facets in
  fst r = Returned tt /\
  m_PointsSet (snd r)
  = [Sample.point 0 0 0; Sample.point 0 1 0; Sample.point 1 0 0; Sample.point 1 1 0] /\
  m_PointsMap (snd r) = [] /\
  m_LatestPointId (snd r) = m_LatestPointId (Sample.io_for (lit "mesh.stl") ASCII).
Proof. vm_compute. repeat split. Qed.

(* ===================================================================== *)
(** ** Reading: binary                                                    *)
(* ===================================================================== *)

(** C1 on the code.  A binary file with one triangle whose header holds
    a newline at offset 3.  The first line read for the detection ends
    there, and the binary reader carries on from offset 4 instead of
    offset 0: its 80 header bytes end at offset 84 and the count is
    taken from offsets 84 to 87, the first component of the normal,
    which is zero.  The object ends up with 0 cells for a file that
    declares 1. *)
Theorem binary_read_is_not_rewound :
  let data := Sample.binary_file_newline_in_header in
  let r := Sample.read false ASCII data in
  le_value (firstn 4 (skipn 80 data)) = 1%Z /\
  length data = 80 + 4 + 50 * 1 /\
  fst r = Returned tt /\
  m_FileType (snd r) = BINARY /\
  m_NumberOfCells (snd r) = 0%Z /\
  m_NumberOfCells (snd r) = le_value (firstn 4 (skipn (4 + 80) data)).
Proof. vm_compute. repeat split. Qed.

(** The same file where the [_WIN32] block applies and the file type
    changes: the stream is opened again, reading starts over at offset
    0, and the count is the declared one. *)
Example binary_read_after_reopening :
  let r := Sample.read true ASCII Sample.binary_file_newline_in_header in
  fst r = Returned tt /\ m_NumberOfCells (snd r) = 1%Z.
Proof. vm_compute. repeat split. Qed.

(** The file the binary writer produces holds no newline: the first
    [getline] runs to the end of the file, the reads that follow fail,
    and [numberOfTriangles] is used without having been set. *)
Example binary_read_of_written_file :
  let r := Sample.read false ASCII Sample.binary_file_as_written in
  fst r = UndefinedBehaviour /\
  i_pos (m_InputStream (snd r)) = length Sample.binary_file_as_written.
Proof. vm_compute. repeat split. Qed.

(* ===================================================================== *)
(** ** Reading: ASCII                                                     *)
(* ===================================================================== *)

(* --------------------------------------------------------------------- *)
(** *** The loop always comes to an end                                   *)
(* --------------------------------------------------------------------- *)

Lemma i_rest_setstate (e f : bool) (s : ifstream) :
  i_rest (i_setstate e f s) = i_rest s.
Proof. reflexivity. Qed.

Lemma length_i_rest_advance (n : nat) (s : ifstream) :
  length (i_rest (i_advance n s)) = length (i_rest s) - n.
Proof.
  unfold i_rest, i_advance; simpl. destruct (i_is_open s); [|reflexivity].
  rewrite !length_skipn. lia.
Qed.

Lemma length_until_newline (r : std_string) : length (until_newline r) <= length r.
Proof.
  induction r as [|c r IH]; simpl; [lia|].
  destruct (Ascii.eqb c newline); simpl; lia.
Qed.

Lemma getline_shrinks (s : ifstream) (str : std_string) :
  length (i_rest (fst (getline s str))) <= length (i_rest s).
Proof.
  unfold getline. destruct (i_good s); cbn [fst];
    [|rewrite i_rest_setstate; lia].
  destruct (length (until_newline (i_rest s)) <? length (i_rest s)); cbn [fst];
    rewrite ?i_rest_setstate, length_i_rest_advance; lia.
Qed.

(** A [getline] that yields a non-empty line on a good stream has
    consumed at least one character. *)
Lemma getline_consumes (s : ifstream) (str : std_string) :
  i_good s = true -> snd (getline s str) <> [] ->
  length (i_rest (fst (getline s str))) < length (i_rest s).
Proof.
  unfold getline. intros -> H.
  pose proof (length_until_newline (i_rest s)) as Hl.
  destruct (length (until_newline (i_rest s)) <? length (i_rest s));
    cbn [fst snd] in *;
    rewrite ?i_rest_setstate, length_i_rest_advance;
    destruct (until_newline (i_rest s)); cbn [length] in *; try congruence; lia.
Qed.

Lemma length_skip_ws (r : std_string) : length (skip_ws r) <= length r.
Proof.
  induction r as [|c r IH]; simpl; [lia|].
  destruct (isspace c); simpl; lia.
Qed.

Lemma i_sentry_shrinks (s : ifstream) :
  length (i_rest (fst (i_sentry s))) <= length (i_rest s).
Proof.
  unfold i_sentry. destruct (i_good s); cbn [fst];
    [|rewrite i_rest_setstate; lia].
  destruct (skip_ws (i_rest s)); cbn [fst];
    rewrite ?i_rest_setstate, length_i_rest_advance; lia.
Qed.

Lemma extract_string_shrinks (s : ifstream) (str : std_string) :
  length (i_rest (fst (extract_string s str))) <= length (i_rest s).
Proof.
  unfold extract_string.
  pose proof (i_sentry_shrinks s) as H.
  destruct (i_sentry s) as [s1 ok]; cbn [fst] in *.
  destruct ok; cbn [fst]; [|lia].
  destruct (length (until_ws (i_rest s1)) <? length (i_rest s1)); cbn [fst];
    rewrite ?i_rest_setstate, length_i_rest_advance; lia.
Qed.

Lemma extract_float_shrinks (env : Env) (s : ifstream) v :
  length (i_rest (fst (extract_float env s v))) <= length (i_rest s).
Proof.
  unfold extract_float.
  pose proof (i_sentry_shrinks s) as H.
  destruct (i_sentry s) as [s1 ok]; cbn [fst] in *.
  destruct ok; cbn [fst]; [|lia].
  destruct (num_get_float env (i_rest s1)) as [res n].
  destruct (Nat.min n (length (i_rest s1)) <? length (i_rest s1)), res; cbn [fst];
    rewrite ?i_rest_setstate, length_i_rest_advance; lia.
Qed.

Lemma extract_point_shrinks (env : Env) (s : ifstream) p :
  length (i_rest (fst (extract_point env s p))) <= length (i_rest s).
Proof.
  unfold extract_point.
  pose proof (extract_float_shrinks env s (comp0 p)) as H0.
  destruct (extract_float env s (comp0 p)) as [s0 c0]; cbn [fst] in *.
  pose proof (extract_float_shrinks env s0 (comp1 p)) as H1.
  destruct (extract_float env s0 (comp1 p)) as [s1 c1]; cbn [fst] in *.
  pose proof (extract_float_shrinks env s1 (comp2 p)) as H2.
  destruct (extract_float env s1 (comp2 p)) as [s2 c2]; cbn [fst] in *.
  lia.
Qed.

Lemma tame_bind {A B} (m : M A) (k : A -> M B) :
  tame m -> (forall a, tame (k a)) -> tame (bind m k).
Proof.
  intros Hm Hk io. unfold bind.
  destruct (Hm io) as [Hf Hu].
  destruct (m io) as [[a| | |] io']; simpl in *; try (split; [discriminate|lia]).
  - destruct (Hk a io') as [Hf' Hu']. split; [exact Hf'|lia].
  - congruence.
Qed.

Lemma tame_ret {A} (a : A) : tame (ret a).
Proof. intros io; split; [discriminate|simpl; lia]. Qed.

Lemma tame_throw {A} e : tame (@throw A e).
Proof. intros io; split; [discriminate|simpl; lia]. Qed.

Lemma tame_undefined {A} : tame (@undefined A).
Proof. intros io; split; [discriminate|simpl; lia]. Qed.

Lemma tame_gets {A} (f : STLMeshIO -> A) : tame (gets f).
Proof. intros io; split; [discriminate|simpl; lia]. Qed.

Lemma tame_modify (g : STLMeshIO -> STLMeshIO) :
  (forall io, unread (g io) <= unread io) -> tame (modify g).
Proof. intros H io; split; [discriminate|apply H]. Qed.

Lemma unread_set_InputStream s io :
  unread (set_InputStream s io) = length (i_rest s).
Proof. now destruct io. Qed.

Lemma tame_getline_InputLine : tame getline_InputLine.
Proof.
  apply tame_modify. intros io.
  pose proof (getline_shrinks (m_InputStream io) (m_InputLine io)) as H.
  destruct (getline (m_InputStream io) (m_InputLine io)) as [s line]; simpl in *.
  destruct io; exact H.
Qed.

Lemma tame_incr_InputLineNumber : tame incr_InputLineNumber.
Proof. apply tame_modify. intros []; unfold unread; simpl; lia. Qed.

Ltac tame_steps :=
  repeat first
    [ apply tame_getline_InputLine
    | apply tame_incr_InputLineNumber
    | apply tame_bind; [|intros ?]
    | apply tame_ret
    | apply tame_throw
    | apply tame_undefined
    | apply tame_gets
    | match goal with
      | |- tame (if ?b then _ else _) => destruct b
      | |- tame (match ?x with _ => _ end) => destruct x
      end ].

Lemma tame_ReadStringFromAscii expected : tame (ReadStringFromAscii expected).
Proof.
  unfold ReadStringFromAscii. tame_steps.
  all: apply tame_modify; intros []; unfold unread; simpl; lia.
Qed.

Lemma tame_CheckStringFromAscii expected : tame (CheckStringFromAscii expected).
Proof. unfold CheckStringFromAscii. tame_steps. Qed.

Lemma tame_ReadPointAsAscii (env : Env) p : tame (ReadPointAsAscii env p).
Proof.
  unfold ReadPointAsAscii, InsertPointIntoSet. tame_steps.
  - intros io.
    pose proof (extract_string_shrinks (m_InputStream io) []) as H.
    destruct (extract_string (m_InputStream io) []) as [s k]; simpl in *.
    split; [discriminate|]. now rewrite unread_set_InputStream.
  - intros io.
    pose proof (extract_point_shrinks env (m_InputStream io) p) as H.
    destruct (extract_point env (m_InputStream io) p) as [s q]; simpl in *.
    split; [discriminate|]. now rewrite unread_set_InputStream.
  - apply tame_modify. intros io.
    pose proof (getline_shrinks (m_InputStream io) []) as H.
    destruct (getline (m_InputStream io) []) as [s line]; simpl in *.
    now rewrite unread_set_InputStream.
Qed.

Lemma found_nil (expected : std_string) : expected <> [] -> found [] expected = false.
Proof. destruct expected; [congruence|reflexivity]. Qed.

(** What [ReadStringFromAscii] does when no line is pending: it reads
    one line and either throws, citing the line counter and the line,
    or clears the line and advances the counter. *)
Lemma ReadStringFromAscii_no_pending (expected : std_string) (io : STLMeshIO) :
  m_InputLine io = [] ->
  let '(s, line) := getline (m_InputStream io) [] in
  ReadStringFromAscii expected io
  = if found line expected
    then (Returned tt,
          set_InputLineNumber (wrap_uint32 (m_InputLineNumber io + 1))
            (set_InputLine [] (set_InputStream s io)))
    else (Thrown (ParsingErrorMissed expected (m_InputLineNumber io) line),
          set_InputLine line (set_InputStream s io)).
Proof.
  intros Hl.
  destruct io as [name t dim ct np nc os ins line pts ln pset pmap lid].
  simpl in Hl; subst line.
  unfold ReadStringFromAscii, getline_InputLine, incr_InputLineNumber,
    bind, gets, modify, throw, ret; simpl.
  destruct (getline ins []) as [s line]; simpl.
  destruct (found line expected); reflexivity.
Qed.

(** A successful [ReadStringFromAscii] with no line pending consumes at
    least one character. *)
Lemma ReadStringFromAscii_progress (expected : std_string) (io io' : STLMeshIO) :
  expected <> [] ->
  m_InputLine io = [] ->
  ReadStringFromAscii expected io = (Returned tt, io') ->
  unread io' < unread io.
Proof.
  intros He Hl Hrun.
  pose proof (ReadStringFromAscii_no_pending expected io Hl) as H.
  pose proof (getline_consumes (m_InputStream io) []) as Hc.
  destruct (getline (m_InputStream io) []) as [s line] eqn:Eg.
  rewrite Hrun in H.
  destruct (found line expected) eqn:Ef; [|discriminate].
  injection H as ->.
  assert (Hne : line <> []).
  { intros ->. now rewrite found_nil in Ef. }
  assert (Hgood : i_good (m_InputStream io) = true).
  { unfold getline in Eg. destruct (i_good (m_InputStream io)); [reflexivity|].
    injection Eg as _ <-. congruence. }
  specialize (Hc Hgood Hne). simpl in Hc.
  destruct io; exact Hc.
Qed.

Lemma ReadStringFromAscii_clears_line (expected : std_string) (io io' : STLMeshIO) :
  ReadStringFromAscii expected io = (Returned tt, io') -> m_InputLine io' = [].
Proof.
  destruct io as [name t dim ct np nc os ins line pts ln pset pmap lid].
  unfold ReadStringFromAscii, getline_InputLine, incr_InputLineNumber,
    bind, gets, modify, throw, ret; simpl.
  destruct (is_empty line); simpl;
    [destruct (getline ins line) as [s line']; simpl|];
    match goal with |- context [found ?l expected] => destruct (found l expected) end;
    simpl; intros H; inversion H; reflexivity.
Qed.

Lemma bind_not_Unfinished {A B} (m : M A) (k : A -> M B) io :
  fst (m io) <> Unfinished ->
  (forall a io', m io = (Returned a, io') -> fst (k a io') <> Unfinished) ->
  fst (bind m k io) <> Unfinished.
Proof.
  unfold bind. intros Hm Hk.
  destruct (m io) as [[a| | |] io']; simpl in *; try discriminate; auto.
Qed.

(** The bound of [ReadFacets] is never what stops it, as long as it
    exceeds the number of unread characters. *)
Lemma ReadFacets_finishes (env : Env) (bound : nat) :
  forall p0 p1 p2 io,
  unread io < bound ->
  fst (ReadFacets env bound p0 p1 p2 io) <> Unfinished.
Proof.
  induction bound as [|bound IH]; intros p0 p1 p2 io Hb; [lia|].
  cbn [ReadFacets].
  apply bind_not_Unfinished; [apply tame_CheckStringFromAscii|].
  intros atEnd io1 H1.
  pose proof (proj2 (tame_CheckStringFromAscii (lit "endsolid") io)) as U1.
  rewrite H1 in U1; simpl in U1.
  destruct atEnd; [discriminate|].
  apply bind_not_Unfinished; [apply tame_ReadStringFromAscii|].
  intros [] io2 H2.
  pose proof (proj2 (tame_ReadStringFromAscii (lit "facet normal") io1)) as U2.
  rewrite H2 in U2; simpl in U2.
  apply bind_not_Unfinished; [apply tame_ReadStringFromAscii|].
  intros [] io3 H3.
  assert (U3 : unread io3 < unread io2).
  { eapply ReadStringFromAscii_progress; eauto; [discriminate|].
    eapply ReadStringFromAscii_clears_line; eauto. }
  apply bind_not_Unfinished; [apply tame_ReadPointAsAscii|].
  intros q0 io4 H4.
  pose proof (proj2 (tame_ReadPointAsAscii env p0 io3)) as U4.
  rewrite H4 in U4; simpl in U4.
  apply bind_not_Unfinished; [apply tame_ReadPointAsAscii|].
  intros q1 io5 H5.
  pose proof (proj2 (tame_ReadPointAsAscii env p1 io4)) as U5.
  rewrite H5 in U5; simpl in U5.
  apply bind_not_Unfinished; [apply tame_ReadPointAsAscii|].
  intros q2 io6 H6.
  pose proof (proj2 (tame_ReadPointAsAscii env p2 io5)) as U6.
  rewrite H6 in U6; simpl in U6.
  apply bind_not_Unfinished; [apply tame_ReadStringFromAscii|].
  intros [] io7 H7.
  pose proof (proj2 (tame_ReadStringFromAscii (lit "endloop") io6)) as U7.
  rewrite H7 in U7; simpl in U7.
  apply bind_not_Unfinished; [apply tame_ReadStringFromAscii|].
  intros [] io8 H8.
  pose proof (proj2 (tame_ReadStringFromAscii (lit "endfacet") io7)) as U8.
  rewrite H8 in U8; simpl in U8.
  apply IH. lia.
Qed.

(** [ReadMeshInternalFromAscii] always comes to an end: it returns,
    throws, or reads an unset variable, and is never cut short by the
    bound of the model. *)
Theorem ReadMeshInternalFromAscii_finishes (env : Env) (io : STLMeshIO) :
  fst (ReadMeshInternalFromAscii env io) <> Unfinished.
Proof.
  unfold ReadMeshInternalFromAscii.
  rewrite bind_modify, bind_gets.
  apply ReadFacets_finishes.
  destruct io; unfold unread; simpl. lia.
Qed.

(* --------------------------------------------------------------------- *)
(** *** What a parse error reports                                        *)
(* --------------------------------------------------------------------- *)

Lemma getline_good_open (s : ifstream) (str : std_string) :
  i_is_open s = true -> i_good s = true ->
  snd (getline s str) = until_newline (skipn (i_pos s) (i_data s)).
Proof.
  intros Ho Hg. unfold getline, i_rest. rewrite Hg, Ho.
  destruct (length (until_newline (skipn (i_pos s) (i_data s)))
            <? length (skipn (i_pos s) (i_data s))); reflexivity.
Qed.

(** One call, with the reader in step, so that its line counter is
    the 1-based number of the line at the read position: when that
    line lacks the keyword, [ReadStringFromAscii] throws a parse error
    that carries this line number and the text of the line; when the
    next word lacks "vertex", [ReadPointAsAscii] throws a parse error
    that carries the line number and no text. *)
Lemma a_call_in_step_cites_the_line_counter
  (env : Env) (expected : std_string) (point : LocalPoint) (io : STLMeshIO) :
  in_step io ->
  (found (until_newline (skipn (i_pos (m_InputStream io)) (i_data (m_InputStream io))))
         expected = false ->
   fst (ReadStringFromAscii expected io)
   = Thrown (ParsingErrorMissed expected
               (line_number_at (i_data (m_InputStream io)) (i_pos (m_InputStream io)))
               (until_newline
                  (skipn (i_pos (m_InputStream io)) (i_data (m_InputStream io))))))
  /\
  (found (snd (extract_string (m_InputStream io) [])) (lit "vertex") = false ->
   fst (ReadPointAsAscii env point io)
   = Thrown (ParsingErrorMissedVertex
               (line_number_at (i_data (m_InputStream io)) (i_pos (m_InputStream io)))))
  /\
  (forall n line,
     GetDescription (ParsingErrorMissed expected n line)
     = lit "Parsing error: missed " ++ expected ++ lit " in line "
         ++ show_unsigned n ++ lit " found: " ++ line)
  /\
  (forall n,
     GetDescription (ParsingErrorMissedVertex n)
     = lit "Parsing error: missed 'vertex' in line " ++ show_unsigned n).
Proof.
  intros (Hl & Ho & Hg & Hn).
  split; [|split; [|split; reflexivity]].
  - intros Hf.
    pose proof (ReadStringFromAscii_no_pending expected io Hl) as H.
    pose proof (getline_good_open (m_InputStream io) [] Ho Hg) as Hline.
    destruct (getline (m_InputStream io) []) as [s line]; simpl in Hline.
    subst line. rewrite H, Hf, Hn. reflexivity.
  - intros Hf.
    destruct io as [name t dim ct np nc os ins line pts ln pset pmap lid].
    simpl in *. subst ln.
    unfold ReadPointAsAscii, bind, gets, throw, ret; simpl.
    destruct (extract_string ins []) as [s k]; simpl in *.
    rewrite Hf. reflexivity.
Qed.

(** The whole read of the file that lacks [endloop] ends in the error
    for line 7. *)
Example missing_endloop_is_reported_on_line_7 :
  let r := Sample.read false ASCII Sample.ascii_file_missing_endloop in
  fst r = Thrown (ParsingErrorMissed (lit "endloop") 7 (lit "  endfacet")) /\
  GetDescription (ParsingErrorMissed (lit "endloop") 7 (lit "  endfacet"))
  = lit "Parsing error: missed endloop in line 7 found:   endfacet".
Proof. vm_compute. split; reflexivity. Qed.


(* --------------------------------------------------------------------- *)
(** *** Staying in step                                                   *)
(* --------------------------------------------------------------------- *)

Lemma firstn_plus {A} (n m : nat) (l : list A) :
  firstn (n + m) l = firstn n l ++ firstn m (skipn n l).
Proof.
  revert l; induction n as [|n IH]; intros l; [reflexivity|].
  destruct l as [|a l]; simpl.
  - now rewrite firstn_nil.
  - now rewrite IH.
Qed.

Lemma count_newlines_app (a b : std_string) :
  count_newlines (a ++ b) = count_newlines a + count_newlines b.
Proof. unfold count_newlines. now rewrite filter_app, length_app. Qed.

Lemma count_newlines_line (line : std_string) :
  ~ In newline line -> count_newlines line = 0.
Proof.
  unfold count_newlines. induction line as [|c line IH]; simpl; intros H; [reflexivity|].
  destruct (Ascii.eqb c newline) eqn:E.
  - apply Ascii.eqb_eq in E. tauto.
  - apply IH. tauto.
Qed.

(** Past a whole line and its newline, the line number is one more. *)
Lemma line_number_at_next_line (data line rest : std_string) (pos : nat) :
  skipn pos data = line ++ newline :: rest ->
  ~ In newline line ->
  line_number_at data (pos + S (length line)) = (line_number_at data pos + 1)%Z.
Proof.
  intros Hs Hl. unfold line_number_at.
  rewrite firstn_plus, Hs, count_newlines_app.
  rewrite firstn_app, (@firstn_all2 _ (S (length line)) line) by lia.
  replace (S (length line) - length line) with 1 by lia.
  simpl firstn. rewrite count_newlines_app, (count_newlines_line _ Hl).
  unfold count_newlines at 2; simpl. lia.
Qed.

Lemma getline_terminated (s : ifstream) (str line rest : std_string) :
  i_is_open s = true -> i_good s = true ->
  skipn (i_pos s) (i_data s) = line ++ newline :: rest ->
  ~ In newline line ->
  getline s str = (i_advance (S (length line)) s, line).
Proof.
  intros Ho Hg Hs Hl. unfold getline, i_rest. rewrite Hg, Ho, Hs.
  rewrite (until_newline_app _ _ Hl), length_app. simpl.
  destruct (Nat.ltb_spec (length line) (length line + S (length rest))); [|lia].
  reflexivity.
Qed.

Lemma skipn_past_line (data line rest : std_string) (pos : nat) :
  skipn pos data = line ++ newline :: rest ->
  skipn (pos + S (length line)) data = rest.
Proof.
  intros Hs. rewrite Nat.add_comm, <- skipn_skipn, Hs.
  rewrite skipn_app, (@skipn_all2 _ (S (length line)) line) by lia.
  replace (S (length line) - length line) with 1 by lia.
  reflexivity.
Qed.

Lemma line_number_at_positive (data : std_string) (pos : nat) :
  (0 < line_number_at data pos)%Z.
Proof. unfold line_number_at. lia. Qed.

(** A keyword line that is found where it is expected leaves the
    reader in step, at the start of the next line. *)
Lemma ReadStringFromAscii_keeps_step
  (expected line rest : std_string) (io : STLMeshIO) :
  in_step io ->
  skipn (i_pos (m_InputStream io)) (i_data (m_InputStream io))
    = line ++ newline :: rest ->
  ~ In newline line ->
  found line expected = true ->
  (m_InputLineNumber io + 1 < 2 ^ 32)%Z ->
  exists io',
    ReadStringFromAscii expected io = (Returned tt, io') /\
    in_step io' /\
    i_data (m_InputStream io') = i_data (m_InputStream io) /\
    i_pos (m_InputStream io') = i_pos (m_InputStream io) + S (length line) /\
    skipn (i_pos (m_InputStream io')) (i_data (m_InputStream io')) = rest.
Proof.
  intros (Hl & Ho & Hg & Hn) Hs Hnl Hf Hbound.
  pose proof (ReadStringFromAscii_no_pending expected io Hl) as H.
  rewrite (getline_terminated _ [] _ _ Ho Hg Hs Hnl), Hf in H.
  eexists; split; [exact H|].
  pose proof (line_number_at_positive (i_data (m_InputStream io))
                (i_pos (m_InputStream io))) as Hpos.
  destruct io as [name t dim ct np nc os ins pending pts ln pset pmap lid].
  destruct ins as [op d p e f]. simpl in *. subst op pending.
  repeat split; simpl.
  - exact Hg.
  - rewrite (line_number_at_next_line d line rest) by assumption.
    rewrite <- Hn. unfold wrap_uint32. apply Z.mod_small. lia.
  - now apply (skipn_past_line d line rest).
Qed.

(** The reader is in step when the parsing of the facets begins: the
    first line has been read and the counter is set to 2. *)
Lemma in_step_after_first_line (line rest : std_string) (io : STLMeshIO) :
  m_InputLine io = [] ->
  ~ In newline line ->
  m_InputStream io
    = mkIfstream true (line ++ newline :: rest) (S (length line)) false false ->
  in_step (set_InputLineNumber 2 io).
Proof.
  intros Hl Hnl Hs.
  destruct io as [name t dim ct np nc os ins pending pts ln pset pmap lid].
  simpl in *. subst. repeat split; simpl.
  unfold line_number_at.
  replace (S (length line)) with (length line + 1) by lia.
  rewrite firstn_plus, firstn_app, (@firstn_all2 _ (length line) line), Nat.sub_diag
    by lia.
  rewrite skipn_app, (@skipn_all2 _ (length line) line), Nat.sub_diag by lia.
  simpl. rewrite app_nil_r, count_newlines_app, (count_newlines_line _ Hnl).
  reflexivity.
Qed.

Lemma further_on_refl (s : ifstream) : further_on s s.
Proof. repeat split; lia. Qed.

Lemma further_on_trans (a b c : ifstream) :
  further_on a b -> further_on b c -> further_on a c.
Proof. unfold further_on. intros (-> & -> & ?) (-> & -> & ?). repeat split; lia. Qed.

Lemma further_on_advance (n : nat) (s : ifstream) : further_on s (i_advance n s).
Proof. repeat split; simpl; lia. Qed.

Lemma further_on_setstate (e f : bool) (s : ifstream) : further_on s (i_setstate e f s).
Proof. repeat split; simpl; lia. Qed.

Lemma i_sentry_further_on (s : ifstream) : further_on s (fst (i_sentry s)).
Proof.
  unfold i_sentry. destruct (i_good s); cbn [fst];
    [|apply further_on_setstate].
  destruct (skip_ws (i_rest s)); cbn [fst];
    eauto using further_on_trans, further_on_advance, further_on_setstate.
Qed.

Lemma extract_string_further_on (s : ifstream) (str : std_string) :
  further_on s (fst (extract_string s str)).
Proof.
  unfold extract_string.
  pose proof (i_sentry_further_on s) as H.
  destruct (i_sentry s) as [s1 ok]; cbn [fst] in *.
  destruct ok; cbn [fst]; [|exact H].
  destruct (length (until_ws (i_rest s1)) <? length (i_rest s1)); cbn [fst];
    eauto using further_on_trans, further_on_advance, further_on_setstate.
Qed.

Lemma extract_float_further_on (env : Env) (s : ifstream) v :
  further_on s (fst (extract_float env s v)).
Proof.
  unfold extract_float.
  pose proof (i_sentry_further_on s) as H.
  destruct (i_sentry s) as [s1 ok]; cbn [fst] in *.
  destruct ok; cbn [fst]; [|exact H].
  destruct (num_get_float env (i_rest s1)) as [res n].
  destruct (Nat.min n (length (i_rest s1)) <? length (i_rest s1)), res; cbn [fst];
    eauto 6 using further_on_trans, further_on_advance, further_on_setstate.
Qed.

Lemma extract_point_further_on (env : Env) (s : ifstream) p :
  further_on s (fst (extract_point env s p)).
Proof.
  unfold extract_point.
  pose proof (extract_float_further_on env s (comp0 p)) as H0.
  destruct (extract_float env s (comp0 p)) as [s0 c0]; cbn [fst] in *.
  pose proof (extract_float_further_on env s0 (comp1 p)) as H1.
  destruct (extract_float env s0 (comp1 p)) as [s1 c1]; cbn [fst] in *.
  pose proof (extract_float_further_on env s1 (comp2 p)) as H2.
  destruct (extract_float env s1 (comp2 p)) as [s2 c2]; cbn [fst] in *.
  eauto using further_on_trans.
Qed.

Lemma In_skipn {A} (x : A) (k : nat) (l : list A) : In x (skipn k l) -> In x l.
Proof.
  intros H. rewrite <- (firstn_skipn k l). apply in_or_app. now right.
Qed.

(** From inside a line: what is left of the line, its newline, and the
    rest of the file. *)
Lemma skipn_inside_line (data line rest : std_string) (pos k : nat) :
  skipn pos data = line ++ newline :: rest ->
  k <= length line ->
  skipn (pos + k) data = skipn k line ++ newline :: rest.
Proof.
  intros Hs Hk. rewrite Nat.add_comm, <- skipn_skipn, Hs, skipn_app.
  replace (k - length line) with 0 by lia. reflexivity.
Qed.

(** A vertex line whose keyword and three numbers are all found on the
    line the read starts at leaves the reader in step, at the start of
    the next line. *)
Lemma ReadPointAsAscii_keeps_step
  (env : Env) (point : LocalPoint) (line rest : std_string) (io : STLMeshIO)
  (x y z : PointValueType) :
  in_step io ->
  skipn (i_pos (m_InputStream io)) (i_data (m_InputStream io))
    = line ++ newline :: rest ->
  ~ In newline line ->
  found (snd (extract_string (m_InputStream io) [])) (lit "vertex") = true ->
  snd (extract_point env (fst (extract_string (m_InputStream io) [])) point)
    = mkLocalPoint (Some x) (Some y) (Some z) ->
  i_good (fst (extract_point env (fst (extract_string (m_InputStream io) [])) point))
    = true ->
  i_pos (fst (extract_point env (fst (extract_string (m_InputStream io) [])) point))
    <= i_pos (m_InputStream io) + length line ->
  (m_InputLineNumber io + 1 < 2 ^ 32)%Z ->
  exists io',
    ReadPointAsAscii env point io
      = (Returned (mkLocalPoint (Some x) (Some y) (Some z)), io') /\
    in_step io' /\
    m_PointsSet io' = set_insert (mkArray3 x y z) (m_PointsSet io) /\
    i_data (m_InputStream io') = i_data (m_InputStream io) /\
    i_pos (m_InputStream io') = i_pos (m_InputStream io) + S (length line).
Proof.
  intros (Hl & Ho & Hg & Hn) Hs Hnl Hkw Hq Hgood Hpos Hbound.
  destruct io as [name t dim ct np nc os ins pending pts ln pset pmap lid].
  cbn [m_InputStream m_InputLine m_InputLineNumber m_PointsSet] in *.
  pose proof (extract_string_further_on ins []) as F1.
  destruct (extract_string ins []) as [s1 kw] eqn:E1.
  cbn [fst snd] in *.
  pose proof (extract_point_further_on env s1 point) as F2.
  destruct (extract_point env s1 point) as [s2 q] eqn:E2.
  cbn [fst snd] in *. subst q.
  destruct (further_on_trans _ _ _ F1 F2) as (Hd & Hop & Hle).
  set (k := i_pos s2 - i_pos ins).
  assert (Hs2 : skipn (i_pos s2) (i_data s2) = skipn k line ++ newline :: rest).
  { rewrite Hd. replace (i_pos s2) with (i_pos ins + k) by (unfold k; lia).
    apply skipn_inside_line; [assumption | unfold k; lia]. }
  assert (Hnl2 : ~ In newline (skipn k line)).
  { intros H. apply Hnl. eapply In_skipn; eauto. }
  assert (Hg2 : getline s2 [] = (i_advance (S (length (skipn k line))) s2, skipn k line)).
  { apply (getline_terminated s2 [] _ rest); auto. congruence. }
  assert (Hend : i_pos s2 + S (length (skipn k line)) = i_pos ins + S (length line)).
  { rewrite length_skipn. unfold k. lia. }
  eexists. split.
  - unfold ReadPointAsAscii, InsertPointIntoSet, incr_InputLineNumber,
      bind, gets, modify, throw, ret.
    cbn [m_InputStream set_InputStream m_InputLineNumber].
    rewrite E1. cbn [fst snd negb]. rewrite Hkw. cbn [negb].
    cbn [m_InputStream set_InputStream]. rewrite E2.
    cbn [comp0 comp1 comp2 m_InputStream set_PointsSet set_InputStream].
    rewrite Hg2. reflexivity.
  - subst pending. destruct s2 as [op2 d2 p2 e2 f2].
    cbn [i_data i_is_open i_pos] in *. subst d2 op2.
    repeat split.
    + exact Ho.
    + exact Hgood.
    + cbn. rewrite Hend.
      rewrite (line_number_at_next_line _ line rest) by assumption.
      rewrite <- Hn. unfold wrap_uint32. apply Z.mod_small.
      pose proof (line_number_at_positive (i_data ins) (i_pos ins)). lia.
    + exact Hend.
Qed.

(** The first line of a facet: [CheckStringFromAscii] reads it and
    finds no "endsolid", [ReadStringFromAscii] then finds
    "facet normal" in the pending line; the reader is in step at the
    start of the next line. *)
Lemma facet_line_keeps_step (line rest : std_string) (io : STLMeshIO) :
  in_step io ->
  skipn (i_pos (m_InputStream io)) (i_data (m_InputStream io))
    = line ++ newline :: rest ->
  ~ In newline line ->
  found line (lit "endsolid") = false ->
  found line (lit "facet normal") = true ->
  (m_InputLineNumber io + 1 < 2 ^ 32)%Z ->
  exists io1 io2,
    CheckStringFromAscii (lit "endsolid") io = (Returned false, io1) /\
    ReadStringFromAscii (lit "facet normal") io1 = (Returned tt, io2) /\
    in_step io2 /\
    i_data (m_InputStream io2) = i_data (m_InputStream io) /\
    i_pos (m_InputStream io2) = i_pos (m_InputStream io) + S (length line).
Proof.
  intros (Hl & Ho & Hg & Hn) Hs Hnl Hend Hfacet Hbound.
  assert (Hne : is_empty line = false).
  { destruct line; [discriminate Hfacet | reflexivity]. }
  destruct io as [name t dim ct np nc os ins pending pts ln pset pmap lid].
  cbn [m_InputStream m_InputLine m_InputLineNumber] in *. subst pending.
  pose proof (getline_terminated ins [] line rest Ho Hg Hs Hnl) as Hget.
  do 2 eexists. split; [|split].
  - unfold CheckStringFromAscii, getline_InputLine, bind, gets, modify, ret.
    cbn [m_InputStream m_InputLine set_InputStream set_InputLine].
    rewrite Hget. cbn [m_InputLine set_InputLine set_InputStream].
    rewrite Hend. reflexivity.
  - unfold ReadStringFromAscii, getline_InputLine, incr_InputLineNumber,
      bind, gets, modify, throw, ret.
    simpl in Hfacet |- *. rewrite Hne. simpl. rewrite Hfacet. reflexivity.
  - destruct ins as [op d p e f]. cbn in *. subst op.
    repeat split; cbn; try reflexivity; try assumption.
    rewrite (line_number_at_next_line d line rest) by assumption.
    rewrite <- Hn. unfold wrap_uint32. apply Z.mod_small.
    pose proof (line_number_at_positive d p). lia.
Qed.

(** The closing line: [CheckStringFromAscii] finds "endsolid" and the
    loop of [ReadMeshInternalFromAscii] ends. *)
Lemma endsolid_line_ends_the_loop
  (env : Env) (bound : nat) (p0 p1 p2 : LocalPoint) (line rest : std_string)
  (io : STLMeshIO) :
  in_step io ->
  skipn (i_pos (m_InputStream io)) (i_data (m_InputStream io))
    = line ++ newline :: rest ->
  ~ In newline line ->
  found line (lit "endsolid") = true ->
  fst (ReadFacets env (S bound) p0 p1 p2 io) = Returned tt.
Proof.
  intros (Hl & Ho & Hg & Hn) Hs Hnl Hend.
  destruct io as [name t dim ct np nc os ins pending pts ln pset pmap lid].
  cbn [m_InputStream m_InputLine m_InputLineNumber] in *. subst pending.
  pose proof (getline_terminated ins [] line rest Ho Hg Hs Hnl) as Hget.
  cbn [ReadFacets].
  unfold CheckStringFromAscii, getline_InputLine, incr_InputLineNumber,
    bind, gets, modify, ret.
  cbn [m_InputStream m_InputLine set_InputStream set_InputLine].
  rewrite Hget. cbn [m_InputLine set_InputLine set_InputStream].
  rewrite Hend. reflexivity.
Qed.

(* ===================================================================== *)
(** ** Reading: the binary layout                                         *)
(* ===================================================================== *)

Lemma in_read_enough (n : nat) (data : std_string) (pos : nat) (io : STLMeshIO) :
  m_InputStream io = mkIfstream true data pos false false ->
  pos + n <= length data ->
  in_read n io
  = (Returned (firstn n (skipn pos data)),
     set_InputStream (mkIfstream true data (pos + n) false false) io).
Proof.
  intros Hs Hn. unfold in_read, i_read, i_good, i_rest. rewrite Hs.
  cbn [i_is_open i_data i_pos i_eofbit i_failbit negb andb].
  assert (Hl : length (firstn n (skipn pos data)) = n).
  { rewrite length_firstn, length_skipn. lia. }
  rewrite Hl, Nat.ltb_irrefl. reflexivity.
Qed.

Lemma reads_in_read (n : nat) : reads n (in_read n ;; ret tt)%stl.
Proof.
  intros data pos io Hs Hn.
  now rewrite (bind_Returned _ _ _ _ _ (in_read_enough n data pos io Hs Hn)).
Qed.

Lemma reads_seq (a b : nat) (m1 m2 : M unit) :
  reads a m1 -> reads b m2 -> reads (a + b) (m1 ;; m2)%stl.
Proof.
  intros H1 H2 data pos io Hs Hn.
  rewrite (bind_Returned _ _ _ _ _ (H1 data pos io Hs ltac:(lia))).
  rewrite (H2 data (pos + a)); [| now destruct io | lia].
  rewrite set_InputStream_twice. now rewrite Nat.add_assoc.
Qed.

Lemma reads_times (k n : nat) (body : M unit) :
  reads n body -> reads (k * n) (times k body).
Proof.
  intros Hb. induction k as [|k IH].
  - intros data pos io Hs _. simpl. rewrite Nat.add_0_r, <- Hs.
    unfold ret. f_equal. apply set_InputStream_same.
  - simpl. now apply reads_seq.
Qed.

(** One record of the binary format: 50 bytes. *)
Lemma reads_record :
  reads 50 (ReadNormalAsBinary ;; ReadPointAsBinary ;; ReadPointAsBinary ;;
            ReadPointAsBinary ;; ReadInt16AsBinary)%stl.
Proof.
  assert (H12 : reads 12 (times 3 (in_read Float32.size ;; ret tt)%stl)).
  { apply (reads_times 3 4), reads_in_read. }
  apply (reads_seq 12 38); [exact H12|].
  apply (reads_seq 12 26); [exact H12|].
  apply (reads_seq 12 14); [exact H12|].
  apply (reads_seq 12 2); [exact H12|].
  apply reads_in_read.
Qed.

Lemma le_value_nonneg (bs : std_string) : (0 <= le_value bs)%Z.
Proof.
  induction bs as [|b bs IH]; cbn [le_value]; [lia|].
  pose proof (N2Z.is_nonneg (N_of_ascii b)). lia.
Qed.

Lemma wrap_int32_small (z : Z) : (0 <= z < 2 ^ 31)%Z -> wrap_int32 z = z.
Proof. intros H. unfold wrap_int32. rewrite Z.mod_small; lia. Qed.

(** From wherever it starts, on a stream that holds the declared number
    of records, the binary reader takes 80 bytes of header, the 4-byte
    count N, and N records of 50 bytes; N becomes the number of
    cells. *)
Lemma ReadMeshInternalFromBinary_layout
  (data : std_string) (pos : nat) (N : Z) (io : STLMeshIO) :
  m_InputStream io = mkIfstream true data pos false false ->
  le_value (firstn 4 (skipn (pos + 80) data)) = N ->
  (N < 2 ^ 31)%Z ->
  pos + 80 + 4 + Z.to_nat N * 50 <= length data ->
  ReadMeshInternalFromBinary io
  = (Returned tt,
     set_InputStream
       (mkIfstream true data (pos + 80 + 4 + Z.to_nat N * 50) false false)
       (set_NumberOfCells N io)).
Proof.
  intros Hs HN Hlt Hlen.
  assert (H0 : (0 <= N)%Z) by (rewrite <- HN; apply le_value_nonneg).
  unfold ReadMeshInternalFromBinary.
  rewrite (bind_Returned _ _ _ _ _ (in_read_enough 80 data pos io Hs ltac:(lia))).
  set (io1 := set_InputStream (mkIfstream true data (pos + 80) false false) io).
  assert (Hs1 : m_InputStream io1 = mkIfstream true data (pos + 80) false false)
    by now destruct io.
  rewrite (bind_Returned _ _ _ _ _ (in_read_enough 4 data (pos + 80) io1 Hs1 ltac:(lia))).
  assert (Hl : length (firstn 4 (skipn (pos + 80) data)) = 4).
  { rewrite length_firstn, length_skipn. lia. }
  rewrite Hl, HN. cbn [Nat.ltb Nat.leb].
  rewrite (wrap_int32_small N) by lia.
  unfold SetNumberOfCells. rewrite bind_modify.
  destruct (Z.ltb_spec N 0); [lia|].
  rewrite (wrap_uint64_small N) by lia.
  rewrite (reads_times (Z.to_nat N) 50 _ reads_record data (pos + 80 + 4));
    [| now destruct io | lia].
  reflexivity.
Qed.

(** Started at offset 0, the reader therefore finds the count where
    the format puts it: the file the writer produces for one triangle
    is read as one cell. *)
Example ReadMeshInternalFromBinary_from_offset_0 :
  let r := ReadMeshInternalFromBinary
             (Sample.reader_at Sample.binary_file_as_written 0 0) in
  fst r = Returned tt /\
  m_NumberOfCells (snd r) = 1%Z /\
  i_pos (m_InputStream (snd r)) = 80 + 4 + 50.
Proof. vm_compute. repeat split. Qed.

(** Where the binary reader starts.  When the first line of the file
    holds no "solid" and ends in a newline, and the [_WIN32] block does
    not apply (the code is built for another platform, or the file
    type was BINARY already), [ReadMeshInformation] runs the binary
    reader from the offset after that newline. *)
Lemma ReadMeshInformation_binary_starts_after_first_line
  (env : Env) (io : STLMeshIO) (line rest : std_string) :
  i_is_open (m_InputStream io) = false ->
  m_FileType io <> TYPENOTAPPLICABLE ->
  file_contents env (m_FileName io) = Some (line ++ newline :: rest) ->
  ~ In newline line ->
  found line (lit "solid") = false ->
  WIN32 env = false \/ m_FileType io = BINARY ->
  ReadMeshInformation env io
  = (ReadMeshInternalFromBinary ;; InputStream_close)%stl
      (set_FileType BINARY
         (set_InputStream
            (mkIfstream true (line ++ newline :: rest) (S (length line)) false false)
            io)).
Proof.
  intros Hclosed Htype Hfile Hnl Hf Hwin.
  unfold ReadMeshInformation.
  rewrite (bind_Returned _ _ _ _ _ (OpenInputForFileType_opens _ _ _ Hclosed Htype Hfile)).
  unfold bind at 1.
  replace (m_InputStream
             (set_InputStream
                (mkIfstream true (line ++ newline :: rest) 0 false false) io))
    with (mkIfstream true (line ++ newline :: rest) 0 false false)
    by now destruct io.
  rewrite (getline_first_line line rest [] Hnl), Hf.
  rewrite set_InputStream_twice.
  destruct io as [name t dim ct np nc os ins pending pts ln pset pmap lid].
  cbn [m_FileType] in *.
  destruct t; [| |congruence].
  - destruct Hwin as [Hwin | Hwin]; [|discriminate].
    unfold ReopenOnWin32. rewrite Hwin. reflexivity.
  - reflexivity.
Qed.

(** Put together with the layout: on such a file the count is taken
    84 bytes after the first newline, not at offset 80. *)
Example count_is_read_after_the_first_line :
  let data := Sample.binary_file_newline_in_header in
  until_newline data = lit "STL" /\
  m_NumberOfCells (snd (Sample.read false BINARY data))
  = le_value (firstn 4 (skipn (S (length (lit "STL")) + 80) data)) /\
  m_NumberOfCells (snd (Sample.read false BINARY data))
  <> le_value (firstn 4 (skipn 80 data)).
Proof. vm_compute. repeat split; discriminate. Qed.

(* ===================================================================== *)
(** ** ReadMeshInformation always comes to an end                         *)
(* ===================================================================== *)

Lemma finishes_bind {A B} (m : M A) (k : A -> M B) :
  finishes m -> (forall a, finishes (k a)) -> finishes (bind m k).
Proof.
  intros Hm Hk io. apply bind_not_Unfinished; [apply Hm|].
  intros a io' _. apply Hk.
Qed.

Lemma finishes_always_Returned {A} (m : M A) :
  (forall io, exists a, fst (m io) = Returned a) -> finishes m.
Proof. intros H io. destruct (H io) as [a ->]. discriminate. Qed.

Lemma finishes_times (n : nat) (body : M unit) :
  finishes body -> finishes (times n body).
Proof.
  intros Hb. induction n; simpl.
  - intros io; discriminate.
  - now apply finishes_bind.
Qed.

Ltac finishes_steps leaf :=
  repeat first
    [ leaf
    | apply finishes_bind; [|intros ?]
    | apply finishes_times
    | match goal with
      | |- finishes (if ?b then _ else _) => destruct b
      | |- finishes (match ?x with _ => _ end) => destruct x
      end
    | (intros io; unfold in_read;
       repeat match goal with
              | |- context [let '(_, _) := ?p in _] => destruct p
              end;
       discriminate) ].

Lemma finishes_ReadMeshInternalFromBinary : finishes ReadMeshInternalFromBinary.
Proof.
  unfold ReadMeshInternalFromBinary, ReadNormalAsBinary, ReadPointAsBinary,
    ReadInt16AsBinary, SetNumberOfCells.
  finishes_steps fail.
Qed.

(** Whatever the file holds, [ReadMeshInformation] returns, throws or
    runs into undefined behaviour: the iteration bound of the ASCII
    loop is never what stops it. *)
Theorem ReadMeshInformation_finishes (env : Env) : finishes (ReadMeshInformation env).
Proof.
  unfold ReadMeshInformation, OpenInputForFileType, ReopenOnWin32,
    InputStream_open, InputStream_close.
  finishes_steps
    ltac:(first [ exact (ReadMeshInternalFromAscii_finishes env)
                | exact finishes_ReadMeshInternalFromBinary ]).
Qed.

(* ===================================================================== *)
(** ** The point set: order and duplicates                                *)
(* ===================================================================== *)

Ltac cmp_cases :=
  repeat match goal with
  | H : context [Pos.compare_cont Eq ?a ?b] |- _ =>
      change (Pos.compare_cont Eq a b) with (Pos.compare a b) in H
  | |- context [Pos.compare_cont Eq ?a ?b] =>
      change (Pos.compare_cont Eq a b) with (Pos.compare a b)
  end;
  repeat match goal with
  | H : context [(?a ?= ?b)%Z] |- _ =>
      destruct (Z.compare_spec a b); try discriminate H
  | H : context [(?a ?= ?b)%positive] |- _ =>
      destruct (Pos.compare_spec a b); try discriminate H
  end;
  repeat match goal with
  | |- context [(?a ?= ?b)%Z] => destruct (Z.compare_spec a b)
  | |- context [(?a ?= ?b)%positive] => destruct (Pos.compare_spec a b)
  end;
  simpl in *; subst; try reflexivity; try discriminate; try congruence; try lia.

Lemma SFcompare_Lt_trans a b c :
  SFcompare a b = Some Lt -> SFcompare b c = Some Lt -> SFcompare a c = Some Lt.
Proof.
  destruct a as [sa|sa| |sa ma ea], b as [sb|sb| |sb mb eb], c as [sc|sc| |sc mc ec];
    simpl; try discriminate;
    try destruct sa; try destruct sb; try destruct sc; simpl;
    try discriminate; try reflexivity; intros H1 H2; cmp_cases.
Qed.

Lemma SFcompare_Eq_left a b c r :
  SFcompare a b = Some Eq -> SFcompare b c = Some r -> SFcompare a c = Some r.
Proof.
  destruct a as [sa|sa| |sa ma ea], b as [sb|sb| |sb mb eb], c as [sc|sc| |sc mc ec];
    simpl; try discriminate;
    try destruct sa; try destruct sb; try destruct sc; simpl;
    try discriminate; try (intros _ H; exact H); intros H1 H2; cmp_cases.
Qed.

Lemma SFcompare_Eq_right a b c r :
  SFcompare a b = Some r -> SFcompare b c = Some Eq -> SFcompare a c = Some r.
Proof.
  destruct a as [sa|sa| |sa ma ea], b as [sb|sb| |sb mb eb], c as [sc|sc| |sc mc ec];
    simpl; try discriminate;
    try destruct sa; try destruct sb; try destruct sc; simpl;
    try discriminate; try (intros H _; exact H); intros H1 H2; cmp_cases.
Qed.

Lemma SFcompare_opp a b r :
  SFcompare a b = Some r -> SFcompare b a = Some (CompOpp r).
Proof.
  destruct a as [sa|sa| |sa ma ea], b as [sb|sb| |sb mb eb];
    simpl; try discriminate;
    try destruct sa; try destruct sb; simpl;
    try discriminate; intros H; injection H as <-; try reflexivity; cmp_cases.
Qed.

Lemma SFcompare_no_nan a b :
  is_nan a = false -> is_nan b = false -> exists r, SFcompare a b = Some r.
Proof. destruct a, b; simpl; try discriminate; eauto. Qed.

(** [PointCompare] is "compares less" for the three-way comparison. *)
Lemma PointCompare_cmp3 (p q : PointType) :
  PointCompare p q = match cmp3 p q with Some Lt => true | _ => false end.
Proof.
  unfold PointCompare, cmp3, Float32.neb, Float32.ltb, SFeqb, SFltb.
  destruct (SFcompare (elem0 p) (elem0 q)) as [[]|];
    destruct (SFcompare (elem1 p) (elem1 q)) as [[]|];
    destruct (SFcompare (elem2 p) (elem2 q)) as [[]|]; reflexivity.
Qed.

Lemma same_coordinates_cmp3 (p q : PointType) :
  same_coordinates p q = true <-> cmp3 p q = Some Eq.
Proof.
  unfold same_coordinates, cmp3, Float32.eqb, SFeqb.
  destruct (SFcompare (elem0 p) (elem0 q)) as [[]|];
    destruct (SFcompare (elem1 p) (elem1 q)) as [[]|];
    destruct (SFcompare (elem2 p) (elem2 q)) as [[]|]; simpl;
    split; congruence.
Qed.

Lemma cmp3_opp (p q : PointType) (r : comparison) :
  cmp3 p q = Some r -> cmp3 q p = Some (CompOpp r).
Proof.
  unfold cmp3.
  destruct (SFcompare (elem0 p) (elem0 q)) as [[]|] eqn:A0; try discriminate;
    rewrite (SFcompare_opp _ _ _ A0); simpl;
    try (intros H; injection H as <-; reflexivity).
  destruct (SFcompare (elem1 p) (elem1 q)) as [[]|] eqn:A1; try discriminate;
    rewrite (SFcompare_opp _ _ _ A1); simpl;
    try (intros H; injection H as <-; reflexivity).
  apply SFcompare_opp.
Qed.

Lemma cmp3_Eq_left (p q r : PointType) (c : comparison) :
  cmp3 p q = Some Eq -> cmp3 q r = Some c -> cmp3 p r = Some c.
Proof.
  unfold cmp3.
  destruct (SFcompare (elem0 p) (elem0 q)) as [[]|] eqn:A0; try discriminate.
  destruct (SFcompare (elem1 p) (elem1 q)) as [[]|] eqn:A1; try discriminate.
  intros A2.
  destruct (SFcompare (elem0 q) (elem0 r)) as [c0|] eqn:B0; [|discriminate].
  rewrite (SFcompare_Eq_left _ _ _ _ A0 B0).
  destruct c0; try (intros H; exact H).
  destruct (SFcompare (elem1 q) (elem1 r)) as [c1|] eqn:B1; [|discriminate].
  rewrite (SFcompare_Eq_left _ _ _ _ A1 B1).
  destruct c1; try (intros H; exact H).
  intros B2. apply (SFcompare_Eq_left _ _ _ _ A2 B2).
Qed.

Lemma cmp3_Eq_right (p q r : PointType) (c : comparison) :
  cmp3 p q = Some c -> cmp3 q r = Some Eq -> cmp3 p r = Some c.
Proof.
  intros H1 H2.
  apply cmp3_opp in H1. apply cmp3_opp in H2. simpl in H2.
  pose proof (cmp3_Eq_left _ _ _ _ H2 H1) as H.
  apply cmp3_opp in H. now rewrite CompOpp_involutive in H.
Qed.

Lemma cmp3_Lt_trans (p q r : PointType) :
  cmp3 p q = Some Lt -> cmp3 q r = Some Lt -> cmp3 p r = Some Lt.
Proof.
  unfold cmp3.
  destruct (SFcompare (elem0 p) (elem0 q)) as [[]|] eqn:A0; try discriminate;
    destruct (SFcompare (elem0 q) (elem0 r)) as [[]|] eqn:B0; try discriminate;
    first [ rewrite (SFcompare_Lt_trans _ _ _ A0 B0)
          | rewrite (SFcompare_Eq_left _ _ _ _ A0 B0)
          | rewrite (SFcompare_Eq_right _ _ _ _ A0 B0) ];
    try (intros; reflexivity).
  destruct (SFcompare (elem1 p) (elem1 q)) as [[]|] eqn:A1; try discriminate;
    destruct (SFcompare (elem1 q) (elem1 r)) as [[]|] eqn:B1; try discriminate;
    first [ rewrite (SFcompare_Lt_trans _ _ _ A1 B1)
          | rewrite (SFcompare_Eq_left _ _ _ _ A1 B1)
          | rewrite (SFcompare_Eq_right _ _ _ _ A1 B1) ];
    try (intros; reflexivity).
  apply SFcompare_Lt_trans.
Qed.

Lemma PointCompare_Lt (p q : PointType) :
  PointCompare p q = true <-> cmp3 p q = Some Lt.
Proof.
  rewrite PointCompare_cmp3. destruct (cmp3 p q) as [[]|]; split; congruence.
Qed.

Lemma PointCompare_trans (p q r : PointType) :
  PointCompare p q = true -> PointCompare q r = true -> PointCompare p r = true.
Proof. rewrite !PointCompare_Lt. apply cmp3_Lt_trans. Qed.

Lemma PointCompare_asymmetric (p q : PointType) :
  PointCompare p q = true -> PointCompare q p = false.
Proof.
  rewrite PointCompare_Lt. intros H. apply cmp3_opp in H.
  rewrite PointCompare_cmp3, H. reflexivity.
Qed.

(** X1.  [PointCompare] is a strict order on points: no point comes
    before itself, two points are never each before the other, and
    the order is transitive; this holds whatever the components are,
    NaN included.  On points without NaN, the points it leaves
    unordered are exactly those whose three components compare
    equal. *)
Theorem PointCompare_is_a_strict_order (p q r : PointType) :
  PointCompare p p = false /\
  (PointCompare p q = true -> PointCompare q p = false) /\
  (PointCompare p q = true -> PointCompare q r = true -> PointCompare p r = true) /\
  (no_nan p = true -> no_nan q = true -> equivalent p q = same_coordinates p q).
Proof.
  split; [apply PointCompare_irreflexive|].
  split; [apply PointCompare_asymmetric|].
  split; [apply PointCompare_trans|].
  intros Hp Hq. unfold no_nan in *.
  rewrite !andb_true_iff, !negb_true_iff in Hp, Hq.
  destruct Hp as [[P0 P1] P2], Hq as [[Q0 Q1] Q2].
  destruct (SFcompare_no_nan _ _ P0 Q0) as [c0 A0].
  destruct (SFcompare_no_nan _ _ P1 Q1) as [c1 A1].
  destruct (SFcompare_no_nan _ _ P2 Q2) as [c2 A2].
  unfold equivalent, same_coordinates, PointCompare, Float32.neb, Float32.ltb,
    Float32.eqb, SFeqb, SFltb.
  rewrite A0, A1, A2,
    (SFcompare_opp _ _ _ A0), (SFcompare_opp _ _ _ A1), (SFcompare_opp _ _ _ A2).
  destruct c0, c1, c2; reflexivity.
Qed.

(* --------------------------------------------------------------------- *)
(** *** Insertion                                                         *)
(* --------------------------------------------------------------------- *)

Lemma InsertPointIntoSet_local_of (p : PointType) (io : STLMeshIO) :
  InsertPointIntoSet (local_of p) io
  = (Returned tt, set_PointsSet (set_insert p (m_PointsSet io)) io).
Proof. now destruct p. Qed.

Lemma set_insert_head (p : PointType) (s : list PointType) (b : PointType) :
  forallb (PointCompare b) s = true ->
  PointCompare b p = true ->
  forallb (PointCompare b) (set_insert p s) = true.
Proof.
  induction s as [|q s IH]; simpl; intros Hs Hp.
  - now rewrite Hp.
  - apply andb_true_iff in Hs as [Hq Hs].
    destruct (PointCompare p q); simpl; [now rewrite Hp, Hq, Hs|].
    destruct (PointCompare q p); simpl; rewrite Hq; simpl; auto.
Qed.

Lemma set_insert_ordered (p : PointType) (s : list PointType) :
  strictly_ordered s = true -> strictly_ordered (set_insert p s) = true.
Proof.
  induction s as [|q s IH]; simpl; intros Hs; [reflexivity|].
  apply andb_true_iff in Hs as [Hq Hs].
  destruct (PointCompare p q) eqn:Epq; simpl.
  - rewrite Epq, Hq, Hs. simpl. rewrite andb_true_r.
    apply forallb_forall. intros x Hx.
    apply (PointCompare_trans p q x Epq).
    now apply (proj1 (forallb_forall _ _) Hq).
  - destruct (PointCompare q p) eqn:Eqp; simpl.
    + rewrite (set_insert_head p s q Hq Eqp), (IH Hs). reflexivity.
    + now rewrite Hq, Hs.
Qed.

Lemma set_insert_member (p q : PointType) (s : list PointType) :
  strictly_ordered s = true -> In q s -> same_coordinates p q = true ->
  set_insert p s = s.
Proof.
  intros Hs Hin Heq. apply same_coordinates_cmp3 in Heq.
  induction s as [|a s IH]; [contradiction|].
  simpl in Hs. apply andb_true_iff in Hs as [Ha Hs].
  destruct Hin as [-> | Hin]; simpl.
  - rewrite (PointCompare_cmp3 p q), Heq.
    rewrite (PointCompare_cmp3 q p), (cmp3_opp _ _ _ Heq). reflexivity.
  - assert (Haq : cmp3 a q = Some Lt).
    { apply PointCompare_Lt. now apply (proj1 (forallb_forall _ _) Ha). }
    pose proof (cmp3_Eq_right _ _ _ _ Haq (cmp3_opp _ _ _ Heq)) as Hap.
    rewrite (PointCompare_cmp3 p a), (cmp3_opp _ _ _ Hap).
    rewrite (PointCompare_cmp3 a p), Hap. simpl.
    now rewrite (IH Hs Hin).
Qed.

Lemma set_insert_keeps (p q : PointType) (s : list PointType) :
  In q s -> In q (set_insert p s).
Proof.
  induction s as [|a s IH]; simpl; [contradiction|].
  intros Hin.
  destruct (PointCompare p a); simpl; [right; exact Hin|].
  destruct (PointCompare a p); simpl; [|exact Hin].
  destruct Hin as [Ha | Hin]; [left; exact Ha | right; auto].
Qed.

Lemma set_insert_new (p : PointType) (s : list PointType) :
  (forall q, In q s -> equivalent p q = false) ->
  In p (set_insert p s) /\ length (set_insert p s) = S (length s).
Proof.
  induction s as [|a s IH]; simpl; intros H; [auto|].
  destruct (PointCompare p a) eqn:Epa; simpl; [auto|].
  destruct (PointCompare a p) eqn:Eap; simpl.
  - destruct IH as [I L]; [intros q Hq; apply H; auto|]. split; [auto|now rewrite L].
  - specialize (H a (or_introl eq_refl)). unfold equivalent in H.
    now rewrite Epa, Eap in H.
Qed.

Lemma InsertPointIntoSet_ordered (point : LocalPoint) (io : STLMeshIO) :
  strictly_ordered (m_PointsSet io) = true ->
  strictly_ordered (m_PointsSet (snd (InsertPointIntoSet point io))) = true.
Proof.
  intros Hs. unfold InsertPointIntoSet.
  destruct (comp0 point), (comp1 point), (comp2 point); try exact Hs.
  destruct io; simpl in *. now apply set_insert_ordered.
Qed.

(** X2.  [InsertPointIntoSet] keeps [m_PointsSet] strictly ordered by
    [PointCompare], whatever point is inserted; in a strictly ordered
    set no two elements have the same coordinates. *)
Theorem InsertPointIntoSet_keeps_the_set_ordered
  (point : LocalPoint) (io : STLMeshIO) :
  strictly_ordered (m_PointsSet io) = true ->
  strictly_ordered (m_PointsSet (snd (InsertPointIntoSet point io))) = true
  /\
  forall i j p q,
    i < j ->
    nth_error (m_PointsSet (snd (InsertPointIntoSet point io))) i = Some p ->
    nth_error (m_PointsSet (snd (InsertPointIntoSet point io))) j = Some q ->
    same_coordinates p q = false.
Proof.
  intros Hs.
  pose proof (InsertPointIntoSet_ordered point io Hs) as Ho.
  split; [exact Ho|].
  generalize dependent (m_PointsSet (snd (InsertPointIntoSet point io))).
  intros s Ho. induction s as [|a s IH]; intros i j p q Hij Hi Hj.
  - destruct i; discriminate.
  - simpl in Ho. apply andb_true_iff in Ho as [Ha Hs'].
    destruct j as [|j]; [lia|]. simpl in Hj.
    destruct i as [|i]; simpl in Hi.
    + injection Hi as ->.
      assert (Hlt : PointCompare p q = true).
      { apply (proj1 (forallb_forall _ _) Ha). eapply nth_error_In; eauto. }
      apply PointCompare_Lt in Hlt.
      destruct (same_coordinates p q) eqn:E; [|reflexivity].
      apply same_coordinates_cmp3 in E. congruence.
    + apply (IH Hs' i j); auto. lia.
Qed.

Lemma InsertPointIntoSet_keeps_the_set_ordered_witness :
  strictly_ordered
    (m_PointsSet
       (snd (InsertPointIntoSet (local_of (Sample.point 0 1 0))
               (set_PointsSet [Sample.point 0 0 0; Sample.point 1 0 0]
                  (Sample.io_for [] ASCII))))) = true
  /\
  forall i j p q,
    i < j ->
    nth_error
      (m_PointsSet
         (snd (InsertPointIntoSet (local_of (Sample.point 0 1 0))
                 (set_PointsSet [Sample.point 0 0 0; Sample.point 1 0 0]
                    (Sample.io_for [] ASCII))))) i = Some p ->
    nth_error
      (m_PointsSet
         (snd (InsertPointIntoSet (local_of (Sample.point 0 1 0))
                 (set_PointsSet [Sample.point 0 0 0; Sample.point 1 0 0]
                    (Sample.io_for [] ASCII))))) j = Some q ->
    same_coordinates p q = false.
Proof.
  apply (InsertPointIntoSet_keeps_the_set_ordered
           (local_of (Sample.point 0 1 0))
           (set_PointsSet [Sample.point 0 0 0; Sample.point 1 0 0]
              (Sample.io_for [] ASCII))).
  reflexivity.
Defined.

(** X3.  Inserting a point whose three components compare equal to
    those of a point already in the (ordered) set changes nothing:
    the set is the same afterwards, and so is the whole object. *)
Theorem InsertPointIntoSet_merges_equal_points
  (p q : PointType) (io : STLMeshIO) :
  strictly_ordered (m_PointsSet io) = true ->
  In q (m_PointsSet io) ->
  same_coordinates p q = true ->
  InsertPointIntoSet (local_of p) io = (Returned tt, io).
Proof.
  intros Hs Hin Heq.
  rewrite InsertPointIntoSet_local_of, (set_insert_member p q _ Hs Hin Heq).
  now destruct io.
Qed.

(** The point (-0, 0, 0) is merged with (0, 0, 0): the two zeros
    compare equal. *)
Lemma InsertPointIntoSet_merges_equal_points_witness :
  InsertPointIntoSet
    (local_of (mkArray3 (S754_zero true) Float32.zero Float32.zero))
    (set_PointsSet [Sample.point 0 0 0; Sample.point 1 0 0] (Sample.io_for [] ASCII))
  = (Returned tt,
     set_PointsSet [Sample.point 0 0 0; Sample.point 1 0 0] (Sample.io_for [] ASCII)).
Proof.
  apply (InsertPointIntoSet_merges_equal_points
           (mkArray3 (S754_zero true) Float32.zero Float32.zero)
           (Sample.point 0 0 0)
           (set_PointsSet [Sample.point 0 0 0; Sample.point 1 0 0]
              (Sample.io_for [] ASCII))).
  - reflexivity.
  - left. reflexivity.
  - reflexivity.
Defined.

(** X4.  Inserting a point that the order does not treat as the same
    key as any member adds exactly that point: it is in the set
    afterwards, the set has one element more, and every earlier member
    is still there. *)
Theorem InsertPointIntoSet_adds_a_new_point (p : PointType) (io : STLMeshIO) :
  (forall q, In q (m_PointsSet io) -> equivalent p q = false) ->
  In p (m_PointsSet (snd (InsertPointIntoSet (local_of p) io))) /\
  length (m_PointsSet (snd (InsertPointIntoSet (local_of p) io)))
    = S (length (m_PointsSet io)) /\
  (forall q, In q (m_PointsSet io) ->
             In q (m_PointsSet (snd (InsertPointIntoSet (local_of p) io)))).
Proof.
  intros H. rewrite InsertPointIntoSet_local_of.
  destruct io; simpl in *.
  destruct (set_insert_new p _ H) as [I L].
  repeat split; auto. intros q Hq. now apply set_insert_keeps.
Qed.

Lemma InsertPointIntoSet_adds_a_new_point_witness :
  In (Sample.point 0 1 0)
     (m_PointsSet
        (snd (InsertPointIntoSet (local_of (Sample.point 0 1 0))
                (set_PointsSet [Sample.point 0 0 0; Sample.point 1 0 0]
                   (Sample.io_for [] ASCII))))) /\
  length
    (m_PointsSet
       (snd (InsertPointIntoSet (local_of (Sample.point 0 1 0))
               (set_PointsSet [Sample.point 0 0 0; Sample.point 1 0 0]
                  (Sample.io_for [] ASCII))))) = 3 /\
  (forall q, In q [Sample.point 0 0 0; Sample.point 1 0 0] ->
             In q (m_PointsSet
                     (snd (InsertPointIntoSet (local_of (Sample.point 0 1 0))
                             (set_PointsSet [Sample.point 0 0 0; Sample.point 1 0 0]
                                (Sample.io_for [] ASCII)))))).
Proof.
  apply (InsertPointIntoSet_adds_a_new_point
           (Sample.point 0 1 0)
           (set_PointsSet [Sample.point 0 0 0; Sample.point 1 0 0]
              (Sample.io_for [] ASCII))).
  intros q [<- | [<- | []]]; reflexivity.
Defined.

(** X5.  A point whose first component is NaN is unordered with every
    point, so the set takes it for a key it already holds: inserted
    into a set that is not empty, it is dropped. *)
Theorem InsertPointIntoSet_drops_a_NaN_point (p : PointType) (io : STLMeshIO) :
  is_nan (elem0 p) = true ->
  m_PointsSet io <> [] ->
  m_PointsSet (snd (InsertPointIntoSet (local_of p) io)) = m_PointsSet io.
Proof.
  intros Hn Hs. rewrite InsertPointIntoSet_local_of.
  destruct io as [name t dim ct np nc os ins line pts ln pset pmap lid].
  simpl in *. destruct pset as [|q s]; [congruence|].
  destruct p as [x y z]; simpl in Hn. destruct x; try discriminate.
  simpl. unfold PointCompare, Float32.neb, Float32.ltb, SFeqb, SFltb; simpl.
  destruct (elem0 q); reflexivity.
Qed.

Lemma InsertPointIntoSet_drops_a_NaN_point_witness :
  m_PointsSet
    (snd (InsertPointIntoSet
            (local_of (mkArray3 S754_nan Float32.zero Float32.zero))
            (set_PointsSet [Sample.point 1 0 0] (Sample.io_for [] ASCII))))
  = [Sample.point 1 0 0].
Proof.
  apply (InsertPointIntoSet_drops_a_NaN_point
           (mkArray3 S754_nan Float32.zero Float32.zero)
           (set_PointsSet [Sample.point 1 0 0] (Sample.io_for [] ASCII))).
  - reflexivity.
  - discriminate.
Defined.

(* ===================================================================== *)
(** ** What reading leaves alone                                          *)
(* ===================================================================== *)

(** A step that only assigns members outside [f]. *)
Ltac frame_leaf :=
  first
    [ apply preserves_modify; intros [];
      repeat match goal with |- context [let '(_, _) := ?p in _] => destruct p end;
      reflexivity
    | apply preserves_in_read; intros ? []; reflexivity
    | intros []; cbn;
      repeat match goal with |- context [let '(_, _) := ?p in _] => destruct p end;
      reflexivity ].

Ltac frame_steps f leaf :=
  unfold preserves;
  respects_steps (preserves_refl f) (preserves_trans f)
                 ltac:(first [ leaf | frame_leaf ]).

Section ReadingFrame.

Context (env : Env).

Lemma frame_ReadStringFromAscii expected :
  preserves not_for_reading (ReadStringFromAscii expected)
  /\ preserves mesh_counts (ReadStringFromAscii expected).
Proof.
  unfold ReadStringFromAscii, getline_InputLine, incr_InputLineNumber.
  split; [frame_steps not_for_reading fail | frame_steps mesh_counts fail].
Qed.

Lemma frame_CheckStringFromAscii expected :
  preserves not_for_reading (CheckStringFromAscii expected)
  /\ preserves mesh_counts (CheckStringFromAscii expected).
Proof.
  unfold CheckStringFromAscii, getline_InputLine, incr_InputLineNumber.
  split; [frame_steps not_for_reading fail | frame_steps mesh_counts fail].
Qed.

Lemma frame_ReadPointAsAscii p :
  preserves not_for_reading (ReadPointAsAscii env p)
  /\ preserves mesh_counts (ReadPointAsAscii env p).
Proof.
  unfold ReadPointAsAscii, InsertPointIntoSet, incr_InputLineNumber.
  split; [frame_steps not_for_reading fail | frame_steps mesh_counts fail].
Qed.

Lemma frame_ReadFacets bound p0 p1 p2 :
  preserves not_for_reading (ReadFacets env bound p0 p1 p2)
  /\ preserves mesh_counts (ReadFacets env bound p0 p1 p2).
Proof.
  revert p0 p1 p2; induction bound as [|bound IH]; intros; simpl.
  - split; unfold preserves; apply respects_unfinished; reflexivity.
  - split.
    + frame_steps not_for_reading
        ltac:(first [ apply (proj1 (frame_CheckStringFromAscii _))
                    | apply (proj1 (frame_ReadStringFromAscii _))
                    | apply (proj1 (frame_ReadPointAsAscii _))
                    | apply (proj1 (IH _ _ _)) ]).
    + frame_steps mesh_counts
        ltac:(first [ apply (proj2 (frame_CheckStringFromAscii _))
                    | apply (proj2 (frame_ReadStringFromAscii _))
                    | apply (proj2 (frame_ReadPointAsAscii _))
                    | apply (proj2 (IH _ _ _)) ]).
Qed.

Lemma frame_ReadMeshInternalFromAscii :
  preserves not_for_reading (ReadMeshInternalFromAscii env)
  /\ preserves mesh_counts (ReadMeshInternalFromAscii env).
Proof.
  unfold ReadMeshInternalFromAscii. split.
  - frame_steps not_for_reading ltac:(apply (proj1 (frame_ReadFacets _ _ _ _))).
  - frame_steps mesh_counts ltac:(apply (proj2 (frame_ReadFacets _ _ _ _))).
Qed.

Lemma frame_ReadMeshInternalFromBinary :
  preserves not_for_reading ReadMeshInternalFromBinary.
Proof.
  unfold ReadMeshInternalFromBinary, ReadNormalAsBinary, ReadPointAsBinary,
    ReadInt16AsBinary, SetNumberOfCells.
  frame_steps not_for_reading fail.
Qed.

(** X6.  Reading assigns none of the members that describe the file
    name, the points to write or the output: whatever the file holds
    and however the read ends, [ReadMeshInformation] leaves the file
    name, the point dimension and component type, the number of
    points, the output stream, [m_Points], [m_PointsMap] and
    [m_LatestPointId] as they were.  The ASCII reader, in addition,
    never sets the number of cells: after [ReadMeshInternalFromAscii]
    both counts of the mesh are what they were before. *)
Theorem reading_leaves_the_counts_and_the_output (io : STLMeshIO) :
  not_for_reading (snd (ReadMeshInformation env io)) = not_for_reading io
  /\
  mesh_counts (snd (ReadMeshInternalFromAscii env io)) = mesh_counts io.
Proof.
  split; [|apply (proj2 frame_ReadMeshInternalFromAscii)].
  revert io.
  change (preserves not_for_reading (ReadMeshInformation env)).
  unfold ReadMeshInformation, OpenInputForFileType, ReopenOnWin32,
    InputStream_open, InputStream_close.
  frame_steps not_for_reading
    ltac:(first [ apply (proj1 frame_ReadMeshInternalFromAscii)
                | apply frame_ReadMeshInternalFromBinary ]).
Qed.

End ReadingFrame.

(* ===================================================================== *)
(** ** The point set across a whole read                                  *)
(* ===================================================================== *)

Lemma keeps_order_refl : forall io, keeps_order io io.
Proof. intros io H; exact H. Qed.

Lemma keeps_order_trans : forall a b c, keeps_order a b -> keeps_order b c -> keeps_order a c.
Proof. unfold keeps_order; auto. Qed.

Lemma keeps_order_same_set {A} (m : M A) :
  preserves m_PointsSet m -> respects keeps_order m.
Proof. intros H io Ho. now rewrite (H io). Qed.

Ltac order_steps leaf :=
  respects_steps keeps_order_refl keeps_order_trans
    ltac:(first [ leaf | apply keeps_order_same_set; frame_leaf ]).

Section OrderAcrossReading.

Context (env : Env).

Lemma order_InsertPointIntoSet point : respects keeps_order (InsertPointIntoSet point).
Proof.
  intros io H. now apply InsertPointIntoSet_ordered.
Qed.

Lemma order_ReadStringFromAscii expected :
  respects keeps_order (ReadStringFromAscii expected).
Proof.
  unfold ReadStringFromAscii, getline_InputLine, incr_InputLineNumber.
  order_steps fail.
Qed.

Lemma order_CheckStringFromAscii expected :
  respects keeps_order (CheckStringFromAscii expected).
Proof.
  unfold CheckStringFromAscii, getline_InputLine, incr_InputLineNumber.
  order_steps fail.
Qed.

Lemma order_ReadPointAsAscii p : respects keeps_order (ReadPointAsAscii env p).
Proof.
  unfold ReadPointAsAscii, incr_InputLineNumber.
  order_steps ltac:(apply order_InsertPointIntoSet).
Qed.

Lemma order_ReadFacets bound p0 p1 p2 :
  respects keeps_order (ReadFacets env bound p0 p1 p2).
Proof.
  revert p0 p1 p2; induction bound as [|bound IH]; intros; simpl.
  - apply respects_unfinished, keeps_order_refl.
  - order_steps ltac:(first [ apply order_CheckStringFromAscii
                            | apply order_ReadStringFromAscii
                            | apply order_ReadPointAsAscii
                            | apply IH ]).
Qed.

Lemma order_ReadMeshInternalFromAscii :
  respects keeps_order (ReadMeshInternalFromAscii env).
Proof.
  unfold ReadMeshInternalFromAscii. order_steps ltac:(apply order_ReadFacets).
Qed.

Lemma order_ReadMeshInternalFromBinary :
  respects keeps_order ReadMeshInternalFromBinary.
Proof.
  unfold ReadMeshInternalFromBinary, ReadNormalAsBinary, ReadPointAsBinary,
    ReadInt16AsBinary, SetNumberOfCells.
  order_steps fail.
Qed.

(** X7.  A strictly ordered point set stays strictly ordered, and so
    free of points with the same coordinates, across a whole
    [ReadMeshInformation]: whatever the file holds, whatever values
    the vertex lines parse to, and however the read ends. *)
Theorem ReadMeshInformation_keeps_the_set_ordered (io : STLMeshIO) :
  strictly_ordered (m_PointsSet io) = true ->
  strictly_ordered (m_PointsSet (snd (ReadMeshInformation env io))) = true.
Proof.
  revert io. change (respects keeps_order (ReadMeshInformation env)).
  unfold ReadMeshInformation, OpenInputForFileType, ReopenOnWin32,
    InputStream_open, InputStream_close.
  order_steps ltac:(first [ apply order_ReadMeshInternalFromAscii
                          | apply order_ReadMeshInternalFromBinary ]).
Qed.

End OrderAcrossReading.

Lemma ReadMeshInformation_keeps_the_set_ordered_witness :
  strictly_ordered
    (m_PointsSet (snd (Sample.read false ASCII Sample.ascii_file_two_facets))) = true.
Proof.
  apply (ReadMeshInformation_keeps_the_set_ordered
           (Sample.env false [(lit "mesh.stl", Sample.ascii_file_two_facets)])
           (Sample.io_for (lit "mesh.stl") ASCII)).
  reflexivity.
Defined.

(* ===================================================================== *)
(** ** Writing: what WriteCells never does                                *)
(* ===================================================================== *)

Lemma never_throws_bind {A B} (m : M A) (k : A -> M B) :
  never_throws m -> (forall a, never_throws (k a)) -> never_throws (bind m k).
Proof.
  intros Hm Hk io e. unfold bind. specialize (Hm io).
  destruct (m io) as [[a| | |] io']; simpl in *;
    try discriminate; [apply Hk | exfalso; now apply (Hm e0)].
Qed.

Lemma never_throws_lift_option {A} (o : option A) : never_throws (lift_option o).
Proof. destruct o; intros io e; discriminate. Qed.

Lemma never_throws_out bs : never_throws (out bs).
Proof. intros io e; discriminate. Qed.

Lemma never_throws_gets {A} (f : STLMeshIO -> A) : never_throws (gets f).
Proof. intros io e; discriminate. Qed.

Lemma never_throws_ret {A} (a : A) : never_throws (ret a).
Proof. intros io e; discriminate. Qed.

Ltac never_throws_steps leaf :=
  repeat first
    [ leaf
    | apply never_throws_out
    | apply never_throws_lift_option
    | apply never_throws_gets
    | apply never_throws_ret
    | apply never_throws_bind; [|intros ?]
    | match goal with
      | |- never_throws (if ?b then _ else _) => destruct b
      | |- never_throws (match ?x with _ => _ end) => destruct x
      end ].

Lemma output_extends_refl : forall io, output_extends io io.
Proof. intros io. exists []. now rewrite app_nil_r. Qed.

Lemma output_extends_trans :
  forall a b c, output_extends a b -> output_extends b c -> output_extends a c.
Proof.
  intros a b c [x Hx] [y Hy]. exists (x ++ y). now rewrite Hy, Hx, app_assoc.
Qed.

Lemma output_extends_out bs : respects output_extends (out bs).
Proof.
  intros io. unfold out, modify, o_put; simpl.
  destruct io as [name t dim ct np nc os ins line pts ln pset pmap lid]; simpl.
  destruct (o_is_open os && negb (o_failed os)); simpl.
  - now exists bs.
  - exists []. now rewrite app_nil_r.
Qed.

Lemma stays_blocked_refl : forall io, stays_blocked io io.
Proof. intros io H; auto. Qed.

Lemma stays_blocked_trans :
  forall a b c, stays_blocked a b -> stays_blocked b c -> stays_blocked a c.
Proof.
  intros a b c Hab Hbc Ha. destruct (Hab Ha) as [Hb Eb].
  destruct (Hbc Hb) as [Hc Ec]. split; congruence.
Qed.

Lemma stays_blocked_out bs : respects stays_blocked (out bs).
Proof.
  intros io. unfold stays_blocked, blocked, out, modify, o_put; simpl.
  destruct io as [name t dim ct np nc os ins line pts ln pset pmap lid]; simpl.
  destruct os as [op fl bytes]; simpl.
  destruct op, fl; simpl; intros H; try discriminate; auto.
Qed.

Lemma frame_out bs : preserves all_but_OutputStream (out bs).
Proof. intros []; reflexivity. Qed.

Section WriteCellsNever.

Context (env : Env).

Ltac unfold_WriteCells :=
  unfold WriteCells, WriteInt32AsBinary.

Ltac unfold_WriteTriangle :=
  unfold WriteTriangle, WriteNormalAsBinary, WritePointAsBinary, WriteInt16AsBinary.

Lemma WriteTriangle_quiet t p0 p1 p2 :
  never_throws (WriteTriangle env t p0 p1 p2)
  /\ preserves all_but_OutputStream (WriteTriangle env t p0 p1 p2)
  /\ respects output_extends (WriteTriangle env t p0 p1 p2)
  /\ respects stays_blocked (WriteTriangle env t p0 p1 p2).
Proof.
  unfold_WriteTriangle. split; [|split; [|split]].
  - never_throws_steps fail.
  - frame_steps all_but_OutputStream ltac:(apply frame_out).
  - respects_steps output_extends_refl output_extends_trans
      ltac:(apply output_extends_out).
  - respects_steps stays_blocked_refl stays_blocked_trans
      ltac:(apply stays_blocked_out).
Qed.

Lemma WriteCellsLoop_quiet n t buf :
  forall index,
  never_throws (WriteCellsLoop env n t buf index)
  /\ preserves all_but_OutputStream (WriteCellsLoop env n t buf index)
  /\ respects output_extends (WriteCellsLoop env n t buf index)
  /\ respects stays_blocked (WriteCellsLoop env n t buf index).
Proof.
  induction n as [|n IH]; intros index; cbn [WriteCellsLoop].
  - split; [|split; [|split]].
    + apply never_throws_ret.
    + apply respects_ret, preserves_refl.
    + apply respects_ret, output_extends_refl.
    + apply respects_ret, stays_blocked_refl.
  - split; [|split; [|split]].
    + never_throws_steps
        ltac:(first [ apply (proj1 (WriteTriangle_quiet _ _ _ _))
                    | apply (proj1 (IH _)) ]).
    + frame_steps all_but_OutputStream
        ltac:(first [ apply (proj1 (proj2 (WriteTriangle_quiet _ _ _ _)))
                    | apply (proj1 (proj2 (IH _))) ]).
    + respects_steps output_extends_refl output_extends_trans
        ltac:(first [ apply (proj1 (proj2 (proj2 (WriteTriangle_quiet _ _ _ _))))
                    | apply (proj1 (proj2 (proj2 (IH _)))) ]).
    + respects_steps stays_blocked_refl stays_blocked_trans
        ltac:(first [ apply (proj2 (proj2 (proj2 (WriteTriangle_quiet _ _ _ _))))
                    | apply (proj2 (proj2 (proj2 (IH _)))) ]).
Qed.

Lemma WriteCells_quiet buf :
  never_throws (WriteCells env buf)
  /\ preserves all_but_OutputStream (WriteCells env buf)
  /\ respects output_extends (WriteCells env buf)
  /\ respects stays_blocked (WriteCells env buf).
Proof.
  unfold_WriteCells. split; [|split; [|split]].
  - never_throws_steps ltac:(apply (proj1 (WriteCellsLoop_quiet _ _ _ _))).
  - frame_steps all_but_OutputStream
      ltac:(first [ apply (proj1 (proj2 (WriteCellsLoop_quiet _ _ _ _)))
                  | apply frame_out ]).
  - respects_steps output_extends_refl output_extends_trans
      ltac:(first [ apply (proj1 (proj2 (proj2 (WriteCellsLoop_quiet _ _ _ _))))
                  | apply output_extends_out ]).
  - respects_steps stays_blocked_refl stays_blocked_trans
      ltac:(first [ apply (proj2 (proj2 (proj2 (WriteCellsLoop_quiet _ _ _ _))))
                  | apply stays_blocked_out ]).
Qed.

(** X8.  Whatever the cell buffer holds, [WriteCells] throws no
    exception, assigns no member but the output stream, and only
    appends to the file: the bytes written before are a prefix of the
    bytes written after. *)
Theorem WriteCells_only_appends (buf : list Z) (io : STLMeshIO) :
  (forall e, fst (WriteCells env buf io) <> Thrown e)
  /\ all_but_OutputStream (snd (WriteCells env buf io)) = all_but_OutputStream io
  /\ exists bs,
       o_bytes (m_OutputStream (snd (WriteCells env buf io)))
       = o_bytes (m_OutputStream io) ++ bs.
Proof.
  destruct (WriteCells_quiet buf) as (H1 & H2 & H3 & _).
  split; [apply H1|]. split; [apply H2 | apply H3].
Qed.

(** X9.  When the output stream is not open, or an earlier operation
    on it has failed, [WriteCells] adds nothing to the file and still
    does not throw: the triangles are lost without a report. *)
Theorem WriteCells_on_a_blocked_stream_writes_nothing
  (buf : list Z) (io : STLMeshIO) :
  blocked io = true ->
  o_bytes (m_OutputStream (snd (WriteCells env buf io))) = o_bytes (m_OutputStream io)
  /\ blocked (snd (WriteCells env buf io)) = true
  /\ forall e, fst (WriteCells env buf io) <> Thrown e.
Proof.
  intros Hb. destruct (WriteCells_quiet buf) as (H1 & _ & _ & H4).
  destruct (H4 io Hb) as [Hb' Hbytes]. auto.
Qed.

End WriteCellsNever.

(** After [Write] has closed the file, the cells of a mesh are not
    written. *)
Lemma WriteCells_on_a_blocked_stream_writes_nothing_witness :
  o_bytes
    (m_OutputStream
       (snd (WriteCells (Sample.env false []) (encode_cells Sample.one_triangle)
               (snd (Write (Sample.writer BINARY binary_header Sample.one_triangle))))))
  = binary_header
  /\ blocked
       (snd (WriteCells (Sample.env false []) (encode_cells Sample.one_triangle)
               (snd (Write (Sample.writer BINARY binary_header Sample.one_triangle)))))
     = true
  /\ forall e,
       fst (WriteCells (Sample.env false []) (encode_cells Sample.one_triangle)
              (snd (Write (Sample.writer BINARY binary_header Sample.one_triangle))))
       <> Thrown e.
Proof.
  apply (WriteCells_on_a_blocked_stream_writes_nothing
           (Sample.env false []) (encode_cells Sample.one_triangle)
           (snd (Write (Sample.writer BINARY binary_header Sample.one_triangle)))).
  reflexivity.
Defined.

(* ===================================================================== *)
(** ** Writing: opening the file                                          *)
(* ===================================================================== *)

(** X10.  On an object whose output stream is not yet open,
    [WriteMeshInformation] throws [UnableToOpenFile] exactly when the
    file type is neither ASCII nor binary or the file cannot be
    created, and then no byte is written and the stream takes none
    afterwards.  Otherwise it returns with a stream that holds the
    header of the file type and nothing else: what an earlier write
    left in the stream is discarded. *)
Theorem WriteMeshInformation_throws_or_starts_a_new_file
  (env : Env) (io : STLMeshIO) :
  o_is_open (m_OutputStream io) = false ->
  (m_FileType io = TYPENOTAPPLICABLE \/ can_create env (m_FileName io) = false ->
     fst (WriteMeshInformation env io) = Thrown (UnableToOpenFile (m_FileName io))
     /\ o_bytes (m_OutputStream (snd (WriteMeshInformation env io)))
        = o_bytes (m_OutputStream io)
     /\ blocked (snd (WriteMeshInformation env io)) = true)
  /\
  (m_FileType io <> TYPENOTAPPLICABLE -> can_create env (m_FileName io) = true ->
     fst (WriteMeshInformation env io) = Returned tt
     /\ o_bytes (m_OutputStream (snd (WriteMeshInformation env io)))
        = header_of (m_FileType io)
     /\ blocked (snd (WriteMeshInformation env io)) = false).
Proof.
  destruct io as [name t dim ct np nc os ins line pts ln pset pmap lid].
  destruct os as [op fl bs]. cbn [m_OutputStream o_is_open m_FileType m_FileName].
  intros ->.
  unfold WriteMeshInformation, OutputStream_open, out, bind, gets, modify, throw, ret,
    blocked, o_open, o_put, header_of.
  cbn [m_FileType m_FileName m_OutputStream o_is_open o_failed o_bytes
       set_OutputStream fst snd].
  split.
  - intros [-> | Hc]; [|destruct t]; cbn; rewrite ?Hc; cbn; auto.
  - intros Ht Hc. destruct t; [| |congruence]; cbn; rewrite Hc; cbn; auto.
Qed.

Lemma WriteMeshInformation_throws_or_starts_a_new_file_witness :
  let stale := set_OutputStream (mkOfstream false false (lit "left over"))
                 (Sample.before_writing ASCII 3 Sample.one_triangle) in
  (fst (WriteMeshInformation Sample.read_only stale)
   = Thrown (UnableToOpenFile (lit "out.stl"))
   /\ o_bytes (m_OutputStream (snd (WriteMeshInformation Sample.read_only stale)))
      = lit "left over")
  /\
  (fst (WriteMeshInformation (Sample.env false []) stale) = Returned tt
   /\ o_bytes (m_OutputStream (snd (WriteMeshInformation (Sample.env false []) stale)))
      = lit "solid ascii" ++ endl).
Proof.
  intros stale. split.
  - destruct (WriteMeshInformation_throws_or_starts_a_new_file
                Sample.read_only stale eq_refl) as [H _].
    destruct (H (or_intror eq_refl)) as (H1 & H2 & _). split; assumption.
  - destruct (WriteMeshInformation_throws_or_starts_a_new_file
                (Sample.env false []) stale eq_refl) as [_ H].
    destruct (H ltac:(discriminate) eq_refl) as (H1 & H2 & _). split; assumption.
Defined.

Lemma WriteMeshInformation_on_an_open_stream (env : Env) (io : STLMeshIO) :
  o_is_open (m_OutputStream io) = true ->
  m_FileType io <> TYPENOTAPPLICABLE ->
  exists io',
    WriteMeshInformation env io = (Returned tt, io')
    /\ blocked io' = true
    /\ o_bytes (m_OutputStream io') = o_bytes (m_OutputStream io).
Proof.
  destruct io as [name t dim ct np nc os ins line pts ln pset pmap lid].
  destruct os as [op fl bs]. cbn [m_OutputStream o_is_open m_FileType].
  intros -> Ht.
  unfold WriteMeshInformation, OutputStream_open, out, bind, gets, modify, throw, ret,
    blocked, o_open, o_put.
  destruct t; [| |congruence]; cbn; eexists; repeat split; cbn;
    now rewrite ?orb_true_r.
Qed.

Lemma stays_blocked_WritePoints buffer : respects stays_blocked (WritePoints buffer).
Proof.
  assert (H : preserves m_OutputStream (WritePoints buffer)).
  { unfold WritePoints, WritePointsTyped.
    frame_steps m_OutputStream fail. }
  intros io Hb. unfold blocked. rewrite (H io). auto.
Qed.

Lemma stays_blocked_Write : respects stays_blocked Write.
Proof.
  intros io. unfold stays_blocked, blocked, Write, modify, o_close; simpl.
  destruct io as [name t dim ct np nc os ins line pts ln pset pmap lid]; simpl.
  destruct os as [op fl bytes]; simpl.
  destruct op, fl; simpl; intros H; try discriminate; auto.
Qed.

(** X11.  Only [Write] closes the output stream.  When a write starts
    on an object whose stream is still open, as it is after a write
    that ended in an exception, opening the file fails without a
    report: [WriteMeshInformation] returns normally, and the whole
    sequence of [WriteMeshInformation], [WritePoints], [WriteCells] and
    [Write] adds not one byte to the file, whatever the mesh. *)
Theorem a_write_on_a_stream_left_open_is_lost
  (env : Env) (points : list buffer_value) (cells : list Z) (io : STLMeshIO) :
  o_is_open (m_OutputStream io) = true ->
  m_FileType io <> TYPENOTAPPLICABLE ->
  fst (WriteMeshInformation env io) = Returned tt
  /\ o_bytes (m_OutputStream (snd (MeshFileWriter_Write env points cells io)))
     = o_bytes (m_OutputStream io).
Proof.
  intros Ho Ht.
  destruct (WriteMeshInformation_on_an_open_stream env io Ho Ht)
    as (io' & Hw & Hb & Hbytes).
  split; [now rewrite Hw|].
  unfold MeshFileWriter_Write. rewrite (bind_Returned _ _ _ _ _ Hw).
  assert (H : respects stays_blocked
                (WritePoints points ;; WriteCells env cells ;; Write)%stl).
  { respects_steps stays_blocked_refl stays_blocked_trans
      ltac:(first [ apply stays_blocked_WritePoints
                  | apply (proj2 (proj2 (proj2 (WriteCells_quiet env cells))))
                  | apply stays_blocked_Write ]). }
  destruct (H io' Hb) as [_ E]. now rewrite E.
Qed.

(** A write of two-dimensional points ends in the dimension error and
    leaves the stream open; the next write through the same object, now
    with the dimension corrected, leaves the file with the header of
    the first. *)
Lemma a_write_on_a_stream_left_open_is_lost_witness :
  let failed :=
    snd (MeshFileWriter_Write (Sample.env false []) Sample.three_points_buffer
           (encode_cells Sample.one_triangle)
           (Sample.before_writing BINARY 2 Sample.one_triangle)) in
  let again := set_PointDimension 3 failed in
  fst (WriteMeshInformation (Sample.env false []) again) = Returned tt
  /\ o_bytes
       (m_OutputStream
          (snd (MeshFileWriter_Write (Sample.env false []) Sample.three_points_buffer
                  (encode_cells Sample.one_triangle) again)))
     = o_bytes (m_OutputStream again).
Proof.
  intros failed again.
  apply (a_write_on_a_stream_left_open_is_lost (Sample.env false [])
           Sample.three_points_buffer (encode_cells Sample.one_triangle) again).
  - reflexivity.
  - discriminate.
Defined.

(* ===================================================================== *)
(** ** Writing: the copy of the points                                    *)
(* ===================================================================== *)

Lemma copy_points_length n : forall buf pts,
  copy_points n buf = Some pts -> length pts = n.
Proof.
  induction n as [|n IH]; intros buf pts; cbn [copy_points].
  - now intros [= <-].
  - destruct buf as [|a [|b [|c rest]]]; try discriminate.
    destruct (copy_points n rest) as [pts'|] eqn:E; [|discriminate].
    intros [= <-]. cbn. f_equal. eauto.
Qed.

Lemma copy_points_nth n : forall buf pts i,
  copy_points n buf = Some pts -> i < n ->
  exists a b c,
    nth_error buf (3 * i) = Some a
    /\ nth_error buf (3 * i + 1) = Some b
    /\ nth_error buf (3 * i + 2) = Some c
    /\ nth_error pts i
       = Some (mkArray3 (static_cast_float a) (static_cast_float b)
                        (static_cast_float c)).
Proof.
  induction n as [|n IH]; intros buf pts i; cbn [copy_points]; [lia|].
  destruct buf as [|a [|b [|c rest]]]; try discriminate.
  destruct (copy_points n rest) as [pts'|] eqn:E; [|discriminate].
  intros [= <-] Hi. destruct i as [|i].
  - exists a, b, c. repeat split.
  - destruct (IH rest pts' i E ltac:(lia)) as (a' & b' & c' & Ha & Hb & Hc & Hp).
    exists a', b', c'.
    replace (3 * S i) with (S (S (S (3 * i)))) by lia.
    cbn [nth_error Nat.add]. auto.
Qed.

Lemma copy_points_enough n : forall buf,
  3 * n <= length buf -> exists pts, copy_points n buf = Some pts.
Proof.
  induction n as [|n IH]; intros buf H; cbn [copy_points]; [eauto|].
  destruct buf as [|a [|b [|c rest]]]; cbn [length] in H; try lia.
  destruct (IH rest ltac:(lia)) as [pts ->]. eauto.
Qed.

Lemma copy_points_short n : forall buf,
  length buf < 3 * n -> copy_points n buf = None.
Proof.
  induction n as [|n IH]; intros buf H; cbn [copy_points]; [lia|].
  destruct buf as [|a [|b [|c rest]]]; auto.
  cbn [length] in H. now rewrite (IH rest ltac:(lia)).
Qed.

(** X12.  With three-dimensional points of a known component type,
    [WritePoints] replaces [m_Points] (and nothing else) by one point
    for each of the announced number of points: point [i] is the
    conversion to [float] of the buffer elements [3i], [3i+1] and
    [3i+2].  The length of the buffer is never checked: a buffer with
    fewer than three elements for each announced point is read past
    its end. *)
Theorem WritePoints_takes_three_elements_per_point
  (buffer : list buffer_value) (io : STLMeshIO) :
  m_PointDimension io = 3%Z ->
  m_PointComponentType io <> UNKNOWNCOMPONENTTYPE ->
  (3 * Z.to_nat (m_NumberOfPoints io) <= length buffer ->
     exists pts,
       WritePoints buffer io = (Returned tt, set_Points pts io)
       /\ length pts = Z.to_nat (m_NumberOfPoints io)
       /\ forall i, i < Z.to_nat (m_NumberOfPoints io) ->
            exists a b c,
              nth_error buffer (3 * i) = Some a
              /\ nth_error buffer (3 * i + 1) = Some b
              /\ nth_error buffer (3 * i + 2) = Some c
              /\ nth_error pts i
                 = Some (mkArray3 (static_cast_float a) (static_cast_float b)
                                  (static_cast_float c)))
  /\
  (length buffer < 3 * Z.to_nat (m_NumberOfPoints io) ->
     WritePoints buffer io = (UndefinedBehaviour, io)).
Proof.
  intros Hd Ht. split.
  - intros Hlen. destruct (copy_points_enough _ _ Hlen) as [pts Hc].
    exists pts. split; [now apply WritePoints_copies|].
    split; [eapply copy_points_length; eassumption|].
    intros i Hi. eapply copy_points_nth; eassumption.
  - intros Hlen. apply copy_points_short in Hlen.
    assert (H : WritePointsTyped buffer io = (UndefinedBehaviour, io)).
    { unfold WritePointsTyped. rewrite bind_gets, Hd. simpl.
      rewrite bind_gets, Hlen. reflexivity. }
    unfold WritePoints. rewrite bind_gets.
    destruct (m_PointComponentType io); congruence.
Qed.

Lemma WritePoints_takes_three_elements_per_point_witness :
  (exists pts,
     WritePoints Sample.three_points_buffer
       (Sample.before_writing ASCII 3 Sample.one_triangle)
     = (Returned tt,
        set_Points pts (Sample.before_writing ASCII 3 Sample.one_triangle))
     /\ length pts = 3
     /\ nth_error pts 1 = Some (Sample.point 1 0 0))
  /\ WritePoints (firstn 8 Sample.three_points_buffer)
       (Sample.before_writing ASCII 3 Sample.one_triangle)
     = (UndefinedBehaviour, Sample.before_writing ASCII 3 Sample.one_triangle).
Proof.
  split.
  - destruct (WritePoints_takes_three_elements_per_point
                Sample.three_points_buffer
                (Sample.before_writing ASCII 3 Sample.one_triangle)
                eq_refl ltac:(discriminate)) as [H _].
    destruct (H ltac:(vm_compute; lia)) as (pts & Hw & Hl & Hi).
    exists pts. split; [exact Hw|]. split; [exact Hl|].
    destruct (Hi 1 ltac:(vm_compute; lia)) as (a & b & c & Ha & Hb & Hc & Hp).
    vm_compute in Ha, Hb, Hc.
    injection Ha as <-. injection Hb as <-. injection Hc as <-.
    rewrite Hp. vm_compute. reflexivity.
  - destruct (WritePoints_takes_three_elements_per_point
                (firstn 8 Sample.three_points_buffer)
                (Sample.before_writing ASCII 3 Sample.one_triangle)
                eq_refl ltac:(discriminate)) as [_ H].
    apply H. vm_compute. lia.
Defined.

(* ===================================================================== *)
(** ** Reading: files that cannot be opened                               *)
(* ===================================================================== *)

Lemma OpenInputForFileType_fails (env : Env) (io : STLMeshIO) :
  stream_open io = false ->
  m_FileType io = TYPENOTAPPLICABLE \/ file_contents env (m_FileName io) = None ->
  exists s,
    OpenInputForFileType env io
    = (Thrown (UnableToOpenFile (m_FileName io)), set_InputStream s io)
    /\ i_is_open s = false.
Proof.
  unfold stream_open.
  destruct io as [name t dim ct np nc os ins line pts ln pset pmap lid].
  destruct ins as [op d p e f].
  cbn [m_InputStream i_is_open m_FileType m_FileName]. intros -> H.
  unfold OpenInputForFileType, InputStream_open, bind, gets, modify, throw, ret, i_open.
  cbn [m_InputStream i_is_open m_FileType m_FileName set_InputStream].
  destruct H as [-> | Hf].
  - exists (mkIfstream false d p e f). split; reflexivity.
  - destruct t; cbn; rewrite ?Hf; cbn; eexists; split; reflexivity.
Qed.

(** X13.  On an object with no file attached to the input stream,
    when the file type is neither ASCII nor binary or the file cannot
    be opened, each of [ReadMeshInformation], [ReadPoints] and
    [ReadCells] throws [UnableToOpenFile] with the file name, and the
    input stream is still closed afterwards. *)
Theorem reading_a_file_that_cannot_be_opened_throws
  (env : Env) (T : Type) (buffer : list T) (io : STLMeshIO) :
  stream_open io = false ->
  m_FileType io = TYPENOTAPPLICABLE \/ file_contents env (m_FileName io) = None ->
  fst (ReadMeshInformation env io) = Thrown (UnableToOpenFile (m_FileName io))
  /\ fst (ReadPoints env buffer io) = Thrown (UnableToOpenFile (m_FileName io))
  /\ fst (ReadCells env buffer io) = Thrown (UnableToOpenFile (m_FileName io))
  /\ stream_open (snd (ReadMeshInformation env io)) = false.
Proof.
  intros Hc Hf.
  destruct (OpenInputForFileType_fails env io Hc Hf) as (s & Ho & Hs).
  unfold ReadMeshInformation, ReadPoints, ReadCells.
  rewrite !(bind_Thrown _ _ _ _ _ Ho). cbn [fst snd].
  repeat split. unfold stream_open. now destruct io.
Qed.

Lemma reading_a_file_that_cannot_be_opened_throws_witness :
  fst (ReadMeshInformation (Sample.env false []) (Sample.io_for (lit "mesh.stl") ASCII))
  = Thrown (UnableToOpenFile (lit "mesh.stl"))
  /\ fst (ReadPoints (Sample.env false []) [1; 2; 3]%Z
            (Sample.io_for (lit "mesh.stl") ASCII))
     = Thrown (UnableToOpenFile (lit "mesh.stl"))
  /\ fst (ReadCells (Sample.env false []) [1; 2; 3]%Z
            (Sample.io_for (lit "mesh.stl") ASCII))
     = Thrown (UnableToOpenFile (lit "mesh.stl"))
  /\ stream_open
       (snd (ReadMeshInformation (Sample.env false [])
               (Sample.io_for (lit "mesh.stl") ASCII)))
     = false.
Proof.
  apply (reading_a_file_that_cannot_be_opened_throws
           (Sample.env false []) Z [1; 2; 3]%Z (Sample.io_for (lit "mesh.stl") ASCII)).
  - reflexivity.
  - right. reflexivity.
Defined.

(* ===================================================================== *)
(** ** Reading: which files are rejected                                  *)
(* ===================================================================== *)

Lemma never_throws_modify (g : STLMeshIO -> STLMeshIO) : never_throws (modify g).
Proof. intros io e; discriminate. Qed.

Lemma never_throws_undefined {A} : never_throws (@undefined A).
Proof. intros io e; discriminate. Qed.

Lemma never_throws_in_read n : never_throws (in_read n).
Proof.
  intros io e. unfold in_read.
  destruct (i_read n (m_InputStream io)); discriminate.
Qed.

Lemma never_throws_times n (body : M unit) :
  never_throws body -> never_throws (times n body).
Proof.
  intros H. induction n as [|n IH]; cbn [times].
  - apply never_throws_ret.
  - apply never_throws_bind; auto.
Qed.

Lemma never_throws_ReadMeshInternalFromBinary :
  never_throws ReadMeshInternalFromBinary.
Proof.
  unfold ReadMeshInternalFromBinary, ReadNormalAsBinary, ReadPointAsBinary,
    ReadInt16AsBinary, SetNumberOfCells.
  never_throws_steps
    ltac:(first [ apply never_throws_in_read
                | apply never_throws_modify
                | apply never_throws_undefined
                | apply never_throws_times ]).
Qed.

Lemma never_throws_InputStream_close : never_throws InputStream_close.
Proof. apply never_throws_modify. Qed.

Lemma getline_further_on (s : ifstream) (str : std_string) :
  further_on s (fst (getline s str)).
Proof.
  unfold getline. destruct (i_good s); cbn [fst]; [|apply further_on_setstate].
  destruct (length (until_newline (i_rest s)) <? length (i_rest s)); cbn [fst];
    eauto using further_on_trans, further_on_advance, further_on_setstate.
Qed.

Lemma i_read_keeps_open (n : nat) (s : ifstream) :
  i_is_open (fst (i_read n s)) = i_is_open s.
Proof.
  unfold i_read. destruct (i_good s); cbn [fst]; [|reflexivity].
  destruct (length (firstn n (i_rest s)) <? n); reflexivity.
Qed.

(** After the first line, the file type is settled; where the platform
    reopens the file, a file that was open and still exists is open
    again. *)
Lemma settle_FileType_then
  (env : Env) (target : FileType) (body : M unit) (io : STLMeshIO)
  (data : std_string) :
  stream_open io = true ->
  file_contents env (m_FileName io) = Some data ->
  exists s,
    (t <- gets m_FileType ;;
     (if negb (FileType_eqb t target)
      then (modify (set_FileType target) ;; ReopenOnWin32 env)
      else ret tt) ;;
     body)%stl io
    = body (set_FileType target (set_InputStream s io))
    /\ i_is_open s = true.
Proof.
  unfold stream_open.
  destruct io as [name t dim ct np nc os ins line pts ln pset pmap lid].
  destruct ins as [op d p e f].
  cbn [m_InputStream i_is_open m_FileName]. intros -> Hf.
  unfold ReopenOnWin32, InputStream_close, InputStream_open, bind, gets, modify,
    throw, ret, i_close, i_open.
  cbn [m_FileType].
  destruct (FileType_eqb t target) eqn:E; cbn [negb].
  - apply FileType_eqb_eq in E. subst target.
    exists (mkIfstream true d p e f). split; reflexivity.
  - destruct (WIN32 env); cbn.
    + rewrite Hf. cbn. eexists. split; reflexivity.
    + exists (mkIfstream true d p e f). split; reflexivity.
Qed.

Lemma fst_bind_never_throws {A B} (m : M A) (k : A -> M B) io :
  (forall e, fst (m io) <> Thrown e) ->
  (forall a, never_throws (k a)) ->
  forall e, fst (bind m k io) <> Thrown e.
Proof.
  intros Hm Hk e. unfold bind. specialize (Hm e).
  destruct (m io) as [[a| e0| |] io']; cbn [fst] in *;
    try discriminate; [apply Hk|].
  intros [= ->]. now apply Hm.
Qed.

(** X14.  A file whose first line does not contain "solid" is read as
    binary, and the binary reader reports nothing: an existing file
    of that kind, whatever its bytes and however short it is, never
    makes [ReadMeshInformation] throw. *)
Theorem a_file_without_solid_is_never_rejected
  (env : Env) (io : STLMeshIO) (data : std_string) (e : ExceptionObject) :
  stream_open io = false ->
  m_FileType io <> TYPENOTAPPLICABLE ->
  file_contents env (m_FileName io) = Some data ->
  found (until_newline data) (lit "solid") = false ->
  fst (ReadMeshInformation env io) <> Thrown e.
Proof.
  intros Hc Ht Hf Hn.
  unfold ReadMeshInformation.
  rewrite (bind_Returned _ _ _ _ _ (OpenInputForFileType_opens _ _ _ Hc Ht Hf)).
  unfold bind at 1. cbn [m_InputStream set_InputStream].
  pose proof (getline_good_open (mkIfstream true data 0 false false) []
                eq_refl eq_refl) as Hline.
  pose proof (getline_further_on (mkIfstream true data 0 false false) [])
    as (_ & Hopen & _).
  destruct (getline (mkIfstream true data 0 false false) []) as [s1 line].
  cbn [fst snd i_pos i_data i_is_open skipn] in Hline, Hopen. subst line.
  rewrite Hn.
  apply fst_bind_never_throws; [|intros ?; apply never_throws_InputStream_close].
  set (io1 := set_InputStream s1 _).
  destruct (settle_FileType_then env BINARY ReadMeshInternalFromBinary io1 data)
    as (s & -> & _).
  - unfold io1, stream_open. now destruct io.
  - unfold io1. now destruct io.
  - intros e'. apply never_throws_ReadMeshInternalFromBinary.
Qed.

(** An empty file, and a file of four bytes. *)
Lemma a_file_without_solid_is_never_rejected_witness :
  fst (Sample.read false ASCII []) <> Thrown (UnableToOpenFile (lit "mesh.stl"))
  /\ fst (Sample.read true BINARY (lit "STL?"))
     <> Thrown (ParsingErrorMissed (lit "facet normal") 2 []).
Proof.
  split.
  - apply (a_file_without_solid_is_never_rejected
             (Sample.env false [(lit "mesh.stl", [])])
             (Sample.io_for (lit "mesh.stl") ASCII) []);
      [reflexivity | discriminate | reflexivity | reflexivity].
  - apply (a_file_without_solid_is_never_rejected
             (Sample.env true [(lit "mesh.stl", lit "STL?")])
             (Sample.io_for (lit "mesh.stl") BINARY) (lit "STL?"));
      [reflexivity | discriminate | reflexivity | reflexivity].
Defined.

(* ===================================================================== *)
(** ** Reading: a binary file that ends early                             *)
(* ===================================================================== *)

Lemma NumberOfCells_records n :
  preserves m_NumberOfCells
    (times n (ReadNormalAsBinary ;; ReadPointAsBinary ;; ReadPointAsBinary ;;
              ReadPointAsBinary ;; ReadInt16AsBinary)%stl).
Proof.
  unfold ReadNormalAsBinary, ReadPointAsBinary, ReadInt16AsBinary.
  frame_steps m_NumberOfCells fail.
Qed.

(** X15.  The binary reader takes the count of triangles on trust.
    Once the 80 bytes of the header and the 4 bytes of a non-negative
    count N are there, [ReadMeshInternalFromBinary] sets the number of
    cells to N and throws nothing, however few of the N records
    follow: a file that ends early is not reported. *)
Theorem ReadMeshInternalFromBinary_does_not_notice_missing_records
  (data : std_string) (pos : nat) (N : Z) (io : STLMeshIO) :
  m_InputStream io = mkIfstream true data pos false false ->
  pos + 80 + 4 <= length data ->
  le_value (firstn 4 (skipn (pos + 80) data)) = N ->
  (N < 2 ^ 31)%Z ->
  m_NumberOfCells (snd (ReadMeshInternalFromBinary io)) = N
  /\ forall e, fst (ReadMeshInternalFromBinary io) <> Thrown e.
Proof.
  intros Hs Hlen HN Hlt.
  split; [|apply never_throws_ReadMeshInternalFromBinary].
  assert (H0 : (0 <= N)%Z) by (rewrite <- HN; apply le_value_nonneg).
  unfold ReadMeshInternalFromBinary.
  rewrite (bind_Returned _ _ _ _ _ (in_read_enough 80 data pos io Hs ltac:(lia))).
  set (io1 := set_InputStream (mkIfstream true data (pos + 80) false false) io).
  assert (Hs1 : m_InputStream io1 = mkIfstream true data (pos + 80) false false)
    by now destruct io.
  rewrite (bind_Returned _ _ _ _ _ (in_read_enough 4 data (pos + 80) io1 Hs1 ltac:(lia))).
  assert (Hl : length (firstn 4 (skipn (pos + 80) data)) = 4).
  { rewrite length_firstn, length_skipn. lia. }
  rewrite Hl, HN. cbn [Nat.ltb Nat.leb].
  rewrite (wrap_int32_small N) by lia.
  unfold SetNumberOfCells. rewrite bind_modify.
  destruct (Z.ltb_spec N 0); [lia|].
  rewrite (wrap_uint64_small N) by lia.
  rewrite (NumberOfCells_records (Z.to_nat N)). now destruct io.
Qed.

(** A header, the count 1000, and not one record. *)
Lemma ReadMeshInternalFromBinary_does_not_notice_missing_records_witness :
  let io := set_InputStream
              (mkIfstream true (binary_header ++ le_bytes 4 1000) 0 false false)
              (Sample.io_for (lit "mesh.stl") BINARY) in
  m_NumberOfCells (snd (ReadMeshInternalFromBinary io)) = 1000%Z
  /\ forall e, fst (ReadMeshInternalFromBinary io) <> Thrown e.
Proof.
  intros io.
  apply (ReadMeshInternalFromBinary_does_not_notice_missing_records
           (binary_header ++ le_bytes 4 1000) 0 1000 io).
  - reflexivity.
  - vm_compute. lia.
  - vm_compute. reflexivity.
  - lia.
Defined.

(* ===================================================================== *)
(** ** Reading: the two branches of ReadMeshInformation                   *)
(* ===================================================================== *)

Lemma bind_same_start {A B} (m m' : M A) (k : A -> M B) io io' :
  m io = m' io' -> bind m k io = bind m' k io'.
Proof. unfold bind. now intros ->. Qed.

Lemma settle_FileType_exact
  (env : Env) (target : FileType) (body : M unit) (io : STLMeshIO)
  (data : std_string) :
  stream_open io = true ->
  file_contents env (m_FileName io) = Some data ->
  (t <- gets m_FileType ;;
   (if negb (FileType_eqb t target)
    then (modify (set_FileType target) ;; ReopenOnWin32 env)
    else ret tt) ;;
   body)%stl io
  = body (set_FileType target
            (set_InputStream
               (if negb (FileType_eqb (m_FileType io) target) && WIN32 env
                then mkIfstream true data 0 false false
                else m_InputStream io) io)).
Proof.
  unfold stream_open.
  destruct io as [name t dim ct np nc os ins line pts ln pset pmap lid].
  destruct ins as [op d p e f].
  cbn [m_InputStream i_is_open m_FileName]. intros -> Hf.
  unfold ReopenOnWin32, InputStream_close, InputStream_open, bind, gets, modify,
    throw, ret, i_close, i_open.
  cbn [m_FileType].
  destruct (FileType_eqb t target) eqn:E; cbn [negb andb].
  - apply FileType_eqb_eq in E. now subst target.
  - destruct (WIN32 env); cbn; rewrite ?Hf; reflexivity.
Qed.

(** What [ReadMeshInformation] comes to once the file is open: the
    first line decides between the two readers, the file type is set
    accordingly, and the reader starts after the first line, or, where
    the platform reopens the file, at its first byte. *)
Lemma ReadMeshInformation_branches (env : Env) (io : STLMeshIO) (data : std_string) :
  stream_open io = false ->
  m_FileType io <> TYPENOTAPPLICABLE ->
  file_contents env (m_FileName io) = Some data ->
  let fresh := mkIfstream true data 0 false false in
  let isAscii := found (until_newline data) (lit "solid") in
  let target := if isAscii then ASCII else BINARY in
  let s := if negb (FileType_eqb (m_FileType io) target) && WIN32 env
           then fresh else fst (getline fresh []) in
  ReadMeshInformation env io
  = ((if isAscii then ReadMeshInternalFromAscii env else ReadMeshInternalFromBinary) ;;
     InputStream_close)%stl
      (set_FileType target (set_InputStream s io)).
Proof.
  intros Hc Ht Hf fresh isAscii target s.
  unfold ReadMeshInformation.
  rewrite (bind_Returned _ _ _ _ _ (OpenInputForFileType_opens _ _ _ Hc Ht Hf)).
  unfold bind at 1. cbn [m_InputStream set_InputStream].
  pose proof (getline_good_open fresh [] eq_refl eq_refl) as Hline.
  pose proof (getline_further_on fresh []) as (_ & Hopen & _).
  fold fresh. subst s.
  destruct (getline fresh []) as [s1 line].
  cbn [fst snd i_pos i_data i_is_open skipn fresh] in Hline, Hopen. subst line.
  fold isAscii.
  apply bind_same_start.
  set (io1 := set_InputStream s1 (set_InputStream fresh io)).
  assert (Ho1 : stream_open io1 = true) by (unfold io1, stream_open; now destruct io).
  assert (Hf1 : file_contents env (m_FileName io1) = Some data)
    by (unfold io1; now destruct io).
  assert (Hio : forall tg,
             set_FileType tg
               (set_InputStream
                  (if negb (FileType_eqb (m_FileType io1) tg) && WIN32 env
                   then fresh else m_InputStream io1) io1)
             = set_FileType tg
                 (set_InputStream
                    (if negb (FileType_eqb (m_FileType io) tg) && WIN32 env
                     then fresh else s1) io)).
  { intros tg. unfold io1. now destruct io. }
  subst target. destruct isAscii.
  - rewrite (settle_FileType_exact env ASCII _ io1 data Ho1 Hf1). now rewrite Hio.
  - rewrite (settle_FileType_exact env BINARY _ io1 data Ho1 Hf1). now rewrite Hio.
Qed.

(* ===================================================================== *)
(** ** Reading: the input stream after an exception                       *)
(* ===================================================================== *)

Ltac stream_open_leaf :=
  intros io; unfold stream_open, modify, in_read; cbn [snd];
  match goal with
  | |- context [getline ?s ?str] =>
      pose proof (getline_further_on s str) as (_ & ? & _); destruct (getline s str)
  | |- context [extract_string ?s ?str] =>
      pose proof (extract_string_further_on s str) as (_ & ? & _);
      destruct (extract_string s str)
  | |- context [extract_point ?e ?s ?p] =>
      pose proof (extract_point_further_on e s p) as (_ & ? & _);
      destruct (extract_point e s p)
  | |- context [i_read ?n ?s] =>
      pose proof (i_read_keeps_open n s); destruct (i_read n s)
  end;
  destruct io; cbn in *; assumption.

Section StreamStaysOpen.

Context (env : Env).

Lemma stream_open_ReadStringFromAscii expected :
  preserves stream_open (ReadStringFromAscii expected).
Proof.
  unfold ReadStringFromAscii, getline_InputLine, incr_InputLineNumber.
  frame_steps stream_open stream_open_leaf.
Qed.

Lemma stream_open_CheckStringFromAscii expected :
  preserves stream_open (CheckStringFromAscii expected).
Proof.
  unfold CheckStringFromAscii, getline_InputLine, incr_InputLineNumber.
  frame_steps stream_open stream_open_leaf.
Qed.

Lemma stream_open_ReadPointAsAscii p :
  preserves stream_open (ReadPointAsAscii env p).
Proof.
  unfold ReadPointAsAscii, InsertPointIntoSet, incr_InputLineNumber.
  frame_steps stream_open stream_open_leaf.
Qed.

Lemma stream_open_ReadFacets bound p0 p1 p2 :
  preserves stream_open (ReadFacets env bound p0 p1 p2).
Proof.
  revert p0 p1 p2; induction bound as [|bound IH]; intros; simpl.
  - unfold preserves; apply respects_unfinished; reflexivity.
  - frame_steps stream_open
      ltac:(first [ apply stream_open_CheckStringFromAscii
                  | apply stream_open_ReadStringFromAscii
                  | apply stream_open_ReadPointAsAscii
                  | apply IH ]).
Qed.

Lemma stream_open_ReadMeshInternalFromAscii :
  preserves stream_open (ReadMeshInternalFromAscii env).
Proof.
  unfold ReadMeshInternalFromAscii.
  frame_steps stream_open ltac:(apply stream_open_ReadFacets).
Qed.

Lemma stream_is_open_after_a_parse_error (io : STLMeshIO) (e : ExceptionObject) :
  stream_open io = false ->
  fst (ReadMeshInformation env io) = Thrown e ->
  is_open_failure e = false ->
  stream_open (snd (ReadMeshInformation env io)) = true
  /\ m_FileType (snd (ReadMeshInformation env io)) = ASCII.
Proof.
  intros Hc He Hne.
  assert (Hopened : m_FileType io <> TYPENOTAPPLICABLE
                    /\ exists data, file_contents env (m_FileName io) = Some data).
  { destruct (file_contents env (m_FileName io)) as [data|] eqn:Hf.
    - split; [|eauto]. intros Ht.
      destruct (OpenInputForFileType_fails env io Hc (or_introl Ht)) as (s & Ho & _).
      unfold ReadMeshInformation in He. rewrite (bind_Thrown _ _ _ _ _ Ho) in He.
      cbn in He. injection He as <-. discriminate Hne.
    - exfalso.
      destruct (OpenInputForFileType_fails env io Hc (or_intror Hf)) as (s & Ho & _).
      unfold ReadMeshInformation in He. rewrite (bind_Thrown _ _ _ _ _ Ho) in He.
      cbn in He. injection He as <-. discriminate Hne. }
  destruct Hopened as (Ht & data & Hf).
  pose proof (ReadMeshInformation_branches env io data Hc Ht Hf) as Hb.
  cbv zeta in Hb. rewrite Hb in He |- *. clear Hb.
  destruct (found (until_newline data) (lit "solid")).
  - match goal with |- context [set_InputStream ?x io] => set (s := x) in * end.
    assert (Hs : i_is_open s = true).
    { subst s. destruct (_ && _); [reflexivity|].
      now destruct (getline_further_on (mkIfstream true data 0 false false) [])
        as (_ & -> & _). }
    set (io3 := set_FileType ASCII (set_InputStream s io)) in *.
    pose proof (stream_open_ReadMeshInternalFromAscii io3) as Hopen.
    pose proof (FileType_ReadMeshInternalFromAscii env io3) as Htype.
    unfold bind in He |- *.
    destruct (ReadMeshInternalFromAscii env io3) as [[[]|e'| |] io4];
      cbn [fst snd] in *; try discriminate.
    rewrite Hopen, Htype. unfold io3, stream_open. now destruct io.
  - exfalso. revert He. apply fst_bind_never_throws.
    + intros e'. apply never_throws_ReadMeshInternalFromBinary.
    + intros ?. apply never_throws_InputStream_close.
Qed.

Lemma ReadMeshInformation_on_an_open_stream (io : STLMeshIO) :
  stream_open io = true ->
  m_FileType io <> TYPENOTAPPLICABLE ->
  WIN32 env = false \/ m_FileType io = BINARY ->
  fst (ReadMeshInformation env io) = UndefinedBehaviour.
Proof.
  unfold stream_open.
  destruct io as [name t dim ct np nc os ins pending pts ln pset pmap lid].
  destruct ins as [op d p e f].
  cbn [m_InputStream i_is_open m_FileType]. intros -> Ht Hw.
  unfold ReadMeshInformation, OpenInputForFileType, ReopenOnWin32,
    ReadMeshInternalFromBinary, InputStream_open, InputStream_close,
    bind, gets, modify, throw, ret, undefined, in_read, i_open, i_read, getline,
    i_good, i_setstate.
  destruct t; [| |congruence];
    cbn; rewrite ?orb_true_r, ?andb_false_r; cbn;
    rewrite ?orb_true_r, ?andb_false_r; cbn; try reflexivity.
  destruct Hw as [-> | Hw]; [|discriminate].
  cbn; rewrite ?orb_true_r, ?andb_false_r; cbn; reflexivity.
Qed.

(** X16.  Only the normal end of [ReadMeshInformation] closes the input
    stream.  When it throws for any reason other than a file that
    cannot be opened, the stream is left open; where the platform does
    not reopen files, a second [ReadMeshInformation] on the same object
    then fails to open the file without reporting it, reads nothing,
    and uses a count of triangles that was never assigned. *)
Theorem a_parse_error_leaves_the_stream_open (io : STLMeshIO) (e : ExceptionObject) :
  stream_open io = false ->
  fst (ReadMeshInformation env io) = Thrown e ->
  is_open_failure e = false ->
  stream_open (snd (ReadMeshInformation env io)) = true
  /\ (WIN32 env = false ->
      fst (ReadMeshInformation env (snd (ReadMeshInformation env io)))
      = UndefinedBehaviour).
Proof.
  intros Hc He Hne.
  destruct (stream_is_open_after_a_parse_error io e Hc He Hne) as [Ho Ht].
  split; [exact Ho|]. intros Hw.
  apply ReadMeshInformation_on_an_open_stream; auto. rewrite Ht. discriminate.
Qed.

End StreamStaysOpen.

Lemma a_parse_error_leaves_the_stream_open_witness :
  stream_open (snd (Sample.read false ASCII Sample.ascii_file_missing_endloop)) = true
  /\ (WIN32 (Sample.env false [(lit "mesh.stl", Sample.ascii_file_missing_endloop)])
      = false ->
      fst (ReadMeshInformation
             (Sample.env false [(lit "mesh.stl", Sample.ascii_file_missing_endloop)])
             (snd (Sample.read false ASCII Sample.ascii_file_missing_endloop)))
      = UndefinedBehaviour).
Proof.
  apply (a_parse_error_leaves_the_stream_open
           (Sample.env false [(lit "mesh.stl", Sample.ascii_file_missing_endloop)])
           (Sample.io_for (lit "mesh.stl") ASCII)
           (ParsingErrorMissed (lit "endloop") 7 (lit "  endfacet"))).
  - reflexivity.
  - vm_compute. reflexivity.
  - reflexivity.
Defined.

(* ===================================================================== *)
(** ** Reading: an ASCII file where the platform reopens the file         *)
(* ===================================================================== *)

(** X17.  Where the platform reopens the file ([_WIN32]) and the file
    type of the object is binary, an ASCII file is rejected: after the
    first line has shown "solid" the file is reopened, the ASCII reader
    starts again at the first line and looks for "facet normal" in it.
    Unless that line holds "endsolid" or "facet normal",
    [ReadMeshInformation] throws a parse error that cites line 2 and
    the text of line 1. *)
Theorem reopening_makes_the_ASCII_reader_start_at_the_first_line
  (env : Env) (io : STLMeshIO) (line rest : std_string) :
  WIN32 env = true ->
  stream_open io = false ->
  m_FileType io = BINARY ->
  file_contents env (m_FileName io) = Some (line ++ newline :: rest) ->
  ~ In newline line ->
  found line (lit "solid") = true ->
  found line (lit "endsolid") = false ->
  found line (lit "facet normal") = false ->
  fst (ReadMeshInformation env io)
  = Thrown (ParsingErrorMissed (lit "facet normal") 2 line).
Proof.
  intros Hw Hc Ht Hf Hnl Hsolid Hend Hfacet.
  pose proof (ReadMeshInformation_branches env io _ Hc
                ltac:(rewrite Ht; discriminate) Hf) as Hb.
  cbv zeta in Hb. rewrite (until_newline_app _ _ Hnl), Hsolid, Ht, Hw in Hb.
  cbn [FileType_eqb negb andb] in Hb. rewrite Hb. clear Hb.
  assert (Hne : is_empty line = false).
  { destruct line; [discriminate Hsolid | reflexivity]. }
  destruct io as [name t dim ct np nc os ins pending pts ln pset pmap lid].
  unfold ReadMeshInternalFromAscii. cbn [ReadFacets].
  unfold CheckStringFromAscii, ReadStringFromAscii, getline_InputLine,
    bind, gets, modify, throw, ret.
  cbn [m_InputStream m_InputLine set_InputStream set_InputLine set_FileType
       set_InputLineNumber m_InputLineNumber fst snd].
  rewrite (getline_first_line line rest _ Hnl).
  cbn [m_InputStream m_InputLine set_InputStream set_InputLine set_FileType
       set_InputLineNumber m_InputLineNumber fst snd].
  rewrite Hend.
  cbn [m_InputStream m_InputLine set_InputStream set_InputLine set_FileType
       set_InputLineNumber m_InputLineNumber fst snd].
  rewrite Hne.
  cbn [m_InputStream m_InputLine set_InputStream set_InputLine set_FileType
       set_InputLineNumber m_InputLineNumber fst snd].
  rewrite Hfacet. reflexivity.
Qed.

Lemma reopening_makes_the_ASCII_reader_start_at_the_first_line_witness :
  fst (Sample.read true BINARY Sample.ascii_file_two_facets)
  = Thrown (ParsingErrorMissed (lit "facet normal") 2 (lit "solid square"))
  /\ fst (Sample.read true ASCII Sample.ascii_file_two_facets) = Returned tt.
Proof.
  split; [|vm_compute; reflexivity].
  apply (reopening_makes_the_ASCII_reader_start_at_the_first_line
           (Sample.env true [(lit "mesh.stl", Sample.ascii_file_two_facets)])
           (Sample.io_for (lit "mesh.stl") BINARY)
           (lit "solid square")
           (skipn 13 Sample.ascii_file_two_facets));
    try reflexivity.
  vm_compute. intuition discriminate.
Defined.

(* ===================================================================== *)
(** ** Reading: an ASCII file that ends before "endsolid"                 *)
(* ===================================================================== *)

(** X18.  The ASCII reader has no test for the end of the file.  When
    the loop of [ReadMeshInternalFromAscii] begins an iteration with
    nothing left to read, the failed [getline] leaves an empty line,
    which is then searched for "facet normal": the function throws a
    parse error that cites the current line number and an empty
    text. *)
Theorem the_end_of_the_file_is_reported_as_a_missing_facet
  (env : Env) (bound : nat) (p0 p1 p2 : LocalPoint) (io : STLMeshIO) :
  i_good (m_InputStream io) = true ->
  i_rest (m_InputStream io) = [] ->
  fst (ReadFacets env (S bound) p0 p1 p2 io)
  = Thrown (ParsingErrorMissed (lit "facet normal") (m_InputLineNumber io) []).
Proof.
  intros Hg Hr.
  destruct io as [name t dim ct np nc os ins pending pts ln pset pmap lid].
  cbn [m_InputStream m_InputLineNumber] in *.
  assert (H1 : getline ins pending
               = (i_setstate true true (i_advance 0 ins), [])).
  { unfold getline. rewrite Hg, Hr. reflexivity. }
  assert (H2 : getline (i_setstate true true (i_advance 0 ins)) []
               = (i_setstate false true (i_setstate true true (i_advance 0 ins)), [])).
  { unfold getline, i_good. cbn [i_eofbit i_failbit i_setstate i_advance].
    now rewrite !orb_true_r. }
  cbn [ReadFacets].
  unfold CheckStringFromAscii, ReadStringFromAscii, getline_InputLine,
    bind, gets, modify, throw, ret.
  cbn [m_InputStream m_InputLine set_InputStream set_InputLine m_InputLineNumber
       fst snd].
  rewrite H1.
  cbn [m_InputStream m_InputLine set_InputStream set_InputLine m_InputLineNumber
       fst snd found find starts_with lit list_ascii_of_string is_empty].
  rewrite H2. reflexivity.
Qed.

(** The header line and one complete facet, and then the file ends. *)
Lemma the_end_of_the_file_is_reported_as_a_missing_facet_witness :
  let data := Sample.text (Sample.missing_endloop_head
                             ++ [lit "    endloop"; lit "  endfacet"]) in
  fst (ReadFacets (Sample.env false []) 1 uninitialized uninitialized uninitialized
         (Sample.reader_at data (length data) 9))
  = Thrown (ParsingErrorMissed (lit "facet normal") 9 [])
  /\ fst (ReadMeshInformation (Sample.env false [(lit "mesh.stl", data)])
            (Sample.io_for (lit "mesh.stl") ASCII))
     = Thrown (ParsingErrorMissed (lit "facet normal") 9 []).
Proof.
  intros data. split; [|vm_compute; reflexivity].
  apply (the_end_of_the_file_is_reported_as_a_missing_facet
           (Sample.env false []) 0 uninitialized uninitialized uninitialized
           (Sample.reader_at data (length data) 9)).
  - reflexivity.
  - vm_compute. reflexivity.
Defined.

(* ===================================================================== *)
(** ** Writing a binary file and reading it back                          *)
(* ===================================================================== *)

Lemma le_value_le_bytes (n : nat) : forall z : Z,
  le_value (le_bytes n z) = (z mod 256 ^ Z.of_nat n)%Z.
Proof.
  induction n as [|n IH]; intros z.
  - cbn [le_bytes le_value]. now rewrite Z.pow_0_r, Z.mod_1_r.
  - cbn [le_bytes le_value]. rewrite IH.
    assert (Hb : (0 <= z mod 256 < 256)%Z) by (apply Z.mod_pos_bound; lia).
    rewrite N_ascii_embedding by lia.
    rewrite Z2N.id by lia.
    rewrite Nat2Z.inj_succ, Z.pow_succ_r by lia.
    rewrite (Z.rem_mul_r z 256 (256 ^ Z.of_nat n)) by lia. lia.
Qed.

Lemma length_triangles (points : list PointType) (cs : list Cell) :
  forallb (cell_ok (length points)) cs = true ->
  length (triangles points cs) = length (filter qualifies cs).
Proof.
  intros H. symmetry.
  eapply Forall2_length, triangles_of_ok_cells, H.
Qed.

(** The bytes of a binary write: header, count, records. *)
Lemma binary_write_bytes (env : Env) (cs : list Cell) (w : STLMeshIO) :
  m_FileType w = BINARY ->
  o_is_open (m_OutputStream w) = false ->
  can_create env (m_FileName w) = true ->
  m_NumberOfCells w = Z.of_nat (length cs) ->
  (Z.of_nat (length (encode_cells cs)) < 2 ^ 64)%Z ->
  forallb (cell_ok (length (m_Points w))) cs = true ->
  o_bytes (m_OutputStream
             (snd ((WriteMeshInformation env ;; WriteCells env (encode_cells cs))%stl w)))
  = binary_header ++ written_cells env BINARY edge_cross (m_Points w) cs.
Proof.
  intros Ht Hc Hcan Hn Hlen Hok.
  rewrite (bind_Returned _ _ _ _ _ (WriteMeshInformation_binary env w Ht Hc Hcan)).
  set (w1 := set_OutputStream (mkOfstream true false binary_header) w).
  destruct (WriteCells_cells env cs [] w1) as (w2 & Hw & Happ).
  - unfold w1. now destruct w.
  - now rewrite app_nil_r.
  - unfold w1. now destruct w.
  - unfold w1. split; now destruct w.
  - rewrite app_nil_r in Hw. rewrite Hw. cbn [snd]. rewrite Happ.
    unfold w1. destruct w; cbn in *. now subst.
Qed.

Lemma ReadMeshInternalFromBinary_of_written
  (env : Env) (points : list PointType) (cs : list Cell) (r : STLMeshIO) :
  forallb (cell_ok (length points)) cs = true ->
  (Z.of_nat (length (filter qualifies cs)) < 2 ^ 31)%Z ->
  let file := binary_header ++ written_cells env BINARY edge_cross points cs in
  m_InputStream r = mkIfstream true file 0 false false ->
  ReadMeshInternalFromBinary r
  = (Returned tt,
     set_InputStream (mkIfstream true file (length file) false false)
       (set_NumberOfCells (Z.of_nat (length (filter qualifies cs))) r)).
Proof.
  intros Hok Hk file Hs.
  set (k := length (filter qualifies cs)) in *.
  assert (Hfile : file = binary_header ++ le_bytes 4 (Z.of_nat k)
                           ++ flat_map (fun tri => binary_record (edge_cross tri) tri)
                                       (triangles points cs)).
  { unfold file, written_cells. fold k.
    rewrite (wrap_int32_small (Z.of_nat k)) by lia.
    now rewrite app_nil_r. }
  assert (Hlen : length file = 0 + 80 + 4 + Z.to_nat (Z.of_nat k) * 50).
  { rewrite Hfile, !length_app, length_binary_header, length_le_bytes,
      length_binary_records, (length_triangles _ _ Hok), Nat2Z.id.
    fold k. lia. }
  rewrite Hlen.
  apply (ReadMeshInternalFromBinary_layout file 0 (Z.of_nat k) r Hs); [|lia|lia].
  rewrite Hfile. change (0 + 80) with 80.
  rewrite skipn_app, (@skipn_all2 _ 80 binary_header) by (rewrite length_binary_header; lia).
  rewrite length_binary_header. cbn [Nat.add Nat.sub app skipn].
  rewrite firstn_app, (@firstn_all2 _ 4 (le_bytes 4 (Z.of_nat k)))
    by (rewrite length_le_bytes; lia).
  rewrite length_le_bytes. cbn [Nat.sub firstn]. rewrite app_nil_r.
  rewrite le_value_le_bytes. apply Z.mod_small. lia.
Qed.

(** X19.  A binary file written by this class is read back by its
    binary reader.  For a well-formed cell buffer, the bytes that
    [WriteMeshInformation] and [WriteCells] send to the file, read by
    [ReadMeshInternalFromBinary] from the first byte, are consumed to
    the last byte without an error, and the number of cells is set to
    the number of triangles written (the cells of three points, not
    all the cells of the mesh). *)
Theorem a_binary_file_written_here_is_read_back
  (env : Env) (cs : list Cell) (w r : STLMeshIO) :
  m_FileType w = BINARY ->
  o_is_open (m_OutputStream w) = false ->
  can_create env (m_FileName w) = true ->
  m_NumberOfCells w = Z.of_nat (length cs) ->
  (Z.of_nat (length (encode_cells cs)) < 2 ^ 64)%Z ->
  forallb (cell_ok (length (m_Points w))) cs = true ->
  (Z.of_nat (length (filter qualifies cs)) < 2 ^ 31)%Z ->
  let file :=
    o_bytes (m_OutputStream
               (snd ((WriteMeshInformation env ;; WriteCells env (encode_cells cs))%stl w)))
  in
  m_InputStream r = mkIfstream true file 0 false false ->
  ReadMeshInternalFromBinary r
  = (Returned tt,
     set_InputStream (mkIfstream true file (length file) false false)
       (set_NumberOfCells (Z.of_nat (length (filter qualifies cs))) r)).
Proof.
  intros Ht Hc Hcan Hn Hlen Hok Hk file.
  unfold file. rewrite (binary_write_bytes env cs w Ht Hc Hcan Hn Hlen Hok).
  apply ReadMeshInternalFromBinary_of_written; assumption.
Qed.

(** Five cells of which two are triangles: the file read back has two
    cells. *)
Lemma a_binary_file_written_here_is_read_back_witness :
  let w := set_Points Sample.three_points
             (Sample.before_writing BINARY 3 Sample.mixed_cells) in
  let file :=
    o_bytes (m_OutputStream
               (snd ((WriteMeshInformation (Sample.env false []) ;;
                      WriteCells (Sample.env false [])
                        (encode_cells Sample.mixed_cells))%stl w))) in
  let r := set_InputStream (mkIfstream true file 0 false false)
             (Sample.io_for (lit "mesh.stl") BINARY) in
  ReadMeshInternalFromBinary r
  = (Returned tt,
     set_InputStream (mkIfstream true file (length file) false false)
       (set_NumberOfCells 2 r)).
Proof.
  intros w file r.
  apply (a_binary_file_written_here_is_read_back
           (Sample.env false []) Sample.mixed_cells w r);
    try reflexivity; vm_compute; try reflexivity; lia.
Defined.

(** X20.  Where the platform reopens the file ([_WIN32]), a binary
    file written by this class is read back by [ReadMeshInformation]
    through an object whose file type is still ASCII: provided the
    bytes before the first newline do not spell "solid", the file is
    taken for binary, reopened and read from its first byte; the call
    returns, sets the file type to binary and the number of cells to
    the number of triangles written, and closes the stream. *)
Theorem reopening_reads_a_written_binary_file_from_its_first_byte
  (env envR : Env) (cs : list Cell) (w r : STLMeshIO) :
  m_FileType w = BINARY ->
  o_is_open (m_OutputStream w) = false ->
  can_create env (m_FileName w) = true ->
  m_NumberOfCells w = Z.of_nat (length cs) ->
  (Z.of_nat (length (encode_cells cs)) < 2 ^ 64)%Z ->
  forallb (cell_ok (length (m_Points w))) cs = true ->
  (Z.of_nat (length (filter qualifies cs)) < 2 ^ 31)%Z ->
  let file :=
    o_bytes (m_OutputStream
               (snd ((WriteMeshInformation env ;; WriteCells env (encode_cells cs))%stl w)))
  in
  WIN32 envR = true ->
  file_contents envR (m_FileName r) = Some file ->
  stream_open r = false ->
  m_FileType r = ASCII ->
  found (until_newline file) (lit "solid") = false ->
  fst (ReadMeshInformation envR r) = Returned tt
  /\ m_NumberOfCells (snd (ReadMeshInformation envR r))
     = Z.of_nat (length (filter qualifies cs))
  /\ m_FileType (snd (ReadMeshInformation envR r)) = BINARY
  /\ stream_open (snd (ReadMeshInformation envR r)) = false.
Proof.
  intros Ht Hc Hcan Hn Hlen Hok Hk file.
  assert (Hfile : file = binary_header
                         ++ written_cells env BINARY edge_cross (m_Points w) cs)
    by now apply binary_write_bytes.
  clearbody file. subst file.
  set (file := binary_header ++ _).
  intros Hw Hf Hclosed Htr Hsolid.
  pose proof (ReadMeshInformation_branches envR r file Hclosed
                ltac:(rewrite Htr; discriminate) Hf) as Hb.
  cbv zeta in Hb. rewrite Hsolid, Htr, Hw in Hb.
  cbn [FileType_eqb negb andb] in Hb. rewrite Hb. clear Hb.
  set (r1 := set_FileType BINARY
               (set_InputStream (mkIfstream true file 0 false false) r)).
  assert (Hs1 : m_InputStream r1 = mkIfstream true file 0 false false)
    by (unfold r1; now destruct r).
  pose proof (ReadMeshInternalFromBinary_of_written env (m_Points w) cs r1 Hok Hk Hs1)
    as Hread.
  fold file in Hread.
  rewrite (bind_Returned _ _ _ _ _ Hread).
  unfold InputStream_close, modify, stream_open, r1. destruct r. cbn.
  repeat split.
Qed.

Lemma reopening_reads_a_written_binary_file_from_its_first_byte_witness :
  let w := set_Points Sample.three_points
             (Sample.before_writing BINARY 3 Sample.mixed_cells) in
  let file :=
    o_bytes (m_OutputStream
               (snd ((WriteMeshInformation (Sample.env false []) ;;
                      WriteCells (Sample.env false [])
                        (encode_cells Sample.mixed_cells))%stl w))) in
  let envR := Sample.env true [(lit "mesh.stl", file)] in
  let r := Sample.io_for (lit "mesh.stl") ASCII in
  fst (ReadMeshInformation envR r) = Returned tt
  /\ m_NumberOfCells (snd (ReadMeshInformation envR r)) = 2%Z
  /\ m_FileType (snd (ReadMeshInformation envR r)) = BINARY
  /\ stream_open (snd (ReadMeshInformation envR r)) = false.
Proof.
  intros w file envR r.
  apply (reopening_reads_a_written_binary_file_from_its_first_byte
           (Sample.env false []) envR Sample.mixed_cells w r);
    try reflexivity; vm_compute; try reflexivity; lia.
Defined.

(* ===================================================================== *)
(** ** Writing an ASCII file and reading it back                          *)
(* ===================================================================== *)

Lemma skipn_length_app {A} (a b : list A) : skipn (length a) (a ++ b) = b.
Proof. induction a; simpl; auto. Qed.

Lemma i_rest_advance (n : nat) (s : ifstream) :
  i_is_open s = true -> i_rest (i_advance n s) = skipn n (i_rest s).
Proof.
  intros Ho. unfold i_rest, i_advance. cbn [i_is_open i_pos i_data]. rewrite Ho.
  now rewrite skipn_skipn, Nat.add_comm.
Qed.

Lemma at_text_advance (s : ifstream) (a b : std_string) :
  at_text s (a ++ b) -> at_text (i_advance (length a) s) b.
Proof.
  intros (Ho & Hg & Hr). repeat split; auto.
  rewrite i_rest_advance, Hr by assumption. apply skipn_length_app.
Qed.

Lemma skip_ws_spaces (ws : std_string) (c : ascii) (r : std_string) :
  forallb isspace ws = true -> isspace c = false ->
  skip_ws (ws ++ c :: r) = c :: r.
Proof.
  intros Hws Hc. induction ws as [|w ws IH]; cbn [app skip_ws].
  - now rewrite Hc.
  - cbn [forallb] in Hws. apply andb_true_iff in Hws as [-> Hws]. auto.
Qed.

Lemma until_ws_token (tok : std_string) (c : ascii) (r : std_string) :
  forallb (fun c => negb (isspace c)) tok = true -> isspace c = true ->
  until_ws (tok ++ c :: r) = tok.
Proof.
  intros Htok Hc. induction tok as [|t tok IH]; cbn [app until_ws].
  - now rewrite Hc.
  - cbn [forallb] in Htok. apply andb_true_iff in Htok as [Ht Htok].
    apply negb_true_iff in Ht. rewrite Ht. f_equal. auto.
Qed.

Lemma plain_head (s : std_string) :
  plain s = true ->
  exists h t, s = h :: t /\ isspace h = false
              /\ forallb (fun c => negb (isspace c)) s = true.
Proof.
  unfold plain. destruct s as [|h t]; [discriminate|]. cbn [is_empty negb andb].
  intros H. exists h, t. repeat split; auto.
  cbn [forallb] in H. apply andb_true_iff in H as [H _].
  now apply negb_true_iff in H.
Qed.

(** The sentry on a usable stream: the white space [ws] is skipped. *)
Lemma i_sentry_spaces (s : ifstream) (ws : std_string) (c : ascii) (r : std_string) :
  at_text s (ws ++ c :: r) ->
  forallb isspace ws = true -> isspace c = false ->
  i_sentry s = (i_advance (length ws) s, true).
Proof.
  intros (Ho & Hg & Hr) Hws Hc. unfold i_sentry. rewrite Hg, Hr.
  rewrite (skip_ws_spaces _ _ _ Hws Hc).
  rewrite length_app. cbn [length].
  replace (length ws + S (length r) - S (length r)) with (length ws) by lia.
  reflexivity.
Qed.

(** [s >> str] on white space, a word, and white space again. *)
Lemma extract_string_token
  (s : ifstream) (ws tok : std_string) (c : ascii) (r str : std_string) :
  at_text s (ws ++ tok ++ c :: r) ->
  forallb isspace ws = true -> plain tok = true -> isspace c = true ->
  extract_string s str = (i_advance (length tok) (i_advance (length ws) s), tok)
  /\ at_text (i_advance (length tok) (i_advance (length ws) s)) (c :: r).
Proof.
  intros Hat Hws Htok Hc.
  destruct (plain_head _ Htok) as (h & t & Eh & Hh & Hall).
  assert (Hat1 : at_text (i_advance (length ws) s) (tok ++ c :: r))
    by now apply at_text_advance.
  assert (Hat2 : at_text (i_advance (length tok) (i_advance (length ws) s)) (c :: r))
    by now apply at_text_advance.
  split; [|exact Hat2].
  unfold extract_string.
  assert (Hs : i_sentry s = (i_advance (length ws) s, true)).
  { apply (i_sentry_spaces s ws h (t ++ c :: r)); auto.
    now rewrite Eh in Hat. }
  rewrite Hs. destruct Hat1 as (_ & _ & ->).
  rewrite (until_ws_token _ _ _ Hall Hc).
  rewrite length_app. cbn [length].
  destruct (Nat.ltb_spec (length tok) (length tok + S (length r))); [|lia].
  reflexivity.
Qed.

Section AsciiReadBack.

Context (env : Env).

(** [s >> value] on white space, the text printed for [x], and white
    space again. *)
Lemma extract_float_text
  (s : ifstream) (ws : std_string) (x y : PointValueType) (c : ascii)
  (r : std_string) (v : option PointValueType) :
  at_text s (ws ++ show_float env x ++ c :: r) ->
  forallb isspace ws = true -> reads_back env x y -> isspace c = true ->
  extract_float env s v
  = (i_advance (length (show_float env x)) (i_advance (length ws) s), Some y)
  /\ at_text (i_advance (length (show_float env x)) (i_advance (length ws) s))
             (c :: r).
Proof.
  intros Hat Hws [Hplain Hnum] Hc.
  destruct (plain_head _ Hplain) as (h & t & Eh & Hh & Hall).
  assert (Hat1 : at_text (i_advance (length ws) s) (show_float env x ++ c :: r))
    by now apply at_text_advance.
  assert (Hat2 : at_text (i_advance (length (show_float env x))
                            (i_advance (length ws) s)) (c :: r))
    by now apply at_text_advance.
  split; [|exact Hat2].
  unfold extract_float.
  assert (Hs : i_sentry s = (i_advance (length ws) s, true)).
  { apply (i_sentry_spaces s ws h (t ++ c :: r)); auto.
    now rewrite Eh in Hat. }
  rewrite Hs. destruct Hat1 as (_ & _ & ->).
  rewrite (Hnum c r Hc).
  rewrite length_app. cbn [length].
  rewrite Nat.min_l by lia.
  destruct (Nat.ltb_spec (length (show_float env x))
              (length (show_float env x) + S (length r))); [|lia].
  reflexivity.
Qed.

End AsciiReadBack.

Lemma PointsSet_ReadStringFromAscii expected :
  preserves m_PointsSet (ReadStringFromAscii expected).
Proof.
  unfold ReadStringFromAscii, getline_InputLine, incr_InputLineNumber.
  frame_steps m_PointsSet fail.
Qed.

Lemma PointsSet_CheckStringFromAscii expected :
  preserves m_PointsSet (CheckStringFromAscii expected).
Proof.
  unfold CheckStringFromAscii, getline_InputLine, incr_InputLineNumber.
  frame_steps m_PointsSet fail.
Qed.

Lemma next_line_number (io io' : STLMeshIO) (line rest : std_string) :
  in_step io -> in_step io' ->
  skipn (i_pos (m_InputStream io)) (i_data (m_InputStream io))
    = line ++ newline :: rest ->
  ~ In newline line ->
  i_data (m_InputStream io') = i_data (m_InputStream io) ->
  i_pos (m_InputStream io') = i_pos (m_InputStream io) + S (length line) ->
  m_InputLineNumber io' = (m_InputLineNumber io + 1)%Z
  /\ skipn (i_pos (m_InputStream io')) (i_data (m_InputStream io')) = rest.
Proof.
  intros (_ & _ & _ & Hn) (_ & _ & _ & Hn') Hs Hnl Hd Hp.
  rewrite Hn', Hn, Hd, Hp. split.
  - now apply (line_number_at_next_line _ line rest).
  - now apply (skipn_past_line _ line rest).
Qed.

(** A line that holds the keyword it is searched for. *)
Lemma keyword_line_read
  (expected line rest : std_string) (n : Z) (set : list PointType) (io : STLMeshIO) :
  reading_at io (line ++ newline :: rest) n set ->
  ~ In newline line ->
  found line expected = true ->
  (n + 1 < 2 ^ 32)%Z ->
  exists io',
    ReadStringFromAscii expected io = (Returned tt, io')
    /\ reading_at io' rest (n + 1) set.
Proof.
  intros (Hstep & Hs & Hn & Hset) Hnl Hf Hb.
  destruct (ReadStringFromAscii_keeps_step expected line rest io Hstep Hs Hnl Hf
              ltac:(lia)) as (io' & Hr & Hstep' & Hd & Hp & _).
  exists io'. split; [exact Hr|].
  destruct (next_line_number io io' line rest Hstep Hstep' Hs Hnl Hd Hp) as [Hn' Hs'].
  repeat split; try apply Hstep'; auto; [lia|].
  pose proof (PointsSet_ReadStringFromAscii expected io) as H.
  rewrite Hr in H. cbn [snd] in H. congruence.
Qed.

(** The first line of a facet block. *)
Lemma facet_line_read
  (line rest : std_string) (n : Z) (set : list PointType) (io : STLMeshIO) :
  reading_at io (line ++ newline :: rest) n set ->
  ~ In newline line ->
  found line (lit "endsolid") = false ->
  found line (lit "facet normal") = true ->
  (n + 1 < 2 ^ 32)%Z ->
  exists io1 io2,
    CheckStringFromAscii (lit "endsolid") io = (Returned false, io1)
    /\ ReadStringFromAscii (lit "facet normal") io1 = (Returned tt, io2)
    /\ reading_at io2 rest (n + 1) set.
Proof.
  intros (Hstep & Hs & Hn & Hset) Hnl He Hf Hb.
  destruct (facet_line_keeps_step line rest io Hstep Hs Hnl He Hf ltac:(lia))
    as (io1 & io2 & Hc & Hr & Hstep' & Hd & Hp).
  exists io1, io2. split; [exact Hc|]. split; [exact Hr|].
  destruct (next_line_number io io2 line rest Hstep Hstep' Hs Hnl Hd Hp) as [Hn' Hs'].
  repeat split; try apply Hstep'; auto; [lia|].
  pose proof (PointsSet_CheckStringFromAscii (lit "endsolid") io) as H1.
  pose proof (PointsSet_ReadStringFromAscii (lit "facet normal") io1) as H2.
  rewrite Hc in H1. rewrite Hr in H2. cbn [snd] in *. congruence.
Qed.

(** The closing line. *)
Lemma endsolid_line_read
  (line rest : std_string) (n : Z) (set : list PointType) (io : STLMeshIO) :
  reading_at io (line ++ newline :: rest) n set ->
  ~ In newline line ->
  found line (lit "endsolid") = true ->
  exists io1,
    CheckStringFromAscii (lit "endsolid") io = (Returned true, io1)
    /\ m_PointsSet io1 = set.
Proof.
  intros ((Hl & Ho & Hg & _) & Hs & _ & Hset) Hnl Hend.
  destruct io as [name t dim ct np nc os ins pending pts ln pset pmap lid].
  cbn [m_InputStream m_InputLine m_InputLineNumber m_PointsSet] in *. subst pending.
  pose proof (getline_terminated ins [] line rest Ho Hg Hs Hnl) as Hget.
  unfold CheckStringFromAscii, getline_InputLine, incr_InputLineNumber,
    bind, gets, modify, ret.
  cbn [m_InputStream m_InputLine set_InputStream set_InputLine].
  rewrite Hget. cbn [m_InputLine set_InputLine set_InputStream].
  rewrite Hend. eexists. split; [reflexivity|]. exact Hset.
Qed.

Lemma plain_no_newline (s : std_string) : plain s = true -> ~ In newline s.
Proof.
  intros H. destruct (plain_head _ H) as (_ & _ & _ & _ & Hall).
  rewrite forallb_forall in Hall. intros Hin.
  specialize (Hall _ Hin). discriminate Hall.
Qed.

Section VertexLine.

Context (env : Env) (reread : PointValueType -> PointValueType).

Lemma show3_no_newline (p : PointType) :
  point_reads_back env reread p -> ~ In newline (show3 env p).
Proof.
  intros ([Hx _] & [Hy _] & [Hz _]). unfold show3.
  rewrite !in_app_iff. cbn [lit list_ascii_of_string In].
  pose proof (plain_no_newline _ Hx). pose proof (plain_no_newline _ Hy).
  pose proof (plain_no_newline _ Hz).
  intuition discriminate.
Qed.

(** A vertex line as the writer prints it. *)
Lemma vertex_line_read
  (point : LocalPoint) (p : PointType) (rest : std_string) (n : Z)
  (set : list PointType) (io : STLMeshIO) :
  reading_at io ((lit "      vertex " ++ show3 env p) ++ newline :: rest) n set ->
  point_reads_back env reread p ->
  (n + 1 < 2 ^ 32)%Z ->
  exists io',
    ReadPointAsAscii env point io
    = (Returned (local_of (reread_point reread p)), io')
    /\ reading_at io' rest (n + 1) (set_insert (reread_point reread p) set).
Proof.
  intros (Hstep & Hs & Hn & Hset) Hp Hb.
  pose proof (show3_no_newline p Hp) as Hnl3.
  destruct Hp as (Hx & Hy & Hz).
  set (sx := show_float env (elem0 p)) in *.
  set (sy := show_float env (elem1 p)) in *.
  set (sz := show_float env (elem2 p)) in *.
  set (line := lit "      vertex " ++ show3 env p) in *.
  assert (Hnl : ~ In newline line).
  { unfold line. rewrite in_app_iff. intros [H | H]; [|tauto].
    cbn in H. intuition discriminate. }
  pose proof Hstep as (_ & Ho & Hg & _).
  set (s := m_InputStream io) in *.
  assert (Hat : at_text s (lit "      " ++ lit "vertex" ++ " "%char ::
                             (sx ++ " "%char :: (sy ++ " "%char ::
                               (sz ++ newline :: rest))))).
  { repeat split; auto. unfold i_rest. rewrite Ho, Hs.
    unfold line, show3. fold sx sy sz.
    repeat first [ rewrite <- app_assoc
                 | progress cbn [lit list_ascii_of_string app] ].
    reflexivity. }
  destruct (extract_string_token s (lit "      ") (lit "vertex") " "%char _ []
              Hat eq_refl eq_refl eq_refl) as [E1 Hat1].
  set (s1 := i_advance (length (lit "vertex")) (i_advance (length (lit "      ")) s)) in *.
  destruct (extract_float_text env s1 [" "%char] (elem0 p) _ " "%char _ (comp0 point)
              Hat1 eq_refl Hx eq_refl) as [E2 Hat2].
  fold sx in E2, Hat2.
  set (s2 := i_advance (length sx) (i_advance (length [" "%char]) s1)) in *.
  destruct (extract_float_text env s2 [" "%char] (elem1 p) _ " "%char _ (comp1 point)
              Hat2 eq_refl Hy eq_refl) as [E3 Hat3].
  fold sy in E3, Hat3.
  set (s3 := i_advance (length sy) (i_advance (length [" "%char]) s2)) in *.
  destruct (extract_float_text env s3 [" "%char] (elem2 p) _ newline _ (comp2 point)
              Hat3 eq_refl Hz eq_refl) as [E4 Hat4].
  fold sz in E4, Hat4.
  set (s4 := i_advance (length sz) (i_advance (length [" "%char]) s3)) in *.
  assert (E5 : extract_point env s1 point
               = (s4, local_of (reread_point reread p))).
  { unfold extract_point. rewrite E2, E3, E4. reflexivity. }
  assert (Hlen : i_pos s4 = i_pos s + length line).
  { unfold s4, s3, s2, s1, line, show3. fold sx sy sz.
    cbn [i_pos i_advance]. rewrite !length_app. cbn [lit list_ascii_of_string length].
    lia. }
  destruct (ReadPointAsAscii_keeps_step env point line rest io
              (reread (elem0 p)) (reread (elem1 p)) (reread (elem2 p))
              Hstep Hs Hnl) as (io' & Hr & Hstep' & Hset' & Hd & Hpos).
  - fold s. now rewrite E1.
  - fold s. rewrite E1. cbn [fst]. now rewrite E5.
  - fold s. rewrite E1. cbn [fst]. rewrite E5. cbn [fst]. apply Hat4.
  - fold s. rewrite E1. cbn [fst]. rewrite E5. cbn [fst]. lia.
  - lia.
  - exists io'. split; [exact Hr|].
    destruct (next_line_number io io' line rest Hstep Hstep' Hs Hnl Hd Hpos)
      as [Hn' Hs'].
    repeat split; try apply Hstep'; auto; [lia|].
    rewrite Hset', Hset. reflexivity.
Qed.

End VertexLine.

Section FacetsReadBack.

Context (env : Env) (reread : PointValueType -> PointValueType).

(** The facet block of a triangle, line by line. *)
Lemma ascii_record_lines (tri : PointType * PointType * PointType) (more : std_string) :
  ascii_record env (edge_cross tri) tri ++ more
  = facet_line env tri ++ newline ::
    lit "    outer loop" ++ newline ::
    (lit "      vertex " ++ show3 env (fst (fst tri))) ++ newline ::
    (lit "      vertex " ++ show3 env (snd (fst tri))) ++ newline ::
    (lit "      vertex " ++ show3 env (snd tri)) ++ newline ::
    lit "    endloop" ++ newline ::
    lit "  endfacet" ++ newline :: more.
Proof.
  destruct tri as [[q0 q1] q2]. unfold ascii_record, facet_line, endl.
  cbn [fst snd].
  repeat first [ rewrite <- app_assoc
               | progress cbn [lit list_ascii_of_string app] ].
  reflexivity.
Qed.

Lemma facet_line_found (tri : PointType * PointType * PointType) :
  found (facet_line env tri) (lit "facet normal") = true.
Proof.
  apply found_iff_Contains.
  exists (lit "  "), (lit " " ++ show3 env (edge_cross tri)).
  unfold facet_line. reflexivity.
Qed.

Lemma facet_line_ok_spec (tri : PointType * PointType * PointType) :
  facet_line_ok env tri = true ->
  found (facet_line env tri) (lit "endsolid") = false
  /\ ~ In newline (facet_line env tri).
Proof.
  unfold facet_line_ok. intros H. apply andb_true_iff in H as [H1 H2].
  apply negb_true_iff in H1. split; [exact H1|].
  rewrite forallb_forall in H2. intros Hin. specialize (H2 _ Hin).
  now rewrite Ascii.eqb_refl in H2.
Qed.

Lemma literal_line (text : string) :
  forallb (fun c => negb (Ascii.eqb c newline)) (lit text) = true ->
  ~ In newline (lit text).
Proof.
  intros H Hin. rewrite forallb_forall in H. specialize (H _ Hin).
  now rewrite Ascii.eqb_refl in H.
Qed.

(** The loop of the ASCII reader on the facet blocks of [tris], followed
    by the closing line. *)
Lemma ReadFacets_written (tris : list (PointType * PointType * PointType)) :
  forall (bound : nat) (p0 p1 p2 : LocalPoint) (io : STLMeshIO) (tail : std_string)
         (n : Z) (set : list PointType),
  reading_at io
    (flat_map (fun tri => ascii_record env (edge_cross tri) tri) tris
       ++ lit "endsolid" ++ newline :: tail) n set ->
  length tris <= bound ->
  (n + 7 * Z.of_nat (length tris) + 1 < 2 ^ 32)%Z ->
  Forall (triangle_reads_back env reread) tris ->
  exists io',
    ReadFacets env (S bound) p0 p1 p2 io = (Returned tt, io')
    /\ m_PointsSet io' = inserted reread (vertices tris) set.
Proof.
  induction tris as [|tri tris IH]; intros bound p0 p1 p2 io tail n set Hat Hb Hn Hok.
  - cbn [flat_map app] in Hat.
    destruct (endsolid_line_read (lit "endsolid") tail n set io Hat
                (literal_line "endsolid" eq_refl) eq_refl) as (io1 & Hc & Hs).
    exists io1. cbn [ReadFacets]. rewrite (bind_Returned _ _ _ _ _ Hc).
    split; [reflexivity | exact Hs].
  - destruct bound as [|bound]; [cbn in Hb; lia|].
    cbn [length] in Hb, Hn.
    inversion Hok as [|? ? (Hline & H0 & H1 & H2) Hok']; subst.
    destruct (facet_line_ok_spec tri Hline) as [Hend Hnl].
    cbn [flat_map] in Hat. rewrite <- app_assoc, ascii_record_lines in Hat.
    destruct (facet_line_read _ _ n set io Hat Hnl Hend (facet_line_found tri)
                ltac:(lia)) as (io1 & io2 & Hc & Hf & Hat2).
    destruct (keyword_line_read (lit "outer loop") (lit "    outer loop") _ _ set io2
                Hat2 (literal_line "    outer loop" eq_refl) eq_refl ltac:(lia))
      as (io3 & Ho & Hat3).
    destruct (vertex_line_read env reread p0 _ _ _ _ io3 Hat3 H0 ltac:(lia))
      as (io4 & Hv0 & Hat4).
    destruct (vertex_line_read env reread p1 _ _ _ _ io4 Hat4 H1 ltac:(lia))
      as (io5 & Hv1 & Hat5).
    destruct (vertex_line_read env reread p2 _ _ _ _ io5 Hat5 H2 ltac:(lia))
      as (io6 & Hv2 & Hat6).
    destruct (keyword_line_read (lit "endloop") (lit "    endloop") _ _ _ io6
                Hat6 (literal_line "    endloop" eq_refl) eq_refl ltac:(lia))
      as (io7 & Hl & Hat7).
    destruct (keyword_line_read (lit "endfacet") (lit "  endfacet") _ _ _ io7
                Hat7 (literal_line "  endfacet" eq_refl) eq_refl ltac:(lia))
      as (io8 & He & Hat8).
    destruct (IH bound
                (local_of (reread_point reread (fst (fst tri))))
                (local_of (reread_point reread (snd (fst tri))))
                (local_of (reread_point reread (snd tri)))
                io8 tail _ _ Hat8 ltac:(lia) ltac:(lia) Hok') as (io9 & Hrec & Hset).
    exists io9. split; [|exact Hset].
    cbn [ReadFacets]. rewrite (bind_Returned _ _ _ _ _ Hc). cbv beta iota.
    rewrite (bind_Returned _ _ _ _ _ Hf).
    rewrite (bind_Returned _ _ _ _ _ Ho).
    rewrite (bind_Returned _ _ _ _ _ Hv0).
    rewrite (bind_Returned _ _ _ _ _ Hv1).
    rewrite (bind_Returned _ _ _ _ _ Hv2).
    rewrite (bind_Returned _ _ _ _ _ Hl).
    rewrite (bind_Returned _ _ _ _ _ He).
    exact Hrec.
Qed.

End FacetsReadBack.

Lemma WriteMeshInformation_ascii (env : Env) (io : STLMeshIO) :
  m_FileType io = ASCII ->
  o_is_open (m_OutputStream io) = false ->
  can_create env (m_FileName io) = true ->
  WriteMeshInformation env io
  = (Returned tt,
     set_OutputStream (mkOfstream true false (lit "solid ascii" ++ endl)) io).
Proof.
  destruct io as [name t dim ct np nc os ins line pts ln pset pmap lid].
  destruct os as [op fl bs]. simpl. intros -> -> Hc.
  unfold WriteMeshInformation, OutputStream_open, out, bind, gets, modify, ret; simpl.
  unfold o_open; simpl. rewrite Hc. reflexivity.
Qed.

(** The bytes of an ASCII write: the first line, the facet blocks, the
    closing line. *)
Lemma ascii_write_bytes (env : Env) (cs : list Cell) (w : STLMeshIO) :
  m_FileType w = ASCII ->
  o_is_open (m_OutputStream w) = false ->
  can_create env (m_FileName w) = true ->
  m_NumberOfCells w = Z.of_nat (length cs) ->
  (Z.of_nat (length (encode_cells cs)) < 2 ^ 64)%Z ->
  forallb (cell_ok (length (m_Points w))) cs = true ->
  o_bytes (m_OutputStream
             (snd ((WriteMeshInformation env ;; WriteCells env (encode_cells cs))%stl w)))
  = lit "solid ascii" ++ newline ::
    flat_map (fun tri => ascii_record env (edge_cross tri) tri)
             (triangles (m_Points w) cs)
    ++ lit "endsolid" ++ newline :: [].
Proof.
  intros Ht Hc Hcan Hn Hlen Hok.
  rewrite (bind_Returned _ _ _ _ _ (WriteMeshInformation_ascii env w Ht Hc Hcan)).
  set (w1 := set_OutputStream (mkOfstream true false (lit "solid ascii" ++ endl)) w).
  destruct (WriteCells_cells env cs [] w1) as (w2 & Hw & Happ).
  - unfold w1. now destruct w.
  - now rewrite app_nil_r.
  - unfold w1. now destruct w.
  - unfold w1. split; now destruct w.
  - rewrite app_nil_r in Hw. rewrite Hw. cbn [snd]. rewrite Happ.
    unfold w1. destruct w; cbn in *. subst. reflexivity.
Qed.

Lemma length_ascii_records (env : Env) (tris : list (PointType * PointType * PointType)) :
  length tris
  <= length (flat_map (fun tri => ascii_record env (edge_cross tri) tri) tris).
Proof.
  induction tris as [|tri tris IH]; [reflexivity|].
  cbn [flat_map length]. rewrite length_app.
  destruct tri as [[q0 q1] q2]. unfold ascii_record at 1.
  rewrite length_app. cbn [lit list_ascii_of_string length]. lia.
Qed.

(** X21.  An ASCII file written by this class is read back by it.  For
    a well-formed cell buffer, take the bytes that [WriteMeshInformation]
    and [WriteCells] send to an ASCII file.  Suppose each number printed
    for a corner of a triangle is read back as some number (in general
    not the number printed: the text holds a few digits only), that the
    printed normals bring no newline and no "endsolid" into their line,
    and that the file has fewer than 2^32 lines.  Then
    [ReadMeshInformation] on that file, through an object with no
    pending line whose file type is ASCII or whose platform does not
    reopen files, returns without an exception, closes the stream, and
    has inserted into the point set the corners of the triangles as they
    are read back, in the order written. *)
Theorem an_ASCII_file_written_here_is_read_back
  (env : Env) (reread : PointValueType -> PointValueType)
  (cs : list Cell) (w r : STLMeshIO) :
  m_FileType w = ASCII ->
  o_is_open (m_OutputStream w) = false ->
  can_create env (m_FileName w) = true ->
  m_NumberOfCells w = Z.of_nat (length cs) ->
  (Z.of_nat (length (encode_cells cs)) < 2 ^ 64)%Z ->
  forallb (cell_ok (length (m_Points w))) cs = true ->
  (7 * Z.of_nat (length (triangles (m_Points w) cs)) + 3 < 2 ^ 32)%Z ->
  Forall (triangle_reads_back env reread) (triangles (m_Points w) cs) ->
  file_contents env (m_FileName r)
  = Some (o_bytes
            (m_OutputStream
               (snd ((WriteMeshInformation env ;;
                      WriteCells env (encode_cells cs))%stl w)))) ->
  stream_open r = false ->
  m_InputLine r = [] ->
  m_FileType r = ASCII \/ (m_FileType r = BINARY /\ WIN32 env = false) ->
  fst (ReadMeshInformation env r) = Returned tt
  /\ m_PointsSet (snd (ReadMeshInformation env r))
     = inserted reread (vertices (triangles (m_Points w) cs)) (m_PointsSet r)
  /\ stream_open (snd (ReadMeshInformation env r)) = false.
Proof.
  intros Ht Hc Hcan Hn Hlen Hok Hlines Hback Hf Hclosed Hline Htype.
  rewrite (ascii_write_bytes env cs w Ht Hc Hcan Hn Hlen Hok) in Hf.
  set (tris := triangles (m_Points w) cs) in *.
  set (body := flat_map (fun tri => ascii_record env (edge_cross tri) tri) tris
               ++ lit "endsolid" ++ newline :: []) in *.
  assert (Hnl : ~ In newline (lit "solid ascii")) by (cbn; intuition discriminate).
  pose proof (ReadMeshInformation_branches env r _ Hclosed
                ltac:(destruct Htype as [-> | [-> _]]; discriminate) Hf) as Hb.
  cbv zeta in Hb.
  rewrite (until_newline_app _ _ Hnl), (getline_first_line _ _ [] Hnl) in Hb.
  change (found (lit "solid ascii") (lit "solid")) with true in Hb. cbv iota in Hb.
  assert (Hsame : negb (FileType_eqb (m_FileType r) ASCII) && WIN32 env = false).
  { destruct Htype as [-> | [-> ->]]; reflexivity. }
  rewrite Hsame in Hb. cbn [fst] in Hb. rewrite Hb. clear Hb.
  set (r1 := set_FileType ASCII (set_InputStream _ r)).
  assert (Hstep : in_step (set_InputLineNumber 2 r1)).
  { apply (in_step_after_first_line (lit "solid ascii") body r1).
    - unfold r1. now destruct r.
    - exact Hnl.
    - unfold r1. now destruct r. }
  assert (Hat : reading_at (set_InputLineNumber 2 r1) body 2 (m_PointsSet r)).
  { repeat split; try apply Hstep; unfold r1; destruct r; reflexivity. }
  destruct (ReadFacets_written env reread tris
              (length (i_rest (m_InputStream (set_InputLineNumber 2 r1))))
              uninitialized uninitialized uninitialized
              (set_InputLineNumber 2 r1) [] 2 (m_PointsSet r) Hat)
    as (r2 & Hr & Hset).
  - replace (i_rest (m_InputStream (set_InputLineNumber 2 r1))) with body
      by (unfold r1; destruct r; reflexivity).
    unfold body. rewrite length_app. pose proof (length_ascii_records env tris). lia.
  - lia.
  - exact Hback.
  - assert (Ha : ReadMeshInternalFromAscii env r1 = (Returned tt, r2)).
    { unfold ReadMeshInternalFromAscii. rewrite bind_modify, bind_gets. exact Hr. }
    rewrite (bind_Returned _ _ _ _ _ Ha).
    unfold InputStream_close, modify. cbn [fst snd].
    split; [reflexivity|]. split.
    + rewrite <- Hset. now destruct r2.
    + pose proof (stream_open_ReadMeshInternalFromAscii env r1) as Ho.
      rewrite Ha in Ho. cbn [snd] in Ho.
      unfold stream_open in *. destruct r2 as [? ? ? ? ? ? ? ins2 ? ? ? ? ? ?].
      cbn [m_InputStream set_InputStream] in *.
      unfold i_close. rewrite Ho. unfold r1. destruct r. reflexivity.
Qed.

(** The sample formatting of the whole numbers 0 and 1 is read back. *)
Lemma Sample_reads_back_small (win32 : bool) (files : list (std_string * std_string))
  (b : bool) :
  reads_back (Sample.env win32 files)
             (Float32.of_Z (if b then 1 else 0)) (Float32.of_Z (if b then 1 else 0)).
Proof.
  split; [now destruct b|].
  intros c rest Hc.
  destruct c as [b0 b1 b2 b3 b4 b5 b6 b7].
  destruct b0, b1, b2, b3, b4, b5, b6, b7;
    try (cbv in Hc; discriminate Hc); destruct b; vm_compute; reflexivity.
Qed.

(** Five cells of which two are triangles over the same three points:
    the file is read back and the set holds the three points. *)
Lemma an_ASCII_file_written_here_is_read_back_witness :
  let w := set_Points Sample.three_points
             (Sample.before_writing ASCII 3 Sample.mixed_cells) in
  let file :=
    o_bytes (m_OutputStream
               (snd ((WriteMeshInformation (Sample.env false []) ;;
                      WriteCells (Sample.env false [])
                        (encode_cells Sample.mixed_cells))%stl w))) in
  let env := Sample.env false [(lit "mesh.stl", file)] in
  let r := Sample.io_for (lit "mesh.stl") ASCII in
  fst (ReadMeshInformation env r) = Returned tt
  /\ m_PointsSet (snd (ReadMeshInformation env r))
     = inserted (fun x => x)
         (vertices (triangles Sample.three_points Sample.mixed_cells)) []
  /\ stream_open (snd (ReadMeshInformation env r)) = false.
Proof.
  intros w file env r.
  refine (an_ASCII_file_written_here_is_read_back
            env (fun x => x) Sample.mixed_cells w r _ _ _ _ _ _ _ _ _ _ _ _).
  - reflexivity.
  - reflexivity.
  - reflexivity.
  - vm_compute; reflexivity.
  - vm_compute; reflexivity.
  - vm_compute; reflexivity.
  - vm_compute; reflexivity.
  - assert (Htris : triangles (m_Points w) Sample.mixed_cells
                    = [(Sample.point 0 0 0, Sample.point 1 0 0, Sample.point 0 1 0);
                       (Sample.point 0 1 0, Sample.point 1 0 0, Sample.point 0 0 0)])
      by (vm_compute; reflexivity).
    rewrite Htris.
    assert (Hp : forall a b c : bool,
               point_reads_back env (fun x => x)
                 (Sample.point (if a then 1 else 0) (if b then 1 else 0)
                               (if c then 1 else 0))).
    { intros a b c. repeat split; apply Sample_reads_back_small. }
    constructor; [|constructor; [|constructor]].
    + split; [vm_compute; reflexivity|].
      split; [apply (Hp false false false)|].
      split; [apply (Hp true false false) | apply (Hp false true false)].
    + split; [vm_compute; reflexivity|].
      split; [apply (Hp false true false)|].
      split; [apply (Hp true false false) | apply (Hp false false false)].
  - vm_compute; reflexivity.
  - reflexivity.
  - reflexivity.
  - left. reflexivity.
Defined.

(* ===================================================================== *)
(** ** Reading: how ReadMeshInformation can end                           *)
(* ===================================================================== *)

Lemma throws_only_bind {A B} P (m : M A) (k : A -> M B) :
  throws_only P m -> (forall a, throws_only P (k a)) -> throws_only P (bind m k).
Proof.
  intros Hm Hk io e. unfold bind. specialize (Hm io).
  destruct (m io) as [[a|e0| |] io']; cbn [fst] in *; try discriminate.
  - apply Hk.
  - intros [= <-]. now apply Hm.
Qed.

Lemma throws_only_quiet {A} P (m : M A) : never_throws m -> throws_only P m.
Proof. intros H io e He. now destruct (H io e). Qed.

Lemma throws_only_throw {A} (P : ExceptionObject -> bool) e :
  P e = true -> throws_only P (@throw A e).
Proof. intros H io e' [= <-]. exact H. Qed.

Ltac throws_only_steps leaf :=
  repeat first
    [ leaf
    | apply throws_only_throw; reflexivity
    | apply throws_only_quiet;
      first [ apply never_throws_modify | apply never_throws_gets
            | apply never_throws_ret | apply never_throws_undefined
            | apply never_throws_in_read
            | intros io e; cbn;
              repeat match goal with
                     | |- context [let '(_, _) := ?p in _] => destruct p
                     end;
              discriminate ]
    | apply throws_only_bind; [|intros ?]
    | match goal with
      | |- throws_only _ (if ?b then _ else _) => destruct b
      | |- throws_only _ (match ?x with _ => _ end) => destruct x
      end ].

Section HowReadingEnds.

Context (env : Env).

Lemma throws_ReadStringFromAscii expected :
  throws_only is_parse_error (ReadStringFromAscii expected).
Proof.
  unfold ReadStringFromAscii, getline_InputLine, incr_InputLineNumber.
  throws_only_steps fail.
Qed.

Lemma throws_CheckStringFromAscii expected :
  throws_only is_parse_error (CheckStringFromAscii expected).
Proof.
  unfold CheckStringFromAscii, getline_InputLine, incr_InputLineNumber.
  throws_only_steps fail.
Qed.

Lemma throws_ReadPointAsAscii p :
  throws_only is_parse_error (ReadPointAsAscii env p).
Proof.
  unfold ReadPointAsAscii, InsertPointIntoSet, incr_InputLineNumber.
  throws_only_steps fail.
Qed.

Lemma throws_ReadFacets bound p0 p1 p2 :
  throws_only is_parse_error (ReadFacets env bound p0 p1 p2).
Proof.
  revert p0 p1 p2; induction bound as [|bound IH]; intros; cbn [ReadFacets].
  - intros io e; discriminate.
  - throws_only_steps
      ltac:(first [ apply throws_CheckStringFromAscii
                  | apply throws_ReadStringFromAscii
                  | apply throws_ReadPointAsAscii
                  | apply IH ]).
Qed.

Lemma throws_ReadMeshInformation :
  throws_only (fun e => is_open_failure e || is_parse_error e)
              (ReadMeshInformation env).
Proof.
  assert (Hascii : throws_only (fun e => is_open_failure e || is_parse_error e)
                     (ReadMeshInternalFromAscii env)).
  { intros io e He. apply orb_true_iff. right. revert io e He.
    change (throws_only is_parse_error (ReadMeshInternalFromAscii env)).
    unfold ReadMeshInternalFromAscii.
    throws_only_steps ltac:(apply throws_ReadFacets). }
  unfold ReadMeshInformation, OpenInputForFileType, ReopenOnWin32,
    InputStream_open, InputStream_close.
  throws_only_steps
    ltac:(first [ apply Hascii
                | apply throws_only_quiet, never_throws_ReadMeshInternalFromBinary ]).
Qed.

(** X22.  Every call of [ReadMeshInformation] ends, whatever the file
    holds: the loop of the ASCII reader, which has no test for the end
    of the file, always stops.  The call returns, or runs into
    behaviour the language leaves undefined, or throws; and what it
    throws is the failure to open the file or a parse error of the
    ASCII reader, never anything else. *)
Theorem ReadMeshInformation_ends_and_throws_only_read_errors (io : STLMeshIO) :
  fst (ReadMeshInformation env io) = Returned tt
  \/ fst (ReadMeshInformation env io) = UndefinedBehaviour
  \/ exists e,
       fst (ReadMeshInformation env io) = Thrown e
       /\ (is_open_failure e = true \/ is_parse_error e = true).
Proof.
  pose proof (ReadMeshInformation_finishes env io) as Hfin.
  pose proof (throws_ReadMeshInformation io) as Hthrows.
  destruct (fst (ReadMeshInformation env io)) as [[]|e| |].
  - now left.
  - right. right. exists e. split; [reflexivity|].
    apply orb_true_iff. now apply Hthrows.
  - right. now left.
  - now destruct Hfin.
Qed.

End HowReadingEnds.

(* ===================================================================== *)
(** ** Reading: what a parse error cites                                  *)
(* ===================================================================== *)








Section LinesOfAFile.

Context (env : Env).






End LinesOfAFile.









